(** * IatePDFs: a shallow embedding of the PDF operations and of the
    window state of [IAtePDFs.py] and [gtk4IatePDFs.py].

    The two scripts share their document operations (compress, merge,
    reorder; [IAtePDFs.py] also splits) and differ in the window around
    them.  Each script is embedded in a module of its own, function by
    function, over one model of what they call: Python values and
    exceptions, the file system and [subprocess], and pypdf.

    Modelling assumptions on the environment (none of it is code of the
    repository):
    - a PDF file is the list of its pages plus its encryption flag; a page
      is an opaque object;
    - [PdfReader(path)] reads the whole file when it is constructed, so a
      reader is a snapshot of the document at open time; an encrypted
      document stands for one that needs a password, which is never given,
      so its pages cannot be accessed (a document that pypdf decrypts with
      the empty password reports [is_encrypted] and yet gives its pages; it
      is outside the model);
    - the file system is a finite map from paths to files with a set of
      directories; it has no permissions and no quota: creating a directory
      and opening a path for writing always succeed, so the statements
      about a write are statements about a write that the system lets
      through;
    - an external program is a function from its argument vector and the
      files to an exit status, its two output streams and the files it
      leaves; on a [Host], [subprocess.run] finds the program or raises
      [FileNotFoundError], and the program's output is text.  What else
      [subprocess.run] can raise (a file that may not be executed, output
      that is not text) is outside a [Host]: module [Worker] takes
      [subprocess.run] as any computation, for the statements about a
      worker that must not depend on it;
    - a worker thread runs its body in one step. *)

From stdpp Require Import base option list strings pretty gmap.
From Stdlib Require Import ZArith Lia Ascii.

#[local] Open Scope Z_scope.
#[local] Open Scope string_scope.

(** ** Python: exceptions, results, paths *)

Module Py.

Inductive Exception :=
| FileNotFoundError (filename : string)
| CalledProcessError (returncode : Z) (stderr : string)
| IndexError (msg : string)
| AttributeError (msg : string)
| PdfReadError (msg : string)
| FileNotDecryptedError (msg : string)
| PermissionError (filename : string)
| UnicodeDecodeError (msg : string).

(** [str(e)], what an f-string prints for [{e}]. *)
Definition str (e : Exception) : string :=
  match e with
  | FileNotFoundError filename =>
      "[Errno 2] No such file or directory: '" +:+ filename +:+ "'"
  | CalledProcessError returncode _ =>
      "Command returned non-zero exit status " +:+ pretty returncode +:+ "."
  | IndexError msg => msg
  | AttributeError msg => msg
  | PdfReadError msg => msg
  | FileNotDecryptedError msg => msg
  | PermissionError filename =>
      "[Errno 13] Permission denied: '" +:+ filename +:+ "'"
  | UnicodeDecodeError msg => msg
  end.

(** The outcome of evaluating an expression: a value or a raised exception. *)
Inductive result (A : Type) :=
| Ok (a : A)
| Raise (e : Exception).
Arguments Ok {A} a.
Arguments Raise {A} e.

(** [posixpath.join(a, b)]. *)
Definition starts_with_sep (b : string) : bool :=
  match b with
  | String c _ => bool_decide (c = "/"%char)
  | EmptyString => false
  end.

Fixpoint ends_with_sep (a : string) : bool :=
  match a with
  | EmptyString => false
  | String c EmptyString => bool_decide (c = "/"%char)
  | String _ rest => ends_with_sep rest
  end.

Definition path_join (a b : string) : string :=
  if starts_with_sep b then b
  else if bool_decide (a = "") || ends_with_sep a then a +:+ b
  else a +:+ "/" +:+ b.

(** [os.path.basename(p)]: what follows the last separator. *)
Fixpoint basename_from (name p : string) : string :=
  match p with
  | EmptyString => name
  | String c rest =>
      if bool_decide (c = "/"%char) then basename_from rest rest
      else basename_from name rest
  end.

Definition basename (p : string) : string := basename_from p p.

(** [s.lower()], on ASCII letters. *)
Definition lower_char (c : ascii) : ascii :=
  let n := nat_of_ascii c in
  if ((65 <=? n) && (n <=? 90))%nat then ascii_of_nat (n + 32) else c.

Fixpoint lower (s : string) : string :=
  match s with
  | EmptyString => EmptyString
  | String c rest => String (lower_char c) (lower rest)
  end.

(** [s.endswith(suffix)]. *)
Definition endswith (s suffix : string) : bool :=
  let n := String.length s in
  let k := String.length suffix in
  ((k <=? n)%nat && bool_decide (String.substring (n - k) k s = suffix)).

(** The truth value of a string or [None]. *)
Definition truthy (v : option string) : bool :=
  match v with
  | None => false
  | Some s => negb (bool_decide (s = ""))
  end.

End Py.

(** ** The operating system: files, directories, processes *)

Module Os.
Import Py.

(** A page object; its content is opaque to the application. *)
Record Page := { page_content : string }.

(** What pypdf finds in a file that parses as a PDF. *)
Record PdfDocument := {
  doc_encrypted : bool;
  doc_pages : list Page
}.

Inductive File :=
| PdfFile (d : PdfDocument)
| OtherFile (bytes : string).

(** An executable on the search path: from its argument vector and the files
    to its exit status, standard output, standard error and the files
    afterwards. *)
Definition Program : Type :=
  list string → gmap string File → (Z * string * string) * gmap string File.

Record Host := { which : string → option Program }.

Record World := {
  files : gmap string File;
  dirs : gset string;
  run_calls : list (list string)   (* argument vectors given to subprocess.run *)
}.

Definition set_files (fs : gmap string File) (w : World) : World :=
  {| files := fs; dirs := dirs w; run_calls := run_calls w |}.

Definition add_dir (d : string) (w : World) : World :=
  {| files := files w; dirs := {[ d ]} ∪ dirs w; run_calls := run_calls w |}.

Definition log_run (command : list string) (w : World) : World :=
  {| files := files w; dirs := dirs w; run_calls := run_calls w ++ [command] |}.

(** Computations that read and change the world and may raise. *)
Definition M (A : Type) : Type := World → World * result A.

Definition ret {A} (a : A) : M A := λ w, (w, Ok a).
Definition raise {A} (e : Exception) : M A := λ w, (w, Raise e).
Definition bind {A B} (m : M A) (k : A → M B) : M B :=
  λ w, match m w with
       | (w', Ok a) => k a w'
       | (w', Raise e) => (w', Raise e)
       end.

(** [try: body  except ... as e: handler(e)]; a handler re-raises what its
    [except] clauses do not name. *)
Definition try_except {A} (body : M A) (handler : Exception → M A) : M A :=
  λ w, match body w with
       | (w', Ok a) => (w', Ok a)
       | (w', Raise e) => handler e w'
       end.

(** [os.makedirs(d, exist_ok=True)]. *)
Definition makedirs (d : string) : M unit :=
  λ w, (add_dir d w, Ok tt).

(** [with open(path, "wb") as f: f.write(content)]. *)
Definition write_file (path : string) (content : File) : M unit :=
  λ w, (set_files (<[path := content]> (files w)) w, Ok tt).

(** [subprocess.run(command, check=True, capture_output=True, text=True)]:
    the captured standard output. *)
Definition subprocess_run (host : Host) (command : list string) : M string :=
  λ w,
    let w := log_run command w in
    match command with
    | [] => (w, Raise (IndexError "list index out of range"))
    | exe :: _ =>
        match which host exe with
        | None => (w, Raise (FileNotFoundError exe))
        | Some prog =>
            let '(returncode, stdout, stderr, fs) := prog command (files w) in
            let w := set_files fs w in
            if (returncode =? 0)%Z then (w, Ok stdout)
            else (w, Raise (CalledProcessError returncode stderr))
        end
    end.

End Os.

Notation "'do' x <- m ; k" := (Os.bind m (λ x, k))
  (at level 10, x name, m at level 100, k at level 200, only parsing).

(** ** pypdf: readers and writers *)

Module Pypdf.
Import Py Os.

(** A [PdfReader]: the document as it was when the reader was constructed. *)
Record PdfReader := {
  is_encrypted : bool;
  stream_pages : list Page
}.

(** [PdfReader(path)]. *)
Definition PdfReader_new (path : string) : M PdfReader :=
  λ w, match files w !! path with
       | None => (w, Raise (FileNotFoundError path))
       | Some (OtherFile _) => (w, Raise (PdfReadError "EOF marker not found"))
       | Some (PdfFile d) =>
           (w, Ok {| is_encrypted := doc_encrypted d; stream_pages := doc_pages d |})
       end.

(** [len(reader.pages)]. *)
Definition pages_len (reader : PdfReader) : M nat :=
  if is_encrypted reader
  then raise (FileNotDecryptedError "File has not been decrypted")
  else ret (length (stream_pages reader)).

(** [reader.pages[index]]: a negative index counts from the end. *)
Definition pages_getitem (reader : PdfReader) (index : Z) : M Page :=
  do len_self <- pages_len reader;
  let index := if (index <? 0)%Z then (Z.of_nat len_self + index)%Z else index in
  if ((index <? 0) || (Z.of_nat len_self <=? index))%Z
  then raise (IndexError "Sequence index out of range")
  else match stream_pages reader !! Z.to_nat index with
       | Some page => ret page
       | None => raise (IndexError "Sequence index out of range")
       end.

(** [list(reader.pages)], the pages an iteration goes through. *)
Definition pages_iter (reader : PdfReader) : M (list Page) :=
  do _ <- pages_len reader;
  ret (stream_pages reader).

(** A [PdfWriter]: the pages added so far. *)
Record PdfWriter := { writer_pages : list Page }.

Definition PdfWriter_new : PdfWriter := {| writer_pages := [] |}.

Definition add_page (writer : PdfWriter) (page : Page) : PdfWriter :=
  {| writer_pages := writer_pages writer ++ [page] |}.

(** [writer.append(path)]: every page of the document at [path]. *)
Definition append (writer : PdfWriter) (path : string) : M PdfWriter :=
  do reader <- PdfReader_new path;
  do pages <- pages_iter reader;
  ret {| writer_pages := writer_pages writer ++ pages |}.

(** [writer.write(f)] on a file opened with ["wb"] at [path]. *)
Definition write (writer : PdfWriter) (path : string) : M unit :=
  write_file path (PdfFile {| doc_encrypted := false; doc_pages := writer_pages writer |}).

End Pypdf.

(** ** gtk4IatePDFs.py *)

Module Gtk4IatePDFs.
Import Py Os Pypdf.

(** *** Core logic *)

Definition compress_pdf (host : Host) (input_path output_path quality : string)
  : M (bool * string) :=
  try_except
    (let command :=
       [ "gs"; "-sDEVICE=pdfwrite"; "-dCompatibilityLevel=1.4";
         "-dPDFSETTINGS=/" +:+ quality; "-dNOPAUSE"; "-dQUIET"; "-dBATCH";
         "-sOutputFile=" +:+ output_path; input_path ] in
     do _ <- subprocess_run host command;
     ret (true, "Compression successful."))
    (λ e, match e with
          | FileNotFoundError _ =>
              ret (false, "Error: Ghostscript (gs) is not installed or not in your PATH.")
          | CalledProcessError _ stderr =>
              ret (false, "Ghostscript failed: " +:+ stderr)
          | _ => raise e
          end).

(** [for path in pdf_paths: merger.append(path)]. *)
Fixpoint merge_loop (merger : PdfWriter) (pdf_paths : list string) : M PdfWriter :=
  match pdf_paths with
  | [] => ret merger
  | path :: rest =>
      do merger <- append merger path;
      merge_loop merger rest
  end.

Definition merge_pdfs (pdf_paths : list string) (output_path : string) : M (bool * string) :=
  let merger := PdfWriter_new in
  try_except
    (do merger <- merge_loop merger pdf_paths;
     do _ <- write merger output_path;
     ret (true, "Successfully merged " +:+ pretty (length pdf_paths) +:+ " files."))
    (λ e, ret (false, "Failed to merge PDFs: " +:+ str e)).

(** [for index in new_order_indices: writer.add_page(reader.pages[index])]. *)
Fixpoint reorder_loop (reader : PdfReader) (writer : PdfWriter)
    (new_order_indices : list Z) : M PdfWriter :=
  match new_order_indices with
  | [] => ret writer
  | index :: rest =>
      do page <- pages_getitem reader index;
      reorder_loop reader (add_page writer page) rest
  end.

Definition reorder_pdf_pages (input_path output_path : string)
    (new_order_indices : list Z) : M (bool * string) :=
  try_except
    (do reader <- PdfReader_new input_path;
     let writer := PdfWriter_new in
     do writer <- reorder_loop reader writer new_order_indices;
     do _ <- write writer output_path;
     ret (true, "Successfully reordered pages."))
    (λ e, ret (false, "Failed to reorder PDF: " +:+ str e)).

(** *** Reorderable widgets *)

(** A [PdfPageWidget] of this script carries its page index only. *)
Record PdfPageWidget := { original_page_index : Z }.

(** *** Main application window: the reorder view

    Widgets are kept by what the code reads and writes of them: a button by
    its sensitivity, a stack by the name of its visible child, a container
    by the list of its children, the toast overlay by the titles shown. *)
Record Window := {
  is_processing : bool;
  reorder_source_path : option string;
  reorder_flow_box : list PdfPageWidget;
  reorder_button : bool;
  reorder_view_stack : string;
  toasts : list string
}.

Definition add_toast (title : string) (self : Window) : Window :=
  {| is_processing := is_processing self;
     reorder_source_path := reorder_source_path self;
     reorder_flow_box := reorder_flow_box self;
     reorder_button := reorder_button self;
     reorder_view_stack := reorder_view_stack self;
     toasts := toasts self ++ [title] |}.

(** [_update_reorder_view_state(has_file=has_file)], on the window's own
    stack and button. *)
Definition _update_reorder_view_state (has_file : bool) (self : Window) : Window :=
  {| is_processing := is_processing self;
     reorder_source_path := if has_file then reorder_source_path self else None;
     reorder_flow_box := reorder_flow_box self;
     reorder_button := has_file && negb (is_processing self);
     reorder_view_stack := if has_file then "grid" else "placeholder";
     toasts := toasts self |}.

(** [for i in range(num_pages): ...append(PdfPageWidget(file_path, i))]. *)
Definition page_widgets (num_pages : nat) : list PdfPageWidget :=
  (λ i : nat, {| original_page_index := Z.of_nat i |}) <$> seq 0 num_pages.

Definition _load_pdf_for_reordering (file_path : string) (w : World) (self : Window)
  : Window :=
  let except (e : Exception) :=
    _update_reorder_view_state false (add_toast ("Error reading PDF: " +:+ str e) self) in
  match PdfReader_new file_path w with
  | (_, Raise e) => except e
  | (_, Ok reader) =>
      if is_encrypted reader
      then add_toast "Could not load: The PDF is encrypted." self
      else
        match pages_len reader w with
        | (_, Raise e) => except e
        | (_, Ok num_pages) =>
            if bool_decide (num_pages = 0%nat)
            then add_toast "PDF is empty or cannot be read." self
            else
              _update_reorder_view_state true
                {| is_processing := is_processing self;
                   reorder_source_path := Some file_path;
                   reorder_flow_box := page_widgets num_pages;
                   reorder_button := reorder_button self;
                   reorder_view_stack := reorder_view_stack self;
                   toasts := toasts self |}
        end
  end.

End Gtk4IatePDFs.

(** ** IAtePDFs.py *)

Module IAtePDFs.
Import Py Os Pypdf.

(** *** Reorderable widgets *)

(** A [PdfFileRow] of the merge list. *)
Record PdfFileRow := { file_path : string }.

(** A [PdfPageWidget]: its page, its deletion mark, and whether its delete
    toggle is pressed.  (The opacity of the card, which follows the mark, is
    left out.) *)
Record PdfPageWidget := {
  original_page_index : Z;
  is_deleted : bool;
  delete_button_active : bool
}.

(** [PdfPageWidget(pdf_path, page_index)]. *)
Definition PdfPageWidget_new (page_index : Z) : PdfPageWidget :=
  {| original_page_index := page_index; is_deleted := false; delete_button_active := false |}.

(** [_on_delete_toggled(button)]. *)
Definition _on_delete_toggled (button_active : bool) (self : PdfPageWidget) : PdfPageWidget :=
  {| original_page_index := original_page_index self;
     is_deleted := button_active;
     delete_button_active := delete_button_active self |}.

(** A click on the delete toggle: the button changes state and emits
    [toggled]. *)
Definition click_delete_button (self : PdfPageWidget) : PdfPageWidget :=
  let active := negb (delete_button_active self) in
  _on_delete_toggled active
    {| original_page_index := original_page_index self;
       is_deleted := is_deleted self;
       delete_button_active := active |}.

(** [box.insert(child, position)]: past the end, the child is appended. *)
Definition box_insert {A} (child : A) (position : nat) (box : list A) : list A :=
  take position box ++ child :: drop position box.

(** [_on_drop] of a row or of a page widget, for a source and a target that
    are children of the same container, named by their positions in it:
    [source is target] is equality of positions, [target.get_index()] is the
    target's position, and a target that has no parent box changes nothing. *)
Definition _on_drop_child {A} (source target : nat) (box : list A) : list A :=
  if bool_decide (source = target) then box
  else if bool_decide (length box ≤ target)%nat then box
  else
    let target_index := target in
    match box !! source with
    | None => box
    | Some source_container =>
        box_insert source_container target_index (delete source box)
    end.

(** *** The main application window *)

(** The [callback_on_accept] of an open file chooser. *)
Inductive Callback :=
| run_compress_task
| run_split_task
| run_merge_task
| run_reorder_task.

(** A started worker thread, with what its [task] closure captured. *)
Inductive Thread :=
| compress_thread (input_path output_path : string)
| split_thread (input_path output_dir : string)
| merge_thread (pdf_paths : list string) (output_path : string)
| reorder_thread (output_path : string) (new_order_indices : list Z).

(** A pending [GLib.idle_add(self._on_task_finished, ...)]. *)
Record IdleCall := {
  idle_success : bool;
  idle_message : string;
  idle_clear_merge : bool
}.

(** The window, by what the code reads and writes: a button by its
    sensitivity, a stack by the name of its visible child, a container by the
    list of its children, the toast overlay by the titles shown; to these the
    open file choosers, the running workers and the idle queue are added. *)
Record Window := {
  is_processing : bool;
  selected_pdf : option string;
  reorder_source_path : option string;
  compression_quality : string;
  merge_list_box : list PdfFileRow;
  reorder_flow_box : list PdfPageWidget;
  reorder_subtitle : string;
  main_stack : string;
  clear_button : bool;
  merge_button : bool;
  compress_button : bool;
  split_button : bool;
  reorder_button : bool;
  toasts : list string;
  dialogs : list Callback;
  threads : list Thread;
  idle_sources : list IdleCall
}.

Definition set_is_processing (v : bool) (self : Window) : Window :=
  {| is_processing := v; selected_pdf := selected_pdf self;
     reorder_source_path := reorder_source_path self;
     compression_quality := compression_quality self;
     merge_list_box := merge_list_box self; reorder_flow_box := reorder_flow_box self;
     reorder_subtitle := reorder_subtitle self; main_stack := main_stack self;
     clear_button := clear_button self; merge_button := merge_button self;
     compress_button := compress_button self; split_button := split_button self;
     reorder_button := reorder_button self; toasts := toasts self;
     dialogs := dialogs self; threads := threads self;
     idle_sources := idle_sources self |}.

Definition set_selected_pdf (v : option string) (self : Window) : Window :=
  {| is_processing := is_processing self; selected_pdf := v;
     reorder_source_path := reorder_source_path self;
     compression_quality := compression_quality self;
     merge_list_box := merge_list_box self; reorder_flow_box := reorder_flow_box self;
     reorder_subtitle := reorder_subtitle self; main_stack := main_stack self;
     clear_button := clear_button self; merge_button := merge_button self;
     compress_button := compress_button self; split_button := split_button self;
     reorder_button := reorder_button self; toasts := toasts self;
     dialogs := dialogs self; threads := threads self;
     idle_sources := idle_sources self |}.

Definition set_reorder_source_path (v : option string) (self : Window) : Window :=
  {| is_processing := is_processing self; selected_pdf := selected_pdf self;
     reorder_source_path := v; compression_quality := compression_quality self;
     merge_list_box := merge_list_box self; reorder_flow_box := reorder_flow_box self;
     reorder_subtitle := reorder_subtitle self; main_stack := main_stack self;
     clear_button := clear_button self; merge_button := merge_button self;
     compress_button := compress_button self; split_button := split_button self;
     reorder_button := reorder_button self; toasts := toasts self;
     dialogs := dialogs self; threads := threads self;
     idle_sources := idle_sources self |}.

Definition set_compression_quality (v : string) (self : Window) : Window :=
  {| is_processing := is_processing self; selected_pdf := selected_pdf self;
     reorder_source_path := reorder_source_path self; compression_quality := v;
     merge_list_box := merge_list_box self; reorder_flow_box := reorder_flow_box self;
     reorder_subtitle := reorder_subtitle self; main_stack := main_stack self;
     clear_button := clear_button self; merge_button := merge_button self;
     compress_button := compress_button self; split_button := split_button self;
     reorder_button := reorder_button self; toasts := toasts self;
     dialogs := dialogs self; threads := threads self;
     idle_sources := idle_sources self |}.

Definition set_merge_list_box (v : list PdfFileRow) (self : Window) : Window :=
  {| is_processing := is_processing self; selected_pdf := selected_pdf self;
     reorder_source_path := reorder_source_path self;
     compression_quality := compression_quality self; merge_list_box := v;
     reorder_flow_box := reorder_flow_box self;
     reorder_subtitle := reorder_subtitle self; main_stack := main_stack self;
     clear_button := clear_button self; merge_button := merge_button self;
     compress_button := compress_button self; split_button := split_button self;
     reorder_button := reorder_button self; toasts := toasts self;
     dialogs := dialogs self; threads := threads self;
     idle_sources := idle_sources self |}.

Definition set_reorder_flow_box (v : list PdfPageWidget) (self : Window) : Window :=
  {| is_processing := is_processing self; selected_pdf := selected_pdf self;
     reorder_source_path := reorder_source_path self;
     compression_quality := compression_quality self;
     merge_list_box := merge_list_box self; reorder_flow_box := v;
     reorder_subtitle := reorder_subtitle self; main_stack := main_stack self;
     clear_button := clear_button self; merge_button := merge_button self;
     compress_button := compress_button self; split_button := split_button self;
     reorder_button := reorder_button self; toasts := toasts self;
     dialogs := dialogs self; threads := threads self;
     idle_sources := idle_sources self |}.

Definition set_reorder_subtitle (v : string) (self : Window) : Window :=
  {| is_processing := is_processing self; selected_pdf := selected_pdf self;
     reorder_source_path := reorder_source_path self;
     compression_quality := compression_quality self;
     merge_list_box := merge_list_box self; reorder_flow_box := reorder_flow_box self;
     reorder_subtitle := v; main_stack := main_stack self;
     clear_button := clear_button self; merge_button := merge_button self;
     compress_button := compress_button self; split_button := split_button self;
     reorder_button := reorder_button self; toasts := toasts self;
     dialogs := dialogs self; threads := threads self;
     idle_sources := idle_sources self |}.

Definition set_main_stack (v : string) (self : Window) : Window :=
  {| is_processing := is_processing self; selected_pdf := selected_pdf self;
     reorder_source_path := reorder_source_path self;
     compression_quality := compression_quality self;
     merge_list_box := merge_list_box self; reorder_flow_box := reorder_flow_box self;
     reorder_subtitle := reorder_subtitle self; main_stack := v;
     clear_button := clear_button self; merge_button := merge_button self;
     compress_button := compress_button self; split_button := split_button self;
     reorder_button := reorder_button self; toasts := toasts self;
     dialogs := dialogs self; threads := threads self;
     idle_sources := idle_sources self |}.

Definition set_clear_button (v : bool) (self : Window) : Window :=
  {| is_processing := is_processing self; selected_pdf := selected_pdf self;
     reorder_source_path := reorder_source_path self;
     compression_quality := compression_quality self;
     merge_list_box := merge_list_box self; reorder_flow_box := reorder_flow_box self;
     reorder_subtitle := reorder_subtitle self; main_stack := main_stack self;
     clear_button := v; merge_button := merge_button self;
     compress_button := compress_button self; split_button := split_button self;
     reorder_button := reorder_button self; toasts := toasts self;
     dialogs := dialogs self; threads := threads self;
     idle_sources := idle_sources self |}.

Definition set_merge_button (v : bool) (self : Window) : Window :=
  {| is_processing := is_processing self; selected_pdf := selected_pdf self;
     reorder_source_path := reorder_source_path self;
     compression_quality := compression_quality self;
     merge_list_box := merge_list_box self; reorder_flow_box := reorder_flow_box self;
     reorder_subtitle := reorder_subtitle self; main_stack := main_stack self;
     clear_button := clear_button self; merge_button := v;
     compress_button := compress_button self; split_button := split_button self;
     reorder_button := reorder_button self; toasts := toasts self;
     dialogs := dialogs self; threads := threads self;
     idle_sources := idle_sources self |}.

Definition set_compress_button (v : bool) (self : Window) : Window :=
  {| is_processing := is_processing self; selected_pdf := selected_pdf self;
     reorder_source_path := reorder_source_path self;
     compression_quality := compression_quality self;
     merge_list_box := merge_list_box self; reorder_flow_box := reorder_flow_box self;
     reorder_subtitle := reorder_subtitle self; main_stack := main_stack self;
     clear_button := clear_button self; merge_button := merge_button self;
     compress_button := v; split_button := split_button self;
     reorder_button := reorder_button self; toasts := toasts self;
     dialogs := dialogs self; threads := threads self;
     idle_sources := idle_sources self |}.

Definition set_split_button (v : bool) (self : Window) : Window :=
  {| is_processing := is_processing self; selected_pdf := selected_pdf self;
     reorder_source_path := reorder_source_path self;
     compression_quality := compression_quality self;
     merge_list_box := merge_list_box self; reorder_flow_box := reorder_flow_box self;
     reorder_subtitle := reorder_subtitle self; main_stack := main_stack self;
     clear_button := clear_button self; merge_button := merge_button self;
     compress_button := compress_button self; split_button := v;
     reorder_button := reorder_button self; toasts := toasts self;
     dialogs := dialogs self; threads := threads self;
     idle_sources := idle_sources self |}.

Definition set_reorder_button (v : bool) (self : Window) : Window :=
  {| is_processing := is_processing self; selected_pdf := selected_pdf self;
     reorder_source_path := reorder_source_path self;
     compression_quality := compression_quality self;
     merge_list_box := merge_list_box self; reorder_flow_box := reorder_flow_box self;
     reorder_subtitle := reorder_subtitle self; main_stack := main_stack self;
     clear_button := clear_button self; merge_button := merge_button self;
     compress_button := compress_button self; split_button := split_button self;
     reorder_button := v; toasts := toasts self; dialogs := dialogs self;
     threads := threads self; idle_sources := idle_sources self |}.

Definition set_toasts (v : list string) (self : Window) : Window :=
  {| is_processing := is_processing self; selected_pdf := selected_pdf self;
     reorder_source_path := reorder_source_path self;
     compression_quality := compression_quality self;
     merge_list_box := merge_list_box self; reorder_flow_box := reorder_flow_box self;
     reorder_subtitle := reorder_subtitle self; main_stack := main_stack self;
     clear_button := clear_button self; merge_button := merge_button self;
     compress_button := compress_button self; split_button := split_button self;
     reorder_button := reorder_button self; toasts := v; dialogs := dialogs self;
     threads := threads self; idle_sources := idle_sources self |}.

Definition set_dialogs (v : list Callback) (self : Window) : Window :=
  {| is_processing := is_processing self; selected_pdf := selected_pdf self;
     reorder_source_path := reorder_source_path self;
     compression_quality := compression_quality self;
     merge_list_box := merge_list_box self; reorder_flow_box := reorder_flow_box self;
     reorder_subtitle := reorder_subtitle self; main_stack := main_stack self;
     clear_button := clear_button self; merge_button := merge_button self;
     compress_button := compress_button self; split_button := split_button self;
     reorder_button := reorder_button self; toasts := toasts self; dialogs := v;
     threads := threads self; idle_sources := idle_sources self |}.

Definition set_threads (v : list Thread) (self : Window) : Window :=
  {| is_processing := is_processing self; selected_pdf := selected_pdf self;
     reorder_source_path := reorder_source_path self;
     compression_quality := compression_quality self;
     merge_list_box := merge_list_box self; reorder_flow_box := reorder_flow_box self;
     reorder_subtitle := reorder_subtitle self; main_stack := main_stack self;
     clear_button := clear_button self; merge_button := merge_button self;
     compress_button := compress_button self; split_button := split_button self;
     reorder_button := reorder_button self; toasts := toasts self;
     dialogs := dialogs self; threads := v; idle_sources := idle_sources self |}.

Definition set_idle_sources (v : list IdleCall) (self : Window) : Window :=
  {| is_processing := is_processing self; selected_pdf := selected_pdf self;
     reorder_source_path := reorder_source_path self;
     compression_quality := compression_quality self;
     merge_list_box := merge_list_box self; reorder_flow_box := reorder_flow_box self;
     reorder_subtitle := reorder_subtitle self; main_stack := main_stack self;
     clear_button := clear_button self; merge_button := merge_button self;
     compress_button := compress_button self; split_button := split_button self;
     reorder_button := reorder_button self; toasts := toasts self;
     dialogs := dialogs self; threads := threads self; idle_sources := v |}.

Definition add_toast (title : string) (self : Window) : Window :=
  set_toasts (toasts self ++ [title]) self.

(** [PdfToolWindow.__init__]. *)
Definition Window_new : Window :=
  {| is_processing := false;
     selected_pdf := None;
     reorder_source_path := None;
     compression_quality := "ebook";
     merge_list_box := [];
     reorder_flow_box := [];
     reorder_subtitle := "Select a PDF file to reorder its pages";
     main_stack := "placeholder";
     clear_button := false;
     merge_button := false;
     compress_button := false;
     split_button := false;
     reorder_button := false;
     toasts := [];
     dialogs := [];
     threads := [];
     idle_sources := [] |}.

(** [update_ui_state()]. *)
Definition update_ui_state (self : Window) : Window :=
  let merge_count := length (merge_list_box self) in
  let has_selected_file := bool_decide (selected_pdf self ≠ None) in
  let has_reorder_content := bool_decide (reorder_source_path self ≠ None) in
  let self := set_merge_button ((2 <=? merge_count)%nat && negb (is_processing self)) self in
  let self := set_compress_button (has_selected_file && negb (is_processing self)) self in
  let self := set_split_button (has_selected_file && negb (is_processing self)) self in
  let self := set_reorder_button (has_reorder_content && negb (is_processing self)) self in
  let self := set_clear_button ((0 <? merge_count)%nat && negb (is_processing self)) self in
  if bool_decide (merge_count = 0%nat) then
    let self := set_main_stack "placeholder" self in
    let self := set_selected_pdf None self in
    set_reorder_source_path None self
  else self.

(** [_clear_reorder_view()]. *)
Definition _clear_reorder_view (self : Window) : Window :=
  let self := set_reorder_flow_box [] self in
  set_reorder_subtitle "Select a PDF file to reorder its pages" self.

(** [for i in range(n): self.reorder_flow_box.append(PdfPageWidget(file_path, i))]. *)
Definition append_page_widgets (n : nat) (self : Window) : Window :=
  set_reorder_flow_box
    (reorder_flow_box self ++ ((λ i : nat, PdfPageWidget_new (Z.of_nat i)) <$> seq 0 n)) self.

(** [_load_pdf_for_reordering(file_path)]. *)
Definition _load_pdf_for_reordering (file_path : string) (w : World) (self : Window)
  : Window :=
  let except (e : Exception) (self : Window) :=
    add_toast ("Error reading PDF: " +:+ str e) self in
  match PdfReader_new file_path w with
  | (_, Raise e) => except e self
  | (_, Ok reader) =>
      if is_encrypted reader
      then add_toast "Cannot load encrypted PDF." self
      else
        let self := _clear_reorder_view self in
        let self := set_reorder_source_path (Some file_path) self in
        let filename := basename file_path in
        let self := set_reorder_subtitle ("Reordering pages for: " +:+ filename) self in
        match pages_len reader w with
        | (_, Raise e) => except e self
        | (_, Ok n) => append_page_widgets n self
        end
  end.

(** [_on_file_selected(listbox, row)]. *)
Definition _on_file_selected (row : option PdfFileRow) (w : World) (self : Window)
  : Window :=
  let self :=
    match row with
    | None =>
        let self := set_selected_pdf None self in
        let self := _clear_reorder_view self in
        set_reorder_source_path None self
    | Some row =>
        let self := set_selected_pdf (Some (file_path row)) self in
        _load_pdf_for_reordering (file_path row) w self
    end in
  update_ui_state self.

(** [_add_pdf_to_merge_list(file_path)]. *)
Definition _add_pdf_to_merge_list (path : string) (self : Window) : Window :=
  let row := {| file_path := path |} in
  set_merge_list_box (merge_list_box self ++ [row]) self.

(** [_handle_files(pdf_paths)]; [select_row] emits [row-selected], which runs
    [_on_file_selected]. *)
Definition _handle_files (pdf_paths : list string) (w : World) (self : Window) : Window :=
  let self := set_main_stack "content" self in
  let self := foldl (λ self path, _add_pdf_to_merge_list path self) self pdf_paths in
  let self :=
    if negb (truthy (selected_pdf self)) && negb (bool_decide (pdf_paths = [])) then
      match merge_list_box self !! 0%nat with
      | Some first_row => _on_file_selected (Some first_row) w self
      | None => self
      end
    else self in
  update_ui_state self.

(** [_on_drop(drop_target, value, x, y)] of the window; a dropped file is
    given by its [get_path()]. *)
Definition _on_drop (files : list (option string)) (w : World) (self : Window) : Window :=
  if bool_decide (files = []) || is_processing self then
    if is_processing self
    then add_toast "A task is already in progress." self
    else self
  else
    let pdf_files :=
      omap (λ f : option string,
              match f with
              | Some path =>
                  if truthy (Some path) && endswith (lower path) ".pdf"
                  then Some path else None
              | None => None
              end) files in
    if negb (bool_decide (pdf_files = [])) then _handle_files pdf_files w self
    else self.

(** [_on_clear_clicked(button)]. *)
Definition _on_clear_clicked (self : Window) : Window :=
  let self := set_merge_list_box [] self in
  let self := _clear_reorder_view self in
  let self := set_selected_pdf None self in
  let self := set_reorder_source_path None self in
  let self := set_main_stack "placeholder" self in
  update_ui_state self.

(** [PdfFileRow._on_remove_clicked(button)], for the row at [position]. *)
Definition _on_remove_clicked (position : nat) (self : Window) : Window :=
  let self := set_merge_list_box (delete position (merge_list_box self)) self in
  update_ui_state self.

(** [_show_save_dialog] and [_show_folder_dialog]: the chooser is presented
    and keeps its callback until it answers. *)
Definition _show_dialog (callback_on_accept : Callback) (self : Window) : Window :=
  set_dialogs (dialogs self ++ [callback_on_accept]) self.

Definition _on_compress_clicked (self : Window) : Window :=
  if negb (truthy (selected_pdf self)) then self
  else _show_dialog run_compress_task self.

Definition _on_split_clicked (self : Window) : Window :=
  if negb (truthy (selected_pdf self)) then self
  else _show_dialog run_split_task self.

Definition _on_merge_clicked (self : Window) : Window :=
  _show_dialog run_merge_task self.

Definition _on_reorder_clicked (self : Window) : Window :=
  if negb (truthy (reorder_source_path self)) then self
  else _show_dialog run_reorder_task self.

(** [_on_quality_changed(combo)]. *)
Definition _on_quality_changed (active_text : string) (self : Window) : Window :=
  set_compression_quality active_text self.

(** [_set_processing_state(is_processing, message)]. *)
Definition _set_processing_state (is_processing : bool) (message : string)
    (self : Window) : Window :=
  let self := set_is_processing is_processing self in
  let self := update_ui_state self in
  if is_processing then add_toast message self else self.

(** [threading.Thread(target=task, daemon=True).start()]. *)
Definition start_thread (task : Thread) (self : Window) : Window :=
  set_threads (threads self ++ [task]) self.

(** [_run_compress_task(output_path)]. *)
Definition _run_compress_task (output_path : string) (self : Window) : Window :=
  match selected_pdf self with
  | Some input_path =>
      if negb (truthy (Some input_path)) then self
      else
        let self := _set_processing_state true "Compressing PDF..." self in
        start_thread (compress_thread input_path output_path) self
  | None => self
  end.

(** [_run_split_task(output_dir)]. *)
Definition _run_split_task (output_dir : string) (self : Window) : Window :=
  match selected_pdf self with
  | Some input_path =>
      if negb (truthy (Some input_path)) then self
      else
        let self := _set_processing_state true "Splitting PDF..." self in
        start_thread (split_thread input_path output_dir) self
  | None => self
  end.

(** [_run_merge_task(output_path)]. *)
Definition _run_merge_task (output_path : string) (self : Window) : Window :=
  let children := merge_list_box self in
  let pdf_paths := file_path <$> children in
  let self := _set_processing_state true "Merging PDFs..." self in
  start_thread (merge_thread pdf_paths output_path) self.

(** [_run_reorder_task(output_path)]. *)
Definition _run_reorder_task (output_path : string) (self : Window) : Window :=
  if negb (truthy (reorder_source_path self)) then self
  else
    let flow_box_children := reorder_flow_box self in
    let new_order_indices :=
      original_page_index <$> filter (λ child, is_deleted child = false) flow_box_children in
    let self := _set_processing_state true "Saving reordered PDF..." self in
    start_thread (reorder_thread output_path new_order_indices) self.

(** [_on_task_finished(success, message, clear_merge)]. *)
Definition _on_task_finished (success : bool) (message : string) (clear_merge : bool)
    (self : Window) : Window :=
  let self := _set_processing_state false "" self in
  let self := add_toast message self in
  if success && clear_merge then
    let self := set_merge_list_box [] self in
    let self := set_selected_pdf None self in
    let self := _clear_reorder_view self in
    let self := set_reorder_source_path None self in
    update_ui_state self
  else self.

(** [_on_close_request(window)]: the window and whether the request is
    stopped. *)
Definition _on_close_request (self : Window) : Window * bool :=
  if is_processing self
  then (add_toast "Cannot close while a task is in progress." self, true)
  else (self, false).

(** *** PDF manipulation methods *)

Section Methods.

(** [Path(p).stem] of pathlib. *)
Variable Path_stem : string → string.

Variable host : Host.

(** [_compress_pdf(input_path, output_path, quality)]. *)
Definition _compress_pdf (input_path output_path quality : string) : M (bool * string) :=
  try_except
    (let command :=
       [ "gs"; "-sDEVICE=pdfwrite"; "-dCompatibilityLevel=1.4";
         "-dPDFSETTINGS=/" +:+ quality; "-dNOPAUSE"; "-dQUIET"; "-dBATCH";
         "-sOutputFile=" +:+ output_path; input_path ] in
     do _ <- subprocess_run host command;
     ret (true, "Compression successful."))
    (λ e, match e with
          | FileNotFoundError _ =>
              ret (false, "Error: Ghostscript (gs) is not installed or not in your PATH.")
          | CalledProcessError _ stderr =>
              ret (false, "Ghostscript failed: " +:+ stderr)
          | _ => raise e
          end).

(** [for i, page in enumerate(reader.pages): ...], from index [i] on. *)
Fixpoint split_loop (output_dir base_name : string) (i : nat) (pages : list Page)
  : M unit :=
  match pages with
  | [] => ret tt
  | page :: rest =>
      let writer := PdfWriter_new in
      let writer := add_page writer page in
      let output_filename :=
        path_join output_dir (base_name +:+ "_page_" +:+ pretty (i + 1)%nat +:+ ".pdf") in
      do _ <- write writer output_filename;
      split_loop output_dir base_name (S i) rest
  end.

(** [_split_pdf(input_path, output_dir)]. *)
Definition _split_pdf (input_path output_dir : string) : M (bool * string) :=
  try_except
    (do reader <- PdfReader_new input_path;
     let base_name := Path_stem input_path in
     do _ <- makedirs output_dir;
     do pages <- pages_iter reader;
     do _ <- split_loop output_dir base_name 0 pages;
     do n <- pages_len reader;
     ret (true, "Successfully split into " +:+ pretty n +:+ " pages."))
    (λ e, ret (false, "Failed to split PDF: " +:+ str e)).

(** [for path in pdf_paths: merger.append(path)]. *)
Fixpoint merge_loop (merger : PdfWriter) (pdf_paths : list string) : M PdfWriter :=
  match pdf_paths with
  | [] => ret merger
  | path :: rest =>
      do merger <- append merger path;
      merge_loop merger rest
  end.

(** [_merge_pdfs(pdf_paths, output_path)]. *)
Definition _merge_pdfs (pdf_paths : list string) (output_path : string) : M (bool * string) :=
  try_except
    (let merger := PdfWriter_new in
     do merger <- merge_loop merger pdf_paths;
     do _ <- write merger output_path;
     ret (true, "Successfully merged " +:+ pretty (length pdf_paths) +:+ " files."))
    (λ e, ret (false, "Failed to merge PDFs: " +:+ str e)).

(** [for index in new_order_indices: writer.add_page(reader.pages[index])]. *)
Fixpoint reorder_loop (reader : PdfReader) (writer : PdfWriter)
    (new_order_indices : list Z) : M PdfWriter :=
  match new_order_indices with
  | [] => ret writer
  | index :: rest =>
      do page <- pages_getitem reader index;
      reorder_loop reader (add_page writer page) rest
  end.

(** [_reorder_pdf_pages(input_path, output_path, new_order_indices)]. *)
Definition _reorder_pdf_pages (input_path output_path : string)
    (new_order_indices : list Z) : M (bool * string) :=
  try_except
    (do reader <- PdfReader_new input_path;
     let writer := PdfWriter_new in
     do writer <- reorder_loop reader writer new_order_indices;
     do _ <- write writer output_path;
     ret (true, "Successfully reordered pages."))
    (λ e, ret (false, "Failed to reorder PDF: " +:+ str e)).

(** *** Task execution *)

(** [GLib.idle_add(self._on_task_finished, success, message, clear_merge)]. *)
Definition idle_add (success : bool) (message : string) (clear_merge : bool)
    (self : Window) : Window :=
  set_idle_sources
    (idle_sources self ++
       [{| idle_success := success; idle_message := message;
           idle_clear_merge := clear_merge |}]) self.

(** What the [task] closure of a worker computes: the operation, on the
    window's fields as they are when the worker runs.  With no reorder source
    left, [PdfReader(None)] raises inside the operation's [try]. *)
Definition task_result (task : Thread) (self : Window) : M (bool * string) :=
  match task with
  | compress_thread input_path output_path =>
      _compress_pdf input_path output_path (compression_quality self)
  | split_thread input_path output_dir =>
      _split_pdf input_path output_dir
  | merge_thread pdf_paths output_path =>
      _merge_pdfs pdf_paths output_path
  | reorder_thread output_path new_order_indices =>
      match reorder_source_path self with
      | Some input_path => _reorder_pdf_pages input_path output_path new_order_indices
      | None =>
          ret (false, "Failed to reorder PDF: " +:+
                      str (AttributeError "'NoneType' object has no attribute 'seek'"))
      end
  end.

(** The [clear_merge] argument a worker gives to [_on_task_finished]. *)
Definition task_clear_merge (task : Thread) : bool :=
  match task with
  | merge_thread _ _ => true
  | _ => false
  end.

(** A worker runs its [task]: the operation, then one [GLib.idle_add]; an
    exception the operation lets through ends the thread before it. *)
Definition run_task (task : Thread) (st : Window * World) : Window * World :=
  let '(self, w) := st in
  match task_result task self w with
  | (w', Ok (success, message)) =>
      (idle_add success message (task_clear_merge task) self, w')
  | (w', Raise _) => (self, w')
  end.

(** The callback of a file chooser that answered with [path]. *)
Definition call_callback (callback_on_accept : Callback) (path : string)
    (self : Window) : Window :=
  match callback_on_accept with
  | run_compress_task => _run_compress_task path self
  | run_split_task => _run_split_task path self
  | run_merge_task => _run_merge_task path self
  | run_reorder_task => _run_reorder_task path self
  end.

(** *** The event loop *)

(** What can happen to the window.  A click reaches its handler only on a
    sensitive button; rows, page widgets, file choosers and workers are named
    by their position in the list that holds them.  A file chooser that
    answers calls its callback on an accepted path and is destroyed. *)
Inductive Event :=
| files_dropped (files : list (option string))
| files_browsed (pdf_paths : list string)
| row_selected (row : option nat)
| row_remove_clicked (position : nat)
| row_dropped (source target : nat)
| page_dropped (source target : nat)
| page_delete_clicked (position : nat)
| quality_changed (active_text : string)
| clear_clicked
| compress_clicked
| split_clicked
| merge_clicked
| reorder_clicked
| dialog_response (position : nat) (accepted : option string)
| thread_runs (position : nat)
| idle_runs
| close_requested.

Definition handle (ev : Event) (st : Window * World) : Window * World :=
  let '(self, w) := st in
  match ev with
  | files_dropped files => (_on_drop files w self, w)
  | files_browsed pdf_paths =>
      (if bool_decide (pdf_paths = []) then self else _handle_files pdf_paths w self, w)
  | row_selected None => (_on_file_selected None w self, w)
  | row_selected (Some position) =>
      match merge_list_box self !! position with
      | Some row => (_on_file_selected (Some row) w self, w)
      | None => st
      end
  | row_remove_clicked position => (_on_remove_clicked position self, w)
  | row_dropped source target =>
      (set_merge_list_box (_on_drop_child source target (merge_list_box self)) self, w)
  | page_dropped source target =>
      (set_reorder_flow_box (_on_drop_child source target (reorder_flow_box self)) self, w)
  | page_delete_clicked position =>
      (set_reorder_flow_box
         (alter click_delete_button position (reorder_flow_box self)) self, w)
  | quality_changed active_text => (_on_quality_changed active_text self, w)
  | clear_clicked =>
      (if clear_button self then _on_clear_clicked self else self, w)
  | compress_clicked =>
      (if compress_button self then _on_compress_clicked self else self, w)
  | split_clicked =>
      (if split_button self then _on_split_clicked self else self, w)
  | merge_clicked =>
      (if merge_button self then _on_merge_clicked self else self, w)
  | reorder_clicked =>
      (if reorder_button self then _on_reorder_clicked self else self, w)
  | dialog_response position accepted =>
      match dialogs self !! position with
      | None => st
      | Some callback_on_accept =>
          let self :=
            match accepted with
            | Some path => call_callback callback_on_accept path self
            | None => self
            end in
          (set_dialogs (delete position (dialogs self)) self, w)
      end
  | thread_runs position =>
      match threads self !! position with
      | None => st
      | Some task =>
          run_task task (set_threads (delete position (threads self)) self, w)
      end
  | idle_runs =>
      match idle_sources self with
      | [] => st
      | call :: rest =>
          let self := set_idle_sources rest self in
          (_on_task_finished (idle_success call) (idle_message call)
             (idle_clear_merge call) self, w)
      end
  | close_requested => ((_on_close_request self).1, w)
  end.

(** The window after a sequence of events. *)
Definition run (evs : list Event) (st : Window * World) : Window * World :=
  foldl (λ st ev, handle ev st) st evs.

End Methods.

End IAtePDFs.

(** ** IAtePDFs.py: the compression worker, whatever [subprocess.run] does *)

Module Worker.
Import Py Os Pypdf.
Import IAtePDFs.

(** The [command] of [_compress_pdf]. *)
Definition command (input_path output_path quality : string) : list string :=
  [ "gs"; "-sDEVICE=pdfwrite"; "-dCompatibilityLevel=1.4";
    "-dPDFSETTINGS=/" +:+ quality; "-dNOPAUSE"; "-dQUIET"; "-dBATCH";
    "-sOutputFile=" +:+ output_path; input_path ].

(** [_compress_pdf(input_path, output_path, quality)], with [subprocess.run]
    any computation: it returns, or raises one of the two exceptions the
    function names, or raises another one, which no [except] clause of the
    function takes. *)
Definition _compress_pdf (subprocess_run : list string → M string)
    (input_path output_path quality : string) : M (bool * string) :=
  try_except
    (let command := command input_path output_path quality in
     do _ <- subprocess_run command;
     ret (true, "Compression successful."))
    (λ e, match e with
          | FileNotFoundError _ =>
              ret (false, "Error: Ghostscript (gs) is not installed or not in your PATH.")
          | CalledProcessError _ stderr =>
              ret (false, "Ghostscript failed: " +:+ stderr)
          | _ => raise e
          end).

(** The [task] closure of [_run_compress_task] on a worker thread:
    [_compress_pdf], then [GLib.idle_add(self._on_task_finished, success,
    message)].  The closure has no [try]: an exception [_compress_pdf] lets
    through ends the thread before [GLib.idle_add]. *)
Definition task (subprocess_run : list string → M string)
    (input_path output_path : string) (st : Window * World) : Window * World :=
  let '(self, w) := st in
  match _compress_pdf subprocess_run input_path output_path (compression_quality self) w with
  | (w', Ok (success, message)) => (idle_add success message false self, w')
  | (w', Raise _) => (self, w')
  end.

End Worker.

(** ** Vocabulary of the statements *)

Module Spec.
Import Py Os Pypdf.

(** The file at [path] is a PDF that pypdf reads and whose pages it can
    access: the document [d], not encrypted. *)
Definition readable (w : World) (path : string) (d : PdfDocument) : Prop :=
  files w !! path = Some (PdfFile d) ∧ doc_encrypted d = false.

(** The world after an unencrypted document with [pages] is written at
    [path], everything else as in [w]. *)
Definition with_pdf (path : string) (pages : list Page) (w : World) : World :=
  set_files (<[path := PdfFile {| doc_encrypted := false; doc_pages := pages |}]> (files w)) w.

(** The file [_split_pdf] opens for the page at index [i]:
    [os.path.join(output_dir, f"{base_name}_page_{i + 1}.pdf")]. *)
Definition page_file (output_dir base_name : string) (i : nat) : string :=
  path_join output_dir (base_name +:+ "_page_" +:+ pretty (i + 1)%nat +:+ ".pdf").





End Spec.

(** ** Sample inputs *)

Module Samples.
Import Py Os Pypdf.

Definition page (content : string) : Page := {| page_content := content |}.

Definition three_pages : PdfDocument :=
  {| doc_encrypted := false; doc_pages := [page "A"; page "B"; page "C"] |}.

Definition four_pages : PdfDocument :=
  {| doc_encrypted := false; doc_pages := [page "P0"; page "P1"; page "P2"; page "P3"] |}.

Definition no_pages : PdfDocument :=
  {| doc_encrypted := false; doc_pages := [] |}.

Definition locked : PdfDocument :=
  {| doc_encrypted := true; doc_pages := [page "S"] |}.

Definition home : World :=
  {| files :=
       {[ "/home/u/abc.pdf" := PdfFile three_pages;
          "/home/u/four.pdf" := PdfFile four_pages;
          "/home/u/empty.pdf" := PdfFile no_pages;
          "/home/u/locked.pdf" := PdfFile locked;
          "/home/u/notes.txt" := OtherFile "hello" ]};
     dirs := {[ "/home/u" ]};
     run_calls := [] |}.

(** A host without Ghostscript, and hosts whose [gs] exits with 0 or with 1. *)
Definition no_gs : Host := {| which := λ _, None |}.

Definition gs_exits (returncode : Z) (stderr : string) : Host :=
  {| which := λ exe,
       if bool_decide (exe = "gs")
       then Some (λ _ fs, ((returncode, "", stderr), fs))
       else None |}.

(** A stand-in for [Path(p).stem] on the sample paths. *)
Definition sample_stem (p : string) : string :=
  let name := basename p in
  if endswith name ".pdf" then String.substring 0 (String.length name - 4) name else name.

(** Two files are opened, the Compress and the Merge choosers are both
    presented, and the Compress chooser is accepted: a compression is
    running, the Merge chooser is still open. *)
Definition compressing : IAtePDFs.Window * World :=
  IAtePDFs.run sample_stem (gs_exits 0 "")
    [ IAtePDFs.files_dropped [Some "/home/u/abc.pdf"; Some "/home/u/four.pdf"];
      IAtePDFs.compress_clicked;
      IAtePDFs.merge_clicked;
      IAtePDFs.dialog_response 0 (Some "/home/u/small.pdf") ]
    (IAtePDFs.Window_new, home).

(** The Merge chooser is accepted while the compression is running. *)
Definition merge_accepted : IAtePDFs.Window * World :=
  IAtePDFs.handle sample_stem (gs_exits 0 "")
    (IAtePDFs.dialog_response 0 (Some "/home/u/merged.pdf")) compressing.

End Samples.

(** ** gtk4IatePDFs.py: the window around the reorder view *)

Module Gtk4Window.
Import Py Os Pypdf.

(** A [PdfFileRow] of the merge list. *)
Record PdfFileRow := { file_path : string }.

(** The status page of the compress view: icon, title, description, and
    whether the spinner is its child. *)
Record StatusPage := {
  icon_name : string;
  title : string;
  description : string;
  child_is_spinner : bool
}.

(** A started thread, with its target's arguments. *)
Inductive Thread :=
| compression_thread (input_path : string)
| reorder_thread (input_path : option string) (output_path : string) (new_order : list Z).

(** The window: the reorder view with the processing flag and the toasts as
    modelled in [Gtk4IatePDFs.Window], and around it the visible view, the
    merge view, the compress view and the threads started. *)
Record PdfToolWindow := {
  view : Gtk4IatePDFs.Window;
  compression_quality : string;
  view_stack : string;
  merge_list_box : list PdfFileRow;
  merge_button : bool;
  merge_view_stack : string;
  compress_spinner : bool;
  compress_status_page : StatusPage;
  threads : list Thread
}.

Definition set_view (v : Gtk4IatePDFs.Window) (self : PdfToolWindow) : PdfToolWindow :=
  {| view := v; compression_quality := compression_quality self;
     view_stack := view_stack self; merge_list_box := merge_list_box self;
     merge_button := merge_button self; merge_view_stack := merge_view_stack self;
     compress_spinner := compress_spinner self;
     compress_status_page := compress_status_page self; threads := threads self |}.

Definition set_compression_quality (v : string) (self : PdfToolWindow) : PdfToolWindow :=
  {| view := view self; compression_quality := v; view_stack := view_stack self;
     merge_list_box := merge_list_box self; merge_button := merge_button self;
     merge_view_stack := merge_view_stack self;
     compress_spinner := compress_spinner self;
     compress_status_page := compress_status_page self; threads := threads self |}.

Definition set_view_stack (v : string) (self : PdfToolWindow) : PdfToolWindow :=
  {| view := view self; compression_quality := compression_quality self;
     view_stack := v; merge_list_box := merge_list_box self;
     merge_button := merge_button self; merge_view_stack := merge_view_stack self;
     compress_spinner := compress_spinner self;
     compress_status_page := compress_status_page self; threads := threads self |}.

Definition set_merge_list_box (v : list PdfFileRow) (self : PdfToolWindow) : PdfToolWindow :=
  {| view := view self; compression_quality := compression_quality self;
     view_stack := view_stack self; merge_list_box := v;
     merge_button := merge_button self; merge_view_stack := merge_view_stack self;
     compress_spinner := compress_spinner self;
     compress_status_page := compress_status_page self; threads := threads self |}.

Definition set_merge_button (v : bool) (self : PdfToolWindow) : PdfToolWindow :=
  {| view := view self; compression_quality := compression_quality self;
     view_stack := view_stack self; merge_list_box := merge_list_box self;
     merge_button := v; merge_view_stack := merge_view_stack self;
     compress_spinner := compress_spinner self;
     compress_status_page := compress_status_page self; threads := threads self |}.

Definition set_merge_view_stack (v : string) (self : PdfToolWindow) : PdfToolWindow :=
  {| view := view self; compression_quality := compression_quality self;
     view_stack := view_stack self; merge_list_box := merge_list_box self;
     merge_button := merge_button self; merge_view_stack := v;
     compress_spinner := compress_spinner self;
     compress_status_page := compress_status_page self; threads := threads self |}.

Definition set_compress_spinner (v : bool) (self : PdfToolWindow) : PdfToolWindow :=
  {| view := view self; compression_quality := compression_quality self;
     view_stack := view_stack self; merge_list_box := merge_list_box self;
     merge_button := merge_button self; merge_view_stack := merge_view_stack self;
     compress_spinner := v; compress_status_page := compress_status_page self;
     threads := threads self |}.

Definition set_compress_status_page (v : StatusPage) (self : PdfToolWindow) : PdfToolWindow :=
  {| view := view self; compression_quality := compression_quality self;
     view_stack := view_stack self; merge_list_box := merge_list_box self;
     merge_button := merge_button self; merge_view_stack := merge_view_stack self;
     compress_spinner := compress_spinner self; compress_status_page := v;
     threads := threads self |}.

Definition set_threads (v : list Thread) (self : PdfToolWindow) : PdfToolWindow :=
  {| view := view self; compression_quality := compression_quality self;
     view_stack := view_stack self; merge_list_box := merge_list_box self;
     merge_button := merge_button self; merge_view_stack := merge_view_stack self;
     compress_spinner := compress_spinner self;
     compress_status_page := compress_status_page self; threads := v |}.

(** [self.is_processing = is_processing]. *)
Definition set_is_processing (v : bool) (self : PdfToolWindow) : PdfToolWindow :=
  set_view
    {| Gtk4IatePDFs.is_processing := v;
       Gtk4IatePDFs.reorder_source_path := Gtk4IatePDFs.reorder_source_path (view self);
       Gtk4IatePDFs.reorder_flow_box := Gtk4IatePDFs.reorder_flow_box (view self);
       Gtk4IatePDFs.reorder_button := Gtk4IatePDFs.reorder_button (view self);
       Gtk4IatePDFs.reorder_view_stack := Gtk4IatePDFs.reorder_view_stack (view self);
       Gtk4IatePDFs.toasts := Gtk4IatePDFs.toasts (view self) |} self.

(** [for child in ...: self.reorder_flow_box.remove(child)]. *)
Definition clear_reorder_flow_box (self : PdfToolWindow) : PdfToolWindow :=
  set_view
    {| Gtk4IatePDFs.is_processing := Gtk4IatePDFs.is_processing (view self);
       Gtk4IatePDFs.reorder_source_path := Gtk4IatePDFs.reorder_source_path (view self);
       Gtk4IatePDFs.reorder_flow_box := [];
       Gtk4IatePDFs.reorder_button := Gtk4IatePDFs.reorder_button (view self);
       Gtk4IatePDFs.reorder_view_stack := Gtk4IatePDFs.reorder_view_stack (view self);
       Gtk4IatePDFs.toasts := Gtk4IatePDFs.toasts (view self) |} self.

Definition add_toast (title : string) (self : PdfToolWindow) : PdfToolWindow :=
  set_view (Gtk4IatePDFs.add_toast title (view self)) self.

(** [_reset_compress_ui()]. *)
Definition _reset_compress_ui (self : PdfToolWindow) : PdfToolWindow :=
  set_compress_status_page
    {| icon_name := "document-open-symbolic";
       title := "PDF Compressor";
       description := "Drag and drop a PDF file to begin.";
       child_is_spinner := false |} self.

(** [_update_merge_view_state()], on the window's own stack, button and
    list. *)
Definition _update_merge_view_state (self : PdfToolWindow) : PdfToolWindow :=
  let num_children := length (merge_list_box self) in
  let has_files := (0 <? num_children)%nat in
  let self := set_merge_view_stack (if has_files then "list" else "placeholder") self in
  set_merge_button
    ((2 <=? num_children)%nat && negb (Gtk4IatePDFs.is_processing (view self))) self.

(** [_update_reorder_view_state()]: [has_file] is whether a reorder source is
    set. *)
Definition _update_reorder_view_state (self : PdfToolWindow) : PdfToolWindow :=
  let has_file := bool_decide (Gtk4IatePDFs.reorder_source_path (view self) ≠ None) in
  set_view (Gtk4IatePDFs._update_reorder_view_state has_file (view self)) self.

(** [_set_processing_state(is_processing, message)]. *)
Definition _set_processing_state (is_processing : bool) (message : string)
    (self : PdfToolWindow) : PdfToolWindow :=
  let self := set_is_processing is_processing self in
  let self := _update_merge_view_state self in
  let self := _update_reorder_view_state self in
  let self :=
    if bool_decide (view_stack self = "compress") then
      let self := set_compress_spinner is_processing self in
      if is_processing then
        set_compress_status_page
          {| icon_name := icon_name (compress_status_page self);
             title := message;
             description := "Please wait.";
             child_is_spinner := true |} self
      else _reset_compress_ui self
    else self in
  if is_processing then add_toast message self else self.

(** [_add_pdf_to_merge_list(file_path)]. *)
Definition _add_pdf_to_merge_list (path : string) (self : PdfToolWindow) : PdfToolWindow :=
  let row := {| file_path := path |} in
  let self := set_merge_list_box (merge_list_box self ++ [row]) self in
  _update_merge_view_state self.

(** [PdfFileRow._on_remove_clicked(button)], for the row at [position]. *)
Definition _on_remove_clicked (position : nat) (self : PdfToolWindow) : PdfToolWindow :=
  if bool_decide (length (merge_list_box self) ≤ position)%nat then self
  else
    let self := set_merge_list_box (delete position (merge_list_box self)) self in
    _update_merge_view_state self.

(** [PdfPageWidget._on_drop(target, value, x, y)] in the grid, the same
    handler as in [IAtePDFs.py], for a source and a target named by their
    positions in the grid. *)
Definition _on_page_drop (source target : nat) (self : PdfToolWindow) : PdfToolWindow :=
  set_view
    {| Gtk4IatePDFs.is_processing := Gtk4IatePDFs.is_processing (view self);
       Gtk4IatePDFs.reorder_source_path := Gtk4IatePDFs.reorder_source_path (view self);
       Gtk4IatePDFs.reorder_flow_box :=
         IAtePDFs._on_drop_child source target (Gtk4IatePDFs.reorder_flow_box (view self));
       Gtk4IatePDFs.reorder_button := Gtk4IatePDFs.reorder_button (view self);
       Gtk4IatePDFs.reorder_view_stack := Gtk4IatePDFs.reorder_view_stack (view self);
       Gtk4IatePDFs.toasts := Gtk4IatePDFs.toasts (view self) |} self.

(** Drags in the grid, one after the other: each a source position and a
    target position. *)
Definition _on_page_drops (drags : list (nat * nat)) (self : PdfToolWindow) : PdfToolWindow :=
  foldl (λ self drag, _on_page_drop drag.1 drag.2 self) self drags.

(** [_start_compression(file_path)]. *)
Definition _start_compression (path : string) (self : PdfToolWindow) : PdfToolWindow :=
  set_threads (threads self ++ [compression_thread path]) self.

(** [_on_drop(drop_target, value, x, y)] of the window; a dropped file is
    given by its [get_path()]. *)
Definition _on_drop (files : list (option string)) (w : World) (self : PdfToolWindow)
  : PdfToolWindow :=
  let is_pdf (f : option string) :=
    match f with
    | Some path => truthy (Some path) && endswith (lower path) ".pdf"
    | None => false
    end in
  match files with
  | [] => self
  | first :: _ =>
      if Gtk4IatePDFs.is_processing (view self)
      then add_toast "A task is already in progress." self
      else
        let current_view := view_stack self in
        if bool_decide (current_view = "compress") then
          match first with
          | Some path => if is_pdf first then _start_compression path self else self
          | None => self
          end
        else if bool_decide (current_view = "merge") then
          let pdf_files := filter (λ f, is_pdf f = true) files in
          foldl (λ self pdf_file,
                   match pdf_file with
                   | Some path => _add_pdf_to_merge_list path self
                   | None => self
                   end) self pdf_files
        else if bool_decide (current_view = "reorder") then
          match first with
          | Some path =>
              if is_pdf first
              then set_view (Gtk4IatePDFs._load_pdf_for_reordering path w (view self)) self
              else self
          | None => self
          end
        else self
  end.

(** [_run_merge(pdf_paths, output_path)], which merges on the calling thread:
    the window, the world, and the arguments handed to [GLib.idle_add] for
    [_on_merge_finished]. *)
Definition _run_merge (pdf_paths : list string) (output_path : string)
    (st : PdfToolWindow * World) : PdfToolWindow * World * option (bool * string) :=
  let '(self, w) := st in
  let self := _set_processing_state true "Merging PDFs..." self in
  match Gtk4IatePDFs.merge_pdfs pdf_paths output_path w with
  | (w', Ok (success, message)) => (self, w', Some (success, message))
  | (w', Raise _) => (self, w', None)
  end.

(** [_on_merge_finished(success, message)]. *)
Definition _on_merge_finished (success : bool) (message : string) (self : PdfToolWindow)
  : PdfToolWindow :=
  let self := _set_processing_state false "" self in
  let self := add_toast message self in
  if success then
    let self := set_merge_list_box [] self in
    _update_merge_view_state self
  else self.

(** [_run_reorder_and_save(output_path)]. *)
Definition _run_reorder_and_save (output_path : string) (self : PdfToolWindow)
  : PdfToolWindow :=
  let flow_box_children := Gtk4IatePDFs.reorder_flow_box (view self) in
  let new_order_indices := Gtk4IatePDFs.original_page_index <$> flow_box_children in
  set_threads
    (threads self ++
       [reorder_thread (Gtk4IatePDFs.reorder_source_path (view self)) output_path
          new_order_indices]) self.

(** [_run_reorder_task(input_path, output_path, new_order)], the target of the
    reorder thread: the window, the world, and the arguments handed to
    [GLib.idle_add] for [_on_reorder_finished].  With no input path,
    [PdfReader(None)] raises inside [reorder_pdf_pages]. *)
Definition _run_reorder_task (input_path : option string) (output_path : string)
    (new_order : list Z) (st : PdfToolWindow * World)
  : PdfToolWindow * World * option (bool * string) :=
  let '(self, w) := st in
  let self := _set_processing_state true "Saving PDF..." self in
  match input_path with
  | Some input_path =>
      match Gtk4IatePDFs.reorder_pdf_pages input_path output_path new_order w with
      | (w', Ok (success, message)) => (self, w', Some (success, message))
      | (w', Raise _) => (self, w', None)
      end
  | None =>
      (self, w,
       Some (false, "Failed to reorder PDF: " +:+
                    str (AttributeError "'NoneType' object has no attribute 'seek'")))
  end.

(** [_on_reorder_finished(success, message)]. *)
Definition _on_reorder_finished (success : bool) (message : string) (self : PdfToolWindow)
  : PdfToolWindow :=
  let self := _set_processing_state false "" self in
  let self := add_toast message self in
  if success then
    let self := clear_reorder_flow_box self in
    _update_reorder_view_state self
  else self.

(** [_on_close_request(window)]: the window and whether the request is
    stopped. *)
Definition _on_close_request (self : PdfToolWindow) : PdfToolWindow * bool :=
  if Gtk4IatePDFs.is_processing (view self)
  then (add_toast "Cannot close while a task is in progress." self, true)
  else (self, false).

End Gtk4Window.

(** ** Vocabulary of the further properties *)

Module Terms.

(** The events of the reorder grid: a page widget dropped on another, a click
    on a delete toggle. *)
Definition is_page_event (ev : IAtePDFs.Event) : bool :=
  match ev with
  | IAtePDFs.page_dropped _ _ | IAtePDFs.page_delete_clicked _ => true
  | _ => false
  end.

(** The test the drop handlers make on a dropped path:
    [path and path.lower().endswith(".pdf")]. *)
Definition is_pdf_path (path : string) : bool :=
  Py.truthy (Some path) && Py.endswith (Py.lower path) ".pdf".

(** The message a chooser's callback gives to
    [_set_processing_state(True, ...)] before it starts its worker. *)
Definition start_message (callback : IAtePDFs.Callback) : string :=
  match callback with
  | IAtePDFs.run_compress_task => "Compressing PDF..."
  | IAtePDFs.run_split_task => "Splitting PDF..."
  | IAtePDFs.run_merge_task => "Merging PDFs..."
  | IAtePDFs.run_reorder_task => "Saving reordered PDF..."
  end.

End Terms.

(** ** Further sample inputs *)

Module MoreSamples.
Import Py Os Pypdf.

(** The window after two files were dropped on it: two rows, the first
    selected. *)
Definition two_rows : IAtePDFs.Window :=
  (IAtePDFs.handle Samples.sample_stem Samples.no_gs
     (IAtePDFs.files_dropped [Some "/home/u/abc.pdf"; Some "/home/u/four.pdf"])
     (IAtePDFs.Window_new, Samples.home)).1.

(** The sample files after a [gs] that exits with 1 was run on [abc.pdf]
    from the window of two rows. *)
Definition gs_failed : World :=
  log_run
    (Worker.command "/home/u/abc.pdf" "/home/u/small.pdf"
       (IAtePDFs.compression_quality two_rows))
    Samples.home.


(** Some drags and a delete click in the grid. *)
Definition grid_events : list IAtePDFs.Event :=
  [ IAtePDFs.page_dropped 0 2; IAtePDFs.page_delete_clicked 1; IAtePDFs.page_dropped 3 1 ].

(** A window of [gtk4IatePDFs.py] as it is constructed, here with the
    reorder view visible. *)
Definition gtk4_window : Gtk4Window.PdfToolWindow :=
  {| Gtk4Window.view :=
       {| Gtk4IatePDFs.is_processing := false;
          Gtk4IatePDFs.reorder_source_path := None;
          Gtk4IatePDFs.reorder_flow_box := [];
          Gtk4IatePDFs.reorder_button := false;
          Gtk4IatePDFs.reorder_view_stack := "placeholder";
          Gtk4IatePDFs.toasts := [] |};
     Gtk4Window.compression_quality := "ebook";
     Gtk4Window.view_stack := "reorder";
     Gtk4Window.merge_list_box := [];
     Gtk4Window.merge_button := false;
     Gtk4Window.merge_view_stack := "placeholder";
     Gtk4Window.compress_spinner := false;
     Gtk4Window.compress_status_page :=
       {| Gtk4Window.icon_name := "document-open-symbolic";
          Gtk4Window.title := "PDF Compressor";
          Gtk4Window.description := "Drag and drop a PDF file to begin.";
          Gtk4Window.child_is_spinner := false |};
     Gtk4Window.threads := [] |}.

(** The same window after the four-page document was dropped on it. *)
Definition gtk4_loaded : Gtk4Window.PdfToolWindow :=
  Gtk4Window._on_drop [Some "/home/u/four.pdf"] Samples.home gtk4_window.

(** Some drags in the grid of four pages, one of them onto itself and one
    from a position the grid does not have. *)
Definition gtk4_drags : list (nat * nat) := [ (3, 0); (1, 1); (7, 2); (0, 2) ]%nat.

(** The same window with three rows in its merge list, one of them the
    encrypted document. *)
Definition gtk4_three_rows : Gtk4Window.PdfToolWindow :=
  Gtk4Window._on_drop
    [Some "/home/u/abc.pdf"; Some "/home/u/locked.pdf"; Some "/home/u/four.pdf"]
    Samples.home (Gtk4Window.set_view_stack "merge" gtk4_window).

End MoreSamples.

(** ** Proofs *)

(** *** pypdf *)

Module PypdfFacts.
Import Py Os Pypdf Spec.

Lemma PdfReader_new_readable w path d :
  readable w path d →
  PdfReader_new path w = (w, Ok {| is_encrypted := false; stream_pages := doc_pages d |}).
Proof.
  intros [Hfile Henc]. unfold PdfReader_new. rewrite Hfile, Henc. reflexivity.
Qed.

Lemma PdfReader_new_with_pdf path pages w :
  PdfReader_new path (with_pdf path pages w)
  = (with_pdf path pages w, Ok {| is_encrypted := false; stream_pages := pages |}).
Proof.
  unfold PdfReader_new, with_pdf. simpl. rewrite lookup_insert_eq. reflexivity.
Qed.

Section Getitem.
Variable reader : PdfReader.
Hypothesis Hplain : is_encrypted reader = false.

Lemma pages_len_plain w :
  pages_len reader w = (w, Ok (length (stream_pages reader))).
Proof. unfold pages_len. rewrite Hplain. reflexivity. Qed.

Lemma pages_iter_plain w :
  pages_iter reader w = (w, Ok (stream_pages reader)).
Proof. unfold pages_iter, bind. rewrite pages_len_plain. reflexivity. Qed.

(** An index from [0] up to the page count selects that page. *)
Lemma pages_getitem_nonneg index page w :
  (0 ≤ index)%Z →
  stream_pages reader !! Z.to_nat index = Some page →
  pages_getitem reader index w = (w, Ok page).
Proof.
  intros Hge Hlook. unfold pages_getitem, bind. rewrite pages_len_plain.
  pose proof (lookup_lt_Some _ _ _ Hlook) as Hlt.
  replace (index <? 0)%Z with false by lia.
  replace ((index <? 0) || (Z.of_nat (length (stream_pages reader)) <=? index))%Z
    with false by lia.
  rewrite Hlook. reflexivity.
Qed.

(** A negative index counts from the end. *)
Lemma pages_getitem_neg index page w :
  (index < 0)%Z →
  (0 ≤ Z.of_nat (length (stream_pages reader)) + index)%Z →
  stream_pages reader !! Z.to_nat (Z.of_nat (length (stream_pages reader)) + index)
    = Some page →
  pages_getitem reader index w = (w, Ok page).
Proof.
  intros Hneg Hge Hlook. unfold pages_getitem, bind. rewrite pages_len_plain.
  pose proof (lookup_lt_Some _ _ _ Hlook) as Hlt.
  replace (index <? 0)%Z with true by lia.
  set (i := (Z.of_nat (length (stream_pages reader)) + index)%Z) in *.
  replace ((i <? 0) || (Z.of_nat (length (stream_pages reader)) <=? i))%Z
    with false by lia.
  rewrite Hlook. reflexivity.
Qed.

(** An index at or past the page count raises [IndexError]. *)
Lemma pages_getitem_past index w :
  (Z.of_nat (length (stream_pages reader)) ≤ index)%Z →
  pages_getitem reader index w = (w, Raise (IndexError "Sequence index out of range")).
Proof.
  intros Hge. unfold pages_getitem, bind. rewrite pages_len_plain.
  replace (index <? 0)%Z with false by lia.
  replace ((index <? 0) || (Z.of_nat (length (stream_pages reader)) <=? index))%Z
    with true by lia.
  reflexivity.
Qed.

(** Whatever the index, the world is left alone, and the only exception is
    [IndexError]. *)
Lemma pages_getitem_cases index w :
  (∃ page, pages_getitem reader index w = (w, Ok page)) ∨
  pages_getitem reader index w = (w, Raise (IndexError "Sequence index out of range")).
Proof.
  unfold pages_getitem, bind. rewrite pages_len_plain.
  destruct (_ || _); [right; reflexivity|].
  destruct (stream_pages reader !! _); [left; eauto | right; reflexivity].
Qed.

End Getitem.
End PypdfFacts.

(** *** Reordering *)

Module ReorderFacts.
Import Py Os Pypdf Spec PypdfFacts.

(** The two scripts have the same loop and the same function. *)
Lemma reorder_loop_agree reader order : ∀ writer w,
  IAtePDFs.reorder_loop reader writer order w
  = Gtk4IatePDFs.reorder_loop reader writer order w.
Proof.
  induction order as [|index rest IH]; intros writer w; [reflexivity|].
  simpl. unfold bind. destruct (pages_getitem reader index w) as [w' [page|e]]; auto.
Qed.

Lemma _reorder_pdf_pages_agree input_path output_path order w :
  IAtePDFs._reorder_pdf_pages input_path output_path order w
  = Gtk4IatePDFs.reorder_pdf_pages input_path output_path order w.
Proof.
  unfold IAtePDFs._reorder_pdf_pages, Gtk4IatePDFs.reorder_pdf_pages, try_except, bind.
  destruct (PdfReader_new input_path w) as [w' [reader|e]]; [|reflexivity].
  rewrite reorder_loop_agree. reflexivity.
Qed.

(** When every index selects a page, the loop adds these pages in order. *)
Lemma reorder_loop_ok reader order out :
  Forall2 (λ index page, ∀ w, pages_getitem reader index w = (w, Ok page)) order out →
  ∀ writer w,
    Gtk4IatePDFs.reorder_loop reader writer order w
    = (w, Ok {| writer_pages := writer_pages writer ++ out |}).
Proof.
  induction 1 as [|index page rest out' Hget _ IH]; intros writer w; simpl.
  - unfold ret. rewrite app_nil_r. destruct writer; reflexivity.
  - unfold bind. rewrite Hget, IH. simpl. rewrite <- app_assoc. reflexivity.
Qed.

(** One index at or past the page count makes the loop raise [IndexError],
    wherever it stands in the order. *)
Lemma reorder_loop_past reader order index :
  is_encrypted reader = false →
  index ∈ order →
  (Z.of_nat (length (stream_pages reader)) ≤ index)%Z →
  ∀ writer w,
    Gtk4IatePDFs.reorder_loop reader writer order w
    = (w, Raise (IndexError "Sequence index out of range")).
Proof.
  intros Hplain Hin Hpast.
  induction order as [|i rest IH]; intros writer w; [by apply elem_of_nil in Hin|].
  simpl. unfold bind.
  destruct (decide (i = index)) as [->|Hne].
  - rewrite pages_getitem_past by assumption. reflexivity.
  - apply elem_of_cons in Hin as [?|Hin]; [congruence|].
    destruct (pages_getitem_cases reader Hplain i w) as [[page ->]| ->]; [|reflexivity].
    apply IH, Hin.
Qed.

Lemma reorder_pdf_pages_ok w input_path output_path order d out :
  readable w input_path d →
  Forall2 (λ index page,
             ∀ w, pages_getitem {| is_encrypted := false; stream_pages := doc_pages d |}
                    index w = (w, Ok page)) order out →
  Gtk4IatePDFs.reorder_pdf_pages input_path output_path order w
  = (with_pdf output_path out w, Ok (true, "Successfully reordered pages.")).
Proof.
  intros Hread Hall.
  unfold Gtk4IatePDFs.reorder_pdf_pages, try_except, bind.
  rewrite (PdfReader_new_readable _ _ _ Hread).
  rewrite (reorder_loop_ok _ _ _ Hall). reflexivity.
Qed.

Lemma reorder_pdf_pages_past w input_path output_path order d index :
  readable w input_path d →
  index ∈ order →
  (Z.of_nat (length (doc_pages d)) ≤ index)%Z →
  Gtk4IatePDFs.reorder_pdf_pages input_path output_path order w
  = (w, Ok (false, "Failed to reorder PDF: Sequence index out of range")).
Proof.
  intros Hread Hin Hpast.
  unfold Gtk4IatePDFs.reorder_pdf_pages, try_except, bind.
  rewrite (PdfReader_new_readable _ _ _ Hread).
  rewrite (reorder_loop_past _ order index); auto.
Qed.

(** Indices within a list select pages of it. *)
Lemma in_range_pages (pages : list Page) (f : Z → Z) order :
  Forall (λ index, 0 ≤ f index < Z.of_nat (length pages))%Z order →
  ∃ out, Forall2 (λ index page, pages !! Z.to_nat (f index) = Some page) order out.
Proof.
  induction 1 as [|index rest Hi _ [out IH]].
  - exists []. constructor.
  - destruct (lookup_lt_is_Some_2 pages (Z.to_nat (f index))) as [page Hpage]; [lia|].
    exists (page :: out). constructor; assumption.
Qed.

End ReorderFacts.

(** *** ExtractOrdered: [reorder_pdf_pages] and [_reorder_pdf_pages] *)

Section ExtractOrdered.
Import Py Os Pypdf Spec PypdfFacts ReorderFacts.

(** C1.  On a readable source, with every index of [order] from 0 up to the
    page count at open time, both scripts' reorder function succeeds, and the
    output holds, entry by entry, the source page each index names: repeated
    indices give repeated pages and left-out indices give no page, no
    permutation being asked for.  Reading the output back gives these pages. *)
Theorem C1_extract_ordered_maps_order w input_path output_path order d :
  readable w input_path d →
  Forall (λ index, 0 ≤ index < Z.of_nat (length (doc_pages d)))%Z order →
  ∃ out,
    Forall2 (λ index page, doc_pages d !! Z.to_nat index = Some page) order out ∧
    Gtk4IatePDFs.reorder_pdf_pages input_path output_path order w
      = (with_pdf output_path out w, Ok (true, "Successfully reordered pages.")) ∧
    IAtePDFs._reorder_pdf_pages input_path output_path order w
      = (with_pdf output_path out w, Ok (true, "Successfully reordered pages.")) ∧
    PdfReader_new output_path (with_pdf output_path out w)
      = (with_pdf output_path out w, Ok {| is_encrypted := false; stream_pages := out |}).
Proof.
  intros Hread Hrange.
  destruct (in_range_pages (doc_pages d) id order Hrange) as [out Hout].
  assert (Gtk4IatePDFs.reorder_pdf_pages input_path output_path order w
          = (with_pdf output_path out w, Ok (true, "Successfully reordered pages.")))
    as Hgtk.
  { apply (reorder_pdf_pages_ok w input_path output_path order d out Hread).
    clear Hread. induction Hout as [|index page rest out' Hpage Hrest IH]; constructor.
    - intros w'. apply Forall_cons in Hrange as [Hi _].
      apply pages_getitem_nonneg; [reflexivity | unfold id in Hi; lia | exact Hpage].
    - apply IH. apply Forall_cons in Hrange as [_ Hrange]. exact Hrange. }
  exists out. split; [exact Hout|]. split; [exact Hgtk|]. split.
  - rewrite _reorder_pdf_pages_agree. exact Hgtk.
  - apply PdfReader_new_with_pdf.
Qed.

Lemma C1_witness :
  ∃ out,
    Forall2 (λ index page, doc_pages Samples.three_pages !! Z.to_nat index = Some page)
      [0; 0; 1]%Z out ∧
    Gtk4IatePDFs.reorder_pdf_pages "/home/u/abc.pdf" "/home/u/out.pdf" [0; 0; 1]%Z
      Samples.home
      = (with_pdf "/home/u/out.pdf" out Samples.home,
         Ok (true, "Successfully reordered pages.")) ∧
    IAtePDFs._reorder_pdf_pages "/home/u/abc.pdf" "/home/u/out.pdf" [0; 0; 1]%Z
      Samples.home
      = (with_pdf "/home/u/out.pdf" out Samples.home,
         Ok (true, "Successfully reordered pages.")) ∧
    PdfReader_new "/home/u/out.pdf" (with_pdf "/home/u/out.pdf" out Samples.home)
      = (with_pdf "/home/u/out.pdf" out Samples.home,
         Ok {| is_encrypted := false; stream_pages := out |}).
Proof.
  apply (C1_extract_ordered_maps_order Samples.home "/home/u/abc.pdf" "/home/u/out.pdf"
           [0; 0; 1]%Z Samples.three_pages).
  - split; reflexivity.
  - repeat constructor; simpl; lia.
Defined.

(** The example of the specification, evaluated: order [0, 0, 1] on three
    pages A, B, C writes A, A, B. *)
Example reorder_0_0_1 :
  Gtk4IatePDFs.reorder_pdf_pages "/home/u/abc.pdf" "/home/u/out.pdf" [0; 0; 1]%Z
    Samples.home
  = (with_pdf "/home/u/out.pdf" [Samples.page "A"; Samples.page "A"; Samples.page "B"]
       Samples.home,
     Ok (true, "Successfully reordered pages.")).
Proof. reflexivity. Qed.

(** C3.  On a readable source of N pages, an order that contains the index N
    makes both scripts' reorder function return a failure whose message
    carries the index error, and the world it returns is the world it was
    given: the pages are collected before the output is opened, so the output
    file is neither created nor changed. *)
Theorem C3_index_at_page_count_fails_before_write w input_path output_path order d :
  readable w input_path d →
  Z.of_nat (length (doc_pages d)) ∈ order →
  Gtk4IatePDFs.reorder_pdf_pages input_path output_path order w
    = (w, Ok (false, "Failed to reorder PDF: " +:+ str (IndexError "Sequence index out of range")))
  ∧ IAtePDFs._reorder_pdf_pages input_path output_path order w
    = (w, Ok (false, "Failed to reorder PDF: " +:+ str (IndexError "Sequence index out of range")))
  ∧ files (Gtk4IatePDFs.reorder_pdf_pages input_path output_path order w).1 !! output_path
    = files w !! output_path
  ∧ files (IAtePDFs._reorder_pdf_pages input_path output_path order w).1 !! output_path
    = files w !! output_path.
Proof.
  intros Hread Hin.
  assert (Gtk4IatePDFs.reorder_pdf_pages input_path output_path order w
          = (w, Ok (false, "Failed to reorder PDF: Sequence index out of range")))
    as Hgtk.
  { apply (reorder_pdf_pages_past w input_path output_path order d _ Hread Hin). lia. }
  repeat split; rewrite ?_reorder_pdf_pages_agree, Hgtk; reflexivity.
Qed.

Lemma C3_witness :
  Gtk4IatePDFs.reorder_pdf_pages "/home/u/abc.pdf" "/home/u/out.pdf" [0; 3; 1]%Z
    Samples.home
    = (Samples.home,
       Ok (false, "Failed to reorder PDF: " +:+ str (IndexError "Sequence index out of range")))
  ∧ IAtePDFs._reorder_pdf_pages "/home/u/abc.pdf" "/home/u/out.pdf" [0; 3; 1]%Z
      Samples.home
    = (Samples.home,
       Ok (false, "Failed to reorder PDF: " +:+ str (IndexError "Sequence index out of range")))
  ∧ files (Gtk4IatePDFs.reorder_pdf_pages "/home/u/abc.pdf" "/home/u/out.pdf"
             [0; 3; 1]%Z Samples.home).1 !! "/home/u/out.pdf"
    = files Samples.home !! "/home/u/out.pdf"
  ∧ files (IAtePDFs._reorder_pdf_pages "/home/u/abc.pdf" "/home/u/out.pdf"
             [0; 3; 1]%Z Samples.home).1 !! "/home/u/out.pdf"
    = files Samples.home !! "/home/u/out.pdf".
Proof.
  apply (C3_index_at_page_count_fails_before_write Samples.home "/home/u/abc.pdf"
           "/home/u/out.pdf" [0; 3; 1]%Z Samples.three_pages).
  - split; reflexivity.
  - simpl. repeat constructor.
Defined.

(** C10.  On a readable source of N pages, with every entry of [order] a
    negative index -k, 1 <= k <= N, both scripts' reorder function succeeds,
    and the output holds for each entry -k the source page N-k: the index is
    taken from the end, as Python does, and is not refused. *)
Theorem C10_negative_indices_count_from_end w input_path output_path order d :
  readable w input_path d →
  Forall (λ index, - Z.of_nat (length (doc_pages d)) ≤ index ≤ -1)%Z order →
  ∃ out,
    Forall2 (λ index page,
               doc_pages d !! Z.to_nat (Z.of_nat (length (doc_pages d)) + index)
               = Some page) order out ∧
    Gtk4IatePDFs.reorder_pdf_pages input_path output_path order w
      = (with_pdf output_path out w, Ok (true, "Successfully reordered pages.")) ∧
    IAtePDFs._reorder_pdf_pages input_path output_path order w
      = (with_pdf output_path out w, Ok (true, "Successfully reordered pages.")).
Proof.
  intros Hread Hrange.
  destruct (in_range_pages (doc_pages d)
              (λ index, Z.of_nat (length (doc_pages d)) + index)%Z order) as [out Hout].
  { eapply Forall_impl; [exact Hrange|]. simpl. intros index Hi. lia. }
  assert (Gtk4IatePDFs.reorder_pdf_pages input_path output_path order w
          = (with_pdf output_path out w, Ok (true, "Successfully reordered pages.")))
    as Hgtk.
  { apply (reorder_pdf_pages_ok w input_path output_path order d out Hread).
    clear Hread. induction Hout as [|index page rest out' Hpage Hrest IH]; constructor.
    - intros w'. apply Forall_cons in Hrange as [Hi _].
      apply pages_getitem_neg; simpl; [reflexivity | lia | lia | exact Hpage].
    - apply IH. apply Forall_cons in Hrange as [_ Hrange]. exact Hrange. }
  exists out. split; [exact Hout|]. split; [exact Hgtk|].
  rewrite _reorder_pdf_pages_agree. exact Hgtk.
Qed.

Lemma C10_witness :
  ∃ out,
    Forall2 (λ index page,
               doc_pages Samples.three_pages
                 !! Z.to_nat (Z.of_nat (length (doc_pages Samples.three_pages)) + index)
               = Some page) [-1; -3]%Z out ∧
    Gtk4IatePDFs.reorder_pdf_pages "/home/u/abc.pdf" "/home/u/out.pdf" [-1; -3]%Z
      Samples.home
      = (with_pdf "/home/u/out.pdf" out Samples.home,
         Ok (true, "Successfully reordered pages.")) ∧
    IAtePDFs._reorder_pdf_pages "/home/u/abc.pdf" "/home/u/out.pdf" [-1; -3]%Z
      Samples.home
      = (with_pdf "/home/u/out.pdf" out Samples.home,
         Ok (true, "Successfully reordered pages.")).
Proof.
  apply (C10_negative_indices_count_from_end Samples.home "/home/u/abc.pdf"
           "/home/u/out.pdf" [-1; -3]%Z Samples.three_pages).
  - split; reflexivity.
  - repeat constructor; simpl; lia.
Defined.

(** Order [-1, -3] on three pages A, B, C writes C, A. *)
Example reorder_negative :
  IAtePDFs._reorder_pdf_pages "/home/u/abc.pdf" "/home/u/out.pdf" [-1; -3]%Z Samples.home
  = (with_pdf "/home/u/out.pdf" [Samples.page "C"; Samples.page "A"] Samples.home,
     Ok (true, "Successfully reordered pages.")).
Proof. reflexivity. Qed.

End ExtractOrdered.

(** *** Merge: [merge_pdfs] and [_merge_pdfs] *)

Section Merge.
Import Py Os Pypdf Spec PypdfFacts.

Lemma _merge_pdfs_agree pdf_paths output_path w :
  IAtePDFs._merge_pdfs pdf_paths output_path w
  = Gtk4IatePDFs.merge_pdfs pdf_paths output_path w.
Proof. reflexivity. Qed.

Lemma append_readable merger path d w :
  readable w path d →
  append merger path w = (w, Ok {| writer_pages := writer_pages merger ++ doc_pages d |}).
Proof.
  intros Hread. unfold append, bind.
  rewrite (PdfReader_new_readable _ _ _ Hread).
  rewrite pages_iter_plain by reflexivity. reflexivity.
Qed.

(** The loop appends the inputs' pages, one input after the other. *)
Lemma merge_loop_readable w pdf_paths docs :
  Forall2 (readable w) pdf_paths docs →
  ∀ merger,
    Gtk4IatePDFs.merge_loop merger pdf_paths w
    = (w, Ok {| writer_pages := writer_pages merger ++ concat (doc_pages <$> docs) |}).
Proof.
  induction 1 as [|path d rest docs' Hread _ IH]; intros merger; simpl.
  - unfold ret. rewrite app_nil_r. destruct merger; reflexivity.
  - unfold bind. rewrite (append_readable _ _ _ _ Hread), IH. simpl.
    rewrite <- app_assoc. reflexivity.
Qed.

Lemma length_concat_pages (docs : list PdfDocument) :
  length (concat (doc_pages <$> docs)) = sum_list ((length ∘ doc_pages) <$> docs).
Proof.
  induction docs as [|d docs IH]; [reflexivity|].
  simpl. rewrite length_app. f_equal. exact IH.
Qed.

(** C4.  For a non-empty list of readable documents, both scripts' merge
    function succeeds and writes one document: the pages of the first input,
    then those of the second, and so on, each input a block of its own, so
    that the page count is the sum of the inputs' page counts.  Nothing asks
    for two inputs: a list of one document is merged into a copy of its
    pages. *)
Theorem C4_merge_concatenates_inputs w pdf_paths output_path docs :
  pdf_paths ≠ [] →
  Forall2 (readable w) pdf_paths docs →
  Gtk4IatePDFs.merge_pdfs pdf_paths output_path w
    = (with_pdf output_path (concat (doc_pages <$> docs)) w,
       Ok (true, "Successfully merged " +:+ pretty (length pdf_paths) +:+ " files."))
  ∧ IAtePDFs._merge_pdfs pdf_paths output_path w
    = (with_pdf output_path (concat (doc_pages <$> docs)) w,
       Ok (true, "Successfully merged " +:+ pretty (length pdf_paths) +:+ " files."))
  ∧ length (concat (doc_pages <$> docs)) = sum_list ((length ∘ doc_pages) <$> docs)
  ∧ (∀ d, docs = [d] → concat (doc_pages <$> docs) = doc_pages d).
Proof.
  intros _ Hread.
  assert (Gtk4IatePDFs.merge_pdfs pdf_paths output_path w
          = (with_pdf output_path (concat (doc_pages <$> docs)) w,
             Ok (true, "Successfully merged " +:+ pretty (length pdf_paths) +:+ " files.")))
    as Hgtk.
  { unfold Gtk4IatePDFs.merge_pdfs, try_except, bind.
    rewrite (merge_loop_readable _ _ _ Hread). reflexivity. }
  split; [exact Hgtk|]. split; [exact Hgtk|]. split; [apply length_concat_pages|].
  intros d ->. simpl. apply app_nil_r.
Qed.

Lemma C4_witness :
  Gtk4IatePDFs.merge_pdfs ["/home/u/four.pdf"; "/home/u/abc.pdf"] "/home/u/merged.pdf"
    Samples.home
    = (with_pdf "/home/u/merged.pdf"
         (concat (doc_pages <$> [Samples.four_pages; Samples.three_pages])) Samples.home,
       Ok (true, "Successfully merged " +:+ pretty 2%nat +:+ " files."))
  ∧ IAtePDFs._merge_pdfs ["/home/u/four.pdf"; "/home/u/abc.pdf"] "/home/u/merged.pdf"
      Samples.home
    = (with_pdf "/home/u/merged.pdf"
         (concat (doc_pages <$> [Samples.four_pages; Samples.three_pages])) Samples.home,
       Ok (true, "Successfully merged " +:+ pretty 2%nat +:+ " files."))
  ∧ length (concat (doc_pages <$> [Samples.four_pages; Samples.three_pages]))
    = sum_list ((length ∘ doc_pages) <$> [Samples.four_pages; Samples.three_pages])
  ∧ (∀ d, [Samples.four_pages; Samples.three_pages] = [d] →
          concat (doc_pages <$> [Samples.four_pages; Samples.three_pages]) = doc_pages d).
Proof.
  apply (C4_merge_concatenates_inputs Samples.home
           ["/home/u/four.pdf"; "/home/u/abc.pdf"] "/home/u/merged.pdf"
           [Samples.four_pages; Samples.three_pages]).
  - discriminate.
  - repeat constructor.
Defined.

(** One input is enough: the output has the pages of that input. *)
Example merge_single :
  Gtk4IatePDFs.merge_pdfs ["/home/u/abc.pdf"] "/home/u/merged.pdf" Samples.home
  = (with_pdf "/home/u/merged.pdf" (doc_pages Samples.three_pages) Samples.home,
     Ok (true, "Successfully merged 1 files.")).
Proof. vm_compute. reflexivity. Qed.

End Merge.

(** *** Split: [_split_pdf] *)

Module SplitFacts.
Import Py Os Pypdf Spec PypdfFacts.

Lemma string_length_app (s t : string) :
  String.length (s +:+ t) = (String.length s + String.length t)%nat.
Proof. induction s as [|c s IH]; simpl; [reflexivity | by rewrite IH]. Qed.

(** A common ending can be taken off. *)
Lemma string_app_inv_tail (t : string) : ∀ s1 s2, s1 +:+ t = s2 +:+ t → s1 = s2.
Proof.
  induction s1 as [|c1 s1 IH]; intros [|c2 s2] Heq; simpl in Heq.
  - reflexivity.
  - apply (f_equal String.length) in Heq.
    rewrite ?string_length_app in Heq. simpl in Heq. rewrite ?string_length_app in Heq. lia.
  - apply (f_equal String.length) in Heq.
    rewrite ?string_length_app in Heq. simpl in Heq. rewrite ?string_length_app in Heq. lia.
  - injection Heq as -> Heq. f_equal. apply IH, Heq.
Qed.

Lemma starts_with_sep_app (base s t : string) :
  starts_with_sep (base +:+ "_page_" +:+ s) = starts_with_sep (base +:+ "_page_" +:+ t).
Proof. destruct base; reflexivity. Qed.

Section Names.
Variables output_dir base_name : string.

#[local] Abbreviation page_file := (Spec.page_file output_dir base_name).

(** Pages at different indices go to different files. *)
Lemma page_file_inj i j : page_file i = page_file j → i = j.
Proof.
  unfold Spec.page_file, path_join.
  rewrite (starts_with_sep_app base_name
             (pretty (i + 1)%nat +:+ ".pdf") (pretty (j + 1)%nat +:+ ".pdf")).
  intros Heq.
  assert (base_name +:+ "_page_" +:+ pretty (i + 1)%nat +:+ ".pdf"
          = base_name +:+ "_page_" +:+ pretty (j + 1)%nat +:+ ".pdf") as Hfile.
  { destruct (starts_with_sep _); [exact Heq|].
    destruct (_ || _).
    - apply (inj (String.app output_dir)) in Heq. exact Heq.
    - apply (inj (String.app output_dir)) in Heq.
      apply (inj (String.app "/")) in Heq. exact Heq. }
  apply (inj (String.app base_name)) in Hfile.
  apply (inj (String.app "_page_")) in Hfile.
  apply string_app_inv_tail in Hfile.
  apply (inj pretty) in Hfile. lia.
Qed.

(** The loop writes the page at position [j] as a one-page document to the
    file of index [i + j], and touches no other file. *)
Lemma split_loop_spec pages : ∀ i w,
  ∃ w',
    IAtePDFs.split_loop output_dir base_name i pages w = (w', Ok tt) ∧
    dirs w' = dirs w ∧
    run_calls w' = run_calls w ∧
    (∀ j page, pages !! j = Some page →
       files w' !! page_file (i + j)
       = Some (PdfFile {| doc_encrypted := false; doc_pages := [page] |})) ∧
    (∀ path, (∀ j, (j < length pages)%nat → path ≠ page_file (i + j)) →
       files w' !! path = files w !! path).
Proof.
  induction pages as [|page rest IH]; intros i w.
  - exists w. do 3 (split; [reflexivity|]).
    split; [intros j page Hj; discriminate | intros; reflexivity].
  - simpl. unfold bind, write, write_file. fold (page_file i).
    destruct (IH (S i)
                (set_files
                   (<[page_file i :=
                        PdfFile {| doc_encrypted := false; doc_pages := [page] |}]>
                      (files w)) w))
      as (w' & Hrun & Hdirs & Hcalls & Hwritten & Hother).
    exists w'. split; [exact Hrun|]. split; [exact Hdirs|]. split; [exact Hcalls|]. split.
    + intros [|j] page' Hj; simpl in Hj.
      * injection Hj as <-. rewrite Nat.add_0_r, Hother.
        -- simpl. apply lookup_insert_eq.
        -- intros j _ Heq. apply page_file_inj in Heq. lia.
      * replace (i + S j)%nat with (S i + j)%nat by lia. apply Hwritten, Hj.
    + intros path Hpath. rewrite Hother.
      * simpl. apply lookup_insert_ne. intros Heq. apply (Hpath 0%nat); simpl; [lia|].
        rewrite Nat.add_0_r. congruence.
      * intros j Hj. replace (S i + j)%nat with (i + S j)%nat by lia.
        apply Hpath. simpl. lia.
Qed.

End Names.

(** With a directory that is not empty and does not end in a separator, the
    file is [output_dir/{base_name}_page_{i+1}.pdf]. *)
Lemma page_file_plain output_dir base_name i :
  output_dir ≠ "" →
  ends_with_sep output_dir = false →
  starts_with_sep (base_name +:+ "_page_") = false →
  page_file output_dir base_name i
  = output_dir +:+ "/" +:+ base_name +:+ "_page_" +:+ pretty (S i) +:+ ".pdf".
Proof.
  intros Hne Hend Hstart. unfold page_file, path_join.
  replace (starts_with_sep (base_name +:+ "_page_" +:+ pretty (i + 1)%nat +:+ ".pdf"))
    with false by (destruct base_name; [reflexivity | exact (eq_sym Hstart)]).
  rewrite Hend, (bool_decide_eq_false_2 _ Hne). simpl.
  replace (i + 1)%nat with (S i) by lia. reflexivity.
Qed.

End SplitFacts.

Section Split.
Import Py Os Pypdf Spec PypdfFacts SplitFacts.

(** C5.  On a readable, unencrypted document of N pages, [_split_pdf]
    succeeds and reports N.  For each index i below N the file
    [page_file output_dir stem i], whose name carries i + 1, holds the
    one-page document made of source page i; these N files are distinct and
    no other file is created or changed; the output directory exists
    afterwards. *)
Theorem C5_split_one_file_per_page Path_stem w input_path output_dir d :
  readable w input_path d →
  ∃ w',
    IAtePDFs._split_pdf Path_stem input_path output_dir w
      = (w', Ok (true, "Successfully split into " +:+ pretty (length (doc_pages d))
                       +:+ " pages.")) ∧
    (∀ i page, doc_pages d !! i = Some page →
       files w' !! page_file output_dir (Path_stem input_path) i
       = Some (PdfFile {| doc_encrypted := false; doc_pages := [page] |})) ∧
    (∀ i j, page_file output_dir (Path_stem input_path) i
            = page_file output_dir (Path_stem input_path) j → i = j) ∧
    (∀ path,
       (∀ i, (i < length (doc_pages d))%nat →
             path ≠ page_file output_dir (Path_stem input_path) i) →
       files w' !! path = files w !! path) ∧
    output_dir ∈ dirs w' ∧
    (∀ dir, dir ∈ dirs w' ↔ dir = output_dir ∨ dir ∈ dirs w).
Proof.
  intros Hread.
  destruct (split_loop_spec output_dir (Path_stem input_path) (doc_pages d) 0
              (add_dir output_dir w))
    as (w' & Hrun & Hdirs & _ & Hwritten & Hother).
  exists w'. split; [|split; [|split; [|split; [|split]]]].
  - unfold IAtePDFs._split_pdf, try_except, bind.
    rewrite (PdfReader_new_readable _ _ _ Hread). unfold makedirs.
    rewrite pages_iter_plain by reflexivity. simpl. simpl in Hrun. rewrite Hrun.
    reflexivity.
  - intros i page Hi. apply (Hwritten i page Hi).
  - apply page_file_inj.
  - intros path Hpath. rewrite Hother; [reflexivity|]. exact Hpath.
  - rewrite Hdirs. simpl. apply elem_of_union_l, elem_of_singleton. reflexivity.
  - intros dir. rewrite Hdirs. simpl. rewrite elem_of_union, elem_of_singleton.
    reflexivity.
Qed.

Lemma C5_witness :
  ∃ w',
    IAtePDFs._split_pdf Samples.sample_stem "/home/u/abc.pdf" "/home/u/pages" Samples.home
      = (w', Ok (true, "Successfully split into "
                       +:+ pretty (length (doc_pages Samples.three_pages)) +:+ " pages.")) ∧
    (∀ i page, doc_pages Samples.three_pages !! i = Some page →
       files w' !! page_file "/home/u/pages" (Samples.sample_stem "/home/u/abc.pdf") i
       = Some (PdfFile {| doc_encrypted := false; doc_pages := [page] |})) ∧
    (∀ i j, page_file "/home/u/pages" (Samples.sample_stem "/home/u/abc.pdf") i
            = page_file "/home/u/pages" (Samples.sample_stem "/home/u/abc.pdf") j →
            i = j) ∧
    (∀ path,
       (∀ i, (i < length (doc_pages Samples.three_pages))%nat →
             path ≠ page_file "/home/u/pages" (Samples.sample_stem "/home/u/abc.pdf") i) →
       files w' !! path = files Samples.home !! path) ∧
    "/home/u/pages" ∈ dirs w' ∧
    (∀ dir, dir ∈ dirs w' ↔ dir = "/home/u/pages" ∨ dir ∈ dirs Samples.home).
Proof.
  apply (C5_split_one_file_per_page Samples.sample_stem Samples.home "/home/u/abc.pdf"
           "/home/u/pages" Samples.three_pages).
  split; reflexivity.
Defined.

(** Page 2 of the sample document goes to [abc_page_2.pdf]. *)
Example split_second_page :
  page_file "/home/u/pages" (Samples.sample_stem "/home/u/abc.pdf") 1
  = "/home/u/pages/abc_page_2.pdf"
  ∧ files (IAtePDFs._split_pdf Samples.sample_stem "/home/u/abc.pdf" "/home/u/pages"
             Samples.home).1 !! "/home/u/pages/abc_page_2.pdf"
    = Some (PdfFile {| doc_encrypted := false; doc_pages := [Samples.page "B"] |}).
Proof. split; vm_compute; reflexivity. Qed.

End Split.

(** *** Compress: [compress_pdf] and [_compress_pdf] *)

Section Compress.
Import Py Os Pypdf Spec.

Lemma _compress_pdf_agree host input_path output_path quality w :
  IAtePDFs._compress_pdf host input_path output_path quality w
  = Gtk4IatePDFs.compress_pdf host input_path output_path quality w.
Proof. reflexivity. Qed.

(** C7.  Where the search path has a [gs], compressing runs it once, with the
    argument vector [gs -sDEVICE=pdfwrite -dCompatibilityLevel=1.4
    -dPDFSETTINGS=/preset -dNOPAUSE -dQUIET -dBATCH -sOutputFile=output input];
    the result is a success exactly when the exit status is 0, and otherwise a
    failure whose message ends with the captured standard error. *)
Theorem C7_compress_invokes_gs host w input_path output_path preset gs
    returncode stdout stderr fs :
  which host "gs" = Some gs →
  gs [ "gs"; "-sDEVICE=pdfwrite"; "-dCompatibilityLevel=1.4";
       "-dPDFSETTINGS=/" +:+ preset; "-dNOPAUSE"; "-dQUIET"; "-dBATCH";
       "-sOutputFile=" +:+ output_path; input_path ] (files w)
    = (returncode, stdout, stderr, fs) →
  ∃ w' success message,
    Gtk4IatePDFs.compress_pdf host input_path output_path preset w
      = (w', Ok (success, message)) ∧
    IAtePDFs._compress_pdf host input_path output_path preset w
      = (w', Ok (success, message)) ∧
    run_calls w'
      = (run_calls w ++
         [[ "gs"; "-sDEVICE=pdfwrite"; "-dCompatibilityLevel=1.4";
            "-dPDFSETTINGS=/" +:+ preset; "-dNOPAUSE"; "-dQUIET"; "-dBATCH";
            "-sOutputFile=" +:+ output_path; input_path ]])%list ∧
    files w' = fs ∧
    (success = true ↔ returncode = 0%Z) ∧
    (returncode = 0%Z → message = "Compression successful.") ∧
    (returncode ≠ 0%Z → message = "Ghostscript failed: " +:+ stderr).
Proof.
  intros Hwhich Hrun.
  destruct (Z.eqb_spec returncode 0) as [Hzero|Hnonzero].
  - exists (set_files fs
              (log_run [ "gs"; "-sDEVICE=pdfwrite"; "-dCompatibilityLevel=1.4";
                         "-dPDFSETTINGS=/" +:+ preset; "-dNOPAUSE"; "-dQUIET"; "-dBATCH";
                         "-sOutputFile=" +:+ output_path; input_path ] w)),
      true, "Compression successful.".
    assert (Gtk4IatePDFs.compress_pdf host input_path output_path preset w
            = (set_files fs
                 (log_run [ "gs"; "-sDEVICE=pdfwrite"; "-dCompatibilityLevel=1.4";
                            "-dPDFSETTINGS=/" +:+ preset; "-dNOPAUSE"; "-dQUIET";
                            "-dBATCH"; "-sOutputFile=" +:+ output_path; input_path ] w),
               Ok (true, "Compression successful."))) as Hgtk.
    { unfold Gtk4IatePDFs.compress_pdf, try_except, bind, subprocess_run.
      rewrite Hwhich. simpl. rewrite Hrun, Hzero. reflexivity. }
    repeat split; try exact Hgtk; try reflexivity; try congruence.
  - exists (set_files fs
              (log_run [ "gs"; "-sDEVICE=pdfwrite"; "-dCompatibilityLevel=1.4";
                         "-dPDFSETTINGS=/" +:+ preset; "-dNOPAUSE"; "-dQUIET"; "-dBATCH";
                         "-sOutputFile=" +:+ output_path; input_path ] w)),
      false, ("Ghostscript failed: " +:+ stderr).
    assert (Gtk4IatePDFs.compress_pdf host input_path output_path preset w
            = (set_files fs
                 (log_run [ "gs"; "-sDEVICE=pdfwrite"; "-dCompatibilityLevel=1.4";
                            "-dPDFSETTINGS=/" +:+ preset; "-dNOPAUSE"; "-dQUIET";
                            "-dBATCH"; "-sOutputFile=" +:+ output_path; input_path ] w),
               Ok (false, "Ghostscript failed: " +:+ stderr))) as Hgtk.
    { unfold Gtk4IatePDFs.compress_pdf, try_except, bind, subprocess_run.
      rewrite Hwhich. simpl. rewrite Hrun.
      replace (returncode =? 0)%Z with false by lia. reflexivity. }
    repeat split; try exact Hgtk; try reflexivity; try congruence.
Qed.

Lemma C7_witness :
  ∃ w' success message,
    Gtk4IatePDFs.compress_pdf (Samples.gs_exits 1 "Unrecoverable error") "/home/u/abc.pdf"
      "/home/u/small.pdf" "screen" Samples.home
      = (w', Ok (success, message)) ∧
    IAtePDFs._compress_pdf (Samples.gs_exits 1 "Unrecoverable error") "/home/u/abc.pdf"
      "/home/u/small.pdf" "screen" Samples.home
      = (w', Ok (success, message)) ∧
    run_calls w'
      = (run_calls Samples.home ++
         [[ "gs"; "-sDEVICE=pdfwrite"; "-dCompatibilityLevel=1.4";
            "-dPDFSETTINGS=/" +:+ "screen"; "-dNOPAUSE"; "-dQUIET"; "-dBATCH";
            "-sOutputFile=" +:+ "/home/u/small.pdf"; "/home/u/abc.pdf" ]])%list ∧
    files w' = files Samples.home ∧
    (success = true ↔ 1%Z = 0%Z) ∧
    (1%Z = 0%Z → message = "Compression successful.") ∧
    (1%Z ≠ 0%Z → message = "Ghostscript failed: " +:+ "Unrecoverable error").
Proof.
  apply (C7_compress_invokes_gs (Samples.gs_exits 1 "Unrecoverable error") Samples.home
           "/home/u/abc.pdf" "/home/u/small.pdf" "screen"
           (λ _ fs, ((1%Z, "", "Unrecoverable error"), fs))
           1%Z "" "Unrecoverable error" (files Samples.home)).
  - reflexivity.
  - reflexivity.
Defined.

(** C8.  Where the search path has no [gs], compressing returns the failure
    that names Ghostscript, a message no failure of a run of [gs] can have,
    and leaves every file as it was: nothing is written at the output
    path. *)
Theorem C8_compress_tool_missing host w input_path output_path preset :
  which host "gs" = None →
  ∃ w',
    Gtk4IatePDFs.compress_pdf host input_path output_path preset w
      = (w', Ok (false, "Error: Ghostscript (gs) is not installed or not in your PATH.")) ∧
    IAtePDFs._compress_pdf host input_path output_path preset w
      = (w', Ok (false, "Error: Ghostscript (gs) is not installed or not in your PATH.")) ∧
    files w' = files w ∧
    files w' !! output_path = files w !! output_path ∧
    dirs w' = dirs w ∧
    (∀ stderr, "Error: Ghostscript (gs) is not installed or not in your PATH."
               ≠ "Ghostscript failed: " +:+ stderr).
Proof.
  intros Hwhich.
  exists (log_run [ "gs"; "-sDEVICE=pdfwrite"; "-dCompatibilityLevel=1.4";
                    "-dPDFSETTINGS=/" +:+ preset; "-dNOPAUSE"; "-dQUIET"; "-dBATCH";
                    "-sOutputFile=" +:+ output_path; input_path ] w).
  assert (Gtk4IatePDFs.compress_pdf host input_path output_path preset w
          = (log_run [ "gs"; "-sDEVICE=pdfwrite"; "-dCompatibilityLevel=1.4";
                       "-dPDFSETTINGS=/" +:+ preset; "-dNOPAUSE"; "-dQUIET"; "-dBATCH";
                       "-sOutputFile=" +:+ output_path; input_path ] w,
             Ok (false, "Error: Ghostscript (gs) is not installed or not in your PATH.")))
    as Hgtk.
  { unfold Gtk4IatePDFs.compress_pdf, try_except, bind, subprocess_run.
    rewrite Hwhich. reflexivity. }
  repeat split; try exact Hgtk; try reflexivity.
  intros stderr. simpl. discriminate.
Qed.

Lemma C8_witness :
  ∃ w',
    Gtk4IatePDFs.compress_pdf Samples.no_gs "/home/u/abc.pdf" "/home/u/small.pdf" "ebook"
      Samples.home
      = (w', Ok (false, "Error: Ghostscript (gs) is not installed or not in your PATH.")) ∧
    IAtePDFs._compress_pdf Samples.no_gs "/home/u/abc.pdf" "/home/u/small.pdf" "ebook"
      Samples.home
      = (w', Ok (false, "Error: Ghostscript (gs) is not installed or not in your PATH.")) ∧
    files w' = files Samples.home ∧
    files w' !! "/home/u/small.pdf" = files Samples.home !! "/home/u/small.pdf" ∧
    dirs w' = dirs Samples.home ∧
    (∀ stderr, "Error: Ghostscript (gs) is not installed or not in your PATH."
               ≠ "Ghostscript failed: " +:+ stderr).
Proof.
  apply (C8_compress_tool_missing Samples.no_gs Samples.home "/home/u/abc.pdf"
           "/home/u/small.pdf" "ebook").
  reflexivity.
Defined.

End Compress.

(** *** The window of [IAtePDFs.py] *)

Module WindowFacts.
Import Py Os Pypdf Spec PypdfFacts.
Import IAtePDFs.

(** [update_ui_state] writes the five buttons, and the stack and the two
    selections when the merge list is empty; the rest of the window stays. *)
Lemma update_ui_state_frame self :
  is_processing (update_ui_state self) = is_processing self
  ∧ merge_list_box (update_ui_state self) = merge_list_box self
  ∧ reorder_flow_box (update_ui_state self) = reorder_flow_box self
  ∧ compression_quality (update_ui_state self) = compression_quality self
  ∧ toasts (update_ui_state self) = toasts self
  ∧ dialogs (update_ui_state self) = dialogs self
  ∧ threads (update_ui_state self) = threads self
  ∧ idle_sources (update_ui_state self) = idle_sources self.
Proof.
  unfold update_ui_state. case_bool_decide; simpl; repeat split; reflexivity.
Qed.

Lemma update_ui_state_keeps_selection self :
  merge_list_box self ≠ [] →
  selected_pdf (update_ui_state self) = selected_pdf self
  ∧ reorder_source_path (update_ui_state self) = reorder_source_path self.
Proof.
  intros Hrows. unfold update_ui_state.
  case_bool_decide as Hlen; simpl; [|split; reflexivity].
  destruct (merge_list_box self); [congruence | discriminate].
Qed.

(** Loading an unencrypted document of [n] pages leaves exactly the widgets of
    pages 0 to n-1, none deleted, and makes the file the reorder source. *)
Lemma _load_pdf_for_reordering_readable w self path d :
  readable w path d →
  _load_pdf_for_reordering path w self
  = append_page_widgets (length (doc_pages d))
      (set_reorder_subtitle ("Reordering pages for: " +:+ basename path)
         (set_reorder_source_path (Some path) (_clear_reorder_view self))).
Proof.
  intros Hread. unfold _load_pdf_for_reordering.
  rewrite (PdfReader_new_readable _ _ _ Hread). reflexivity.
Qed.

End WindowFacts.

(** *** The reorder list of [IAtePDFs.py] *)

Section ReorderState.
Import Py Os Pypdf Spec PypdfFacts WindowFacts.
Import IAtePDFs.

(** C2.  Selecting a document of four pages loads the entries 0, 1, 2, 3,
    none deleted.  Dropping the entry at position 3 on the entry at position
    0 gives the order 3, 0, 1, 2; a click on the delete toggle at position 2
    marks the entry of page 1.  [_run_reorder_task] then collects 3, 0, 2 and
    starts the worker that calls [_reorder_pdf_pages] on the source with this
    order. *)
Theorem C2_move_toggle_resolve Path_stem host w self row path d output_path :
  merge_list_box self !! row = Some {| file_path := path |} →
  readable w path d →
  length (doc_pages d) = 4%nat →
  path ≠ "" →
  let loaded := (handle Path_stem host (row_selected (Some row)) (self, w)).1 in
  let moved := (handle Path_stem host (page_dropped 3 0) (loaded, w)).1 in
  let toggled := (handle Path_stem host (page_delete_clicked 2) (moved, w)).1 in
  let started := _run_reorder_task output_path toggled in
  original_page_index <$> reorder_flow_box loaded = [0; 1; 2; 3]%Z
  ∧ is_deleted <$> reorder_flow_box loaded = [false; false; false; false]
  ∧ original_page_index <$> reorder_flow_box moved = [3; 0; 1; 2]%Z
  ∧ original_page_index <$> reorder_flow_box toggled = [3; 0; 1; 2]%Z
  ∧ is_deleted <$> reorder_flow_box toggled = [false; false; true; false]
  ∧ threads started = (threads self ++ [reorder_thread output_path [3; 0; 2]%Z])%list
  ∧ task_result Path_stem host (reorder_thread output_path [3; 0; 2]%Z) started
    = _reorder_pdf_pages path output_path [3; 0; 2]%Z.
Proof.
  intros Hrow Hread Hlen Hpath loaded moved toggled started.
  assert (merge_list_box self ≠ []) as Hrows.
  { intros Hnil. rewrite Hnil in Hrow. discriminate. }
  set (shown := _load_pdf_for_reordering path w (set_selected_pdf (Some path) self)).
  assert (loaded = update_ui_state shown) as Hloaded.
  { subst loaded shown. unfold handle. rewrite Hrow. reflexivity. }
  assert (shown = append_page_widgets 4
                    (set_reorder_subtitle ("Reordering pages for: " +:+ basename path)
                       (set_reorder_source_path (Some path)
                          (_clear_reorder_view (set_selected_pdf (Some path) self)))))
    as Hshown.
  { subst shown. rewrite (_load_pdf_for_reordering_readable _ _ _ _ Hread), Hlen.
    reflexivity. }
  assert (merge_list_box shown ≠ []) as Hrows'.
  { rewrite Hshown. exact Hrows. }
  destruct (update_ui_state_frame shown)
    as (_ & Hmerge & Hbox & _ & _ & _ & Hthreads & _).
  destruct (update_ui_state_keeps_selection shown Hrows') as [_ Hsource].
  rewrite <- Hloaded in Hmerge, Hbox, Hthreads, Hsource.
  rewrite Hshown in Hmerge, Hbox, Hthreads, Hsource.
  simpl in Hmerge, Hbox, Hthreads, Hsource. clear Hshown Hloaded Hrows' shown.
  subst started toggled moved.
  unfold handle, _run_reorder_task. simpl. rewrite Hbox, Hsource. simpl.
  rewrite (bool_decide_eq_false_2 _ Hpath). simpl.
  match goal with |- context [update_ui_state ?s] => set (busy := s) end.
  destruct (update_ui_state_frame busy) as (_ & _ & _ & _ & _ & _ & Hthreads' & _).
  destruct (update_ui_state_keeps_selection busy) as [_ Hsource'].
  { subst busy. simpl. rewrite Hmerge. exact Hrows. }
  rewrite Hthreads', Hsource'. subst busy. simpl. rewrite Hthreads, Hsource.
  repeat split; reflexivity.
Qed.

Lemma C2_witness :
  let self :=
    (handle Samples.sample_stem Samples.no_gs (files_dropped [Some "/home/u/four.pdf"])
       (Window_new, Samples.home)).1 in
  let loaded :=
    (handle Samples.sample_stem Samples.no_gs (row_selected (Some 0%nat))
       (self, Samples.home)).1 in
  let moved :=
    (handle Samples.sample_stem Samples.no_gs (page_dropped 3 0) (loaded, Samples.home)).1 in
  let toggled :=
    (handle Samples.sample_stem Samples.no_gs (page_delete_clicked 2)
       (moved, Samples.home)).1 in
  let started := _run_reorder_task "/home/u/out.pdf" toggled in
  original_page_index <$> reorder_flow_box loaded = [0; 1; 2; 3]%Z
  ∧ is_deleted <$> reorder_flow_box loaded = [false; false; false; false]
  ∧ original_page_index <$> reorder_flow_box moved = [3; 0; 1; 2]%Z
  ∧ original_page_index <$> reorder_flow_box toggled = [3; 0; 1; 2]%Z
  ∧ is_deleted <$> reorder_flow_box toggled = [false; false; true; false]
  ∧ threads started
    = (threads self ++ [reorder_thread "/home/u/out.pdf" [3; 0; 2]%Z])%list
  ∧ task_result Samples.sample_stem Samples.no_gs
      (reorder_thread "/home/u/out.pdf" [3; 0; 2]%Z) started
    = _reorder_pdf_pages "/home/u/four.pdf" "/home/u/out.pdf" [3; 0; 2]%Z.
Proof.
  apply (C2_move_toggle_resolve Samples.sample_stem Samples.no_gs Samples.home
           (handle Samples.sample_stem Samples.no_gs
              (files_dropped [Some "/home/u/four.pdf"]) (Window_new, Samples.home)).1
           0%nat "/home/u/four.pdf" Samples.four_pages "/home/u/out.pdf").
  - reflexivity.
  - split; reflexivity.
  - reflexivity.
  - discriminate.
Defined.

(** The run of the specification's example, from the empty window to the
    written file: pages P3, P0, P2. *)
Example reorder_run :
  let st :=
    run Samples.sample_stem Samples.no_gs
      [ files_dropped [Some "/home/u/four.pdf"]; page_dropped 3 0; page_delete_clicked 2;
        reorder_clicked; dialog_response 0 (Some "/home/u/out.pdf"); thread_runs 0;
        idle_runs ]
      (Window_new, Samples.home) in
  files st.2 !! "/home/u/out.pdf"
  = Some (PdfFile {| doc_encrypted := false;
                     doc_pages := [Samples.page "P3"; Samples.page "P0"; Samples.page "P2"] |})
  ∧ toasts st.1 = ["Saving reordered PDF..."; "Successfully reordered pages."]
  ∧ is_processing st.1 = false.
Proof. vm_compute. repeat split; reflexivity. Qed.


End ReorderState.

(** *** Loading a document for reordering *)

Section Load.
Import Py Os Pypdf Spec PypdfFacts WindowFacts.

(** In [gtk4IatePDFs.py] an encrypted document is refused with a toast, and
    nothing else of the window changes. *)
Lemma gtk4_load_encrypted w self path d :
  files w !! path = Some (PdfFile d) →
  doc_encrypted d = true →
  Gtk4IatePDFs._load_pdf_for_reordering path w self
  = Gtk4IatePDFs.add_toast "Could not load: The PDF is encrypted." self.
Proof.
  intros Hfile Henc. unfold Gtk4IatePDFs._load_pdf_for_reordering, PdfReader_new.
  rewrite Hfile. simpl. rewrite Henc. reflexivity.
Qed.

(** In [gtk4IatePDFs.py] a document without pages is refused with a toast,
    and nothing else of the window changes. *)
Lemma gtk4_load_empty w self path d :
  readable w path d →
  doc_pages d = [] →
  Gtk4IatePDFs._load_pdf_for_reordering path w self
  = Gtk4IatePDFs.add_toast "PDF is empty or cannot be read." self.
Proof.
  intros Hread Hempty. unfold Gtk4IatePDFs._load_pdf_for_reordering.
  rewrite (PdfReader_new_readable _ _ _ Hread). simpl. rewrite Hempty. reflexivity.
Qed.

(** In [IAtePDFs.py] an encrypted document is refused with a toast, and
    nothing else of the window changes. *)
Lemma load_encrypted w self path d :
  files w !! path = Some (PdfFile d) →
  doc_encrypted d = true →
  IAtePDFs._load_pdf_for_reordering path w self
  = IAtePDFs.add_toast "Cannot load encrypted PDF." self.
Proof.
  intros Hfile Henc. unfold IAtePDFs._load_pdf_for_reordering, PdfReader_new.
  rewrite Hfile. simpl. rewrite Henc. reflexivity.
Qed.

(** C9, at the input where [IAtePDFs.py] departs from it.  A readable
    document without pages is not refused by [_load_pdf_for_reordering] of
    [IAtePDFs.py]: no toast is shown, the view is emptied, and the file
    becomes the reorder source.  (The loader of [gtk4IatePDFs.py] tests
    [num_pages == 0] and refuses, see [gtk4_load_empty].) *)
Theorem C9_empty_document_is_loaded w self path d :
  readable w path d →
  doc_pages d = [] →
  IAtePDFs.reorder_source_path (IAtePDFs._load_pdf_for_reordering path w self) = Some path
  ∧ IAtePDFs.toasts (IAtePDFs._load_pdf_for_reordering path w self) = IAtePDFs.toasts self
  ∧ IAtePDFs.reorder_flow_box (IAtePDFs._load_pdf_for_reordering path w self) = [].
Proof.
  intros Hread Hempty.
  rewrite (_load_pdf_for_reordering_readable _ _ _ _ Hread), Hempty.
  repeat split; reflexivity.
Qed.

Lemma C9_witness :
  IAtePDFs.reorder_source_path
    (IAtePDFs._load_pdf_for_reordering "/home/u/empty.pdf" Samples.home IAtePDFs.Window_new)
  = Some "/home/u/empty.pdf"
  ∧ IAtePDFs.toasts
      (IAtePDFs._load_pdf_for_reordering "/home/u/empty.pdf" Samples.home
         IAtePDFs.Window_new)
    = IAtePDFs.toasts IAtePDFs.Window_new
  ∧ IAtePDFs.reorder_flow_box
      (IAtePDFs._load_pdf_for_reordering "/home/u/empty.pdf" Samples.home
         IAtePDFs.Window_new)
    = [].
Proof.
  apply (C9_empty_document_is_loaded Samples.home IAtePDFs.Window_new "/home/u/empty.pdf"
           Samples.no_pages).
  - split; reflexivity.
  - reflexivity.
Defined.

End Load.

(** *** The processing gate of [IAtePDFs.py] *)

Module GateFacts.
Import Py Os Pypdf Spec PypdfFacts WindowFacts.
Import IAtePDFs.











(** A handler that raises nothing of its own ends in [Ok]. *)
Lemma try_except_returns {A} (body : M A) (handler : Exception → A) w :
  ∃ w' r, try_except body (λ e, ret (handler e)) w = (w', Ok r).
Proof.
  unfold try_except, ret. destruct (body w) as [w' [a|e]]; eauto.
Qed.

(** Splitting, merging and reordering return their pair whatever is raised
    inside them: their [except Exception] takes it. *)
Lemma task_result_returns Path_stem host task self w :
  (∀ input_path output_path, task ≠ compress_thread input_path output_path) →
  ∃ w' r, task_result Path_stem host task self w = (w', Ok r).
Proof.
  intros Hkind. destruct task as [input_path output_path| | |]; simpl.
  - destruct (Hkind input_path output_path eq_refl).
  - apply try_except_returns.
  - apply try_except_returns.
  - destruct (reorder_source_path self); [apply try_except_returns | unfold ret; eauto].
Qed.








End GateFacts.

Section TaskRunner.
Import Py Os Pypdf Spec PypdfFacts WindowFacts GateFacts.
Import IAtePDFs.

Lemma is_processing__on_task_finished success message clear_merge self :
  is_processing (_on_task_finished success message clear_merge self) = false.
Proof.
  unfold _on_task_finished, _set_processing_state.
  destruct (success && clear_merge).
  - rewrite (proj1 (update_ui_state_frame _)). simpl.
    rewrite (proj1 (update_ui_state_frame _)). reflexivity.
  - simpl. rewrite (proj1 (update_ui_state_frame _)). reflexivity.
Qed.




End TaskRunner.

(** ** Further properties *)

(** *** Dropping a row or a page widget: [_on_drop] *)

Section DropChild.
Import IAtePDFs.
Context {A : Type}.

Lemma _on_drop_child_Permutation (source target : nat) (box : list A) :
  _on_drop_child source target box ≡ₚ box.
Proof.
  unfold _on_drop_child, box_insert.
  case_bool_decide; [reflexivity|].
  case_bool_decide; [reflexivity|].
  destruct (box !! source) as [child|] eqn:Hsource; [|reflexivity].
  rewrite <- Permutation_middle, take_drop.
  symmetry. apply delete_Permutation, Hsource.
Qed.

(** X1.  A drop rearranges the children and nothing else: whatever the
    source and the target, the container afterwards holds the children it
    held before, each as often as before. *)
Theorem X1_drop_permutes_children (source target : nat) (box : list A) :
  _on_drop_child source target box ≡ₚ box.
Proof. apply _on_drop_child_Permutation. Qed.

(** X2.  When the source is dropped on another child, it takes the position
    the target had, and the other children keep their order: without the
    moved child, the container reads as it did before without it. *)
Theorem X2_drop_places_source_at_target (source target : nat) (box : list A) :
  source ≠ target →
  (source < length box)%nat →
  (target < length box)%nat →
  _on_drop_child source target box !! target = box !! source
  ∧ delete target (_on_drop_child source target box) = delete source box
  ∧ length (_on_drop_child source target box) = length box.
Proof.
  intros Hne Hsource Htarget. unfold _on_drop_child, box_insert.
  rewrite (bool_decide_eq_false_2 _ Hne).
  rewrite bool_decide_eq_false_2 by lia.
  destruct (lookup_lt_is_Some_2 box source Hsource) as [child Hchild].
  rewrite Hchild.
  assert (length (take target (delete source box)) = target) as Htake.
  { rewrite length_take, length_delete by eauto. lia. }
  split; [|split].
  - rewrite lookup_app_r by lia. rewrite Htake, Nat.sub_diag. reflexivity.
  - rewrite <- Htake at 1. rewrite delete_middle. apply take_drop.
  - rewrite length_app, Htake. simpl. rewrite length_drop, length_delete by eauto. lia.
Qed.

End DropChild.

Lemma X2_witness :
  IAtePDFs._on_drop_child 3 0 [10; 11; 12; 13]%nat !! 0%nat = [10; 11; 12; 13]%nat !! 3%nat
  ∧ delete 0%nat (IAtePDFs._on_drop_child 3 0 [10; 11; 12; 13]%nat)
    = delete 3%nat [10; 11; 12; 13]%nat
  ∧ length (IAtePDFs._on_drop_child 3 0 [10; 11; 12; 13]%nat)
    = length [10; 11; 12; 13]%nat.
Proof.
  apply (X2_drop_places_source_at_target 3 0 [10; 11; 12; 13]%nat).
  - discriminate.
  - simpl. lia.
  - simpl. lia.
Defined.

(** *** Reordering: when it succeeds, and what a failure leaves *)

Module ReorderMore.
Import Py Os Pypdf Spec PypdfFacts ReorderFacts.

(** Looking a page up never changes the world, encrypted or not. *)
Lemma pages_getitem_world reader index w w' r :
  pages_getitem reader index w = (w', r) → w' = w.
Proof.
  unfold pages_getitem, bind, pages_len, raise, ret.
  destruct (is_encrypted reader); [congruence|].
  destruct (_ || _); [congruence|].
  destruct (stream_pages reader !! _); congruence.
Qed.

Lemma reorder_loop_world reader order : ∀ writer w w' r,
  Gtk4IatePDFs.reorder_loop reader writer order w = (w', r) → w' = w.
Proof.
  induction order as [|index rest IH]; intros writer w w' r; simpl.
  - unfold ret. congruence.
  - unfold bind. destruct (pages_getitem reader index w) as [w1 [page|e]] eqn:Hget.
    + apply pages_getitem_world in Hget as ->. apply IH.
    + apply pages_getitem_world in Hget as ->. congruence.
Qed.

(** An index below minus the page count raises [IndexError]. *)
Lemma pages_getitem_below reader index w :
  is_encrypted reader = false →
  (index < - Z.of_nat (length (stream_pages reader)))%Z →
  pages_getitem reader index w = (w, Raise (IndexError "Sequence index out of range")).
Proof.
  intros Hplain Hlt. unfold pages_getitem, bind. rewrite pages_len_plain by assumption.
  replace (index <? 0)%Z with true by lia.
  set (i := (Z.of_nat (length (stream_pages reader)) + index)%Z).
  replace ((i <? 0) || (Z.of_nat (length (stream_pages reader)) <=? i))%Z
    with true by lia.
  reflexivity.
Qed.

(** An index from minus the page count up to the page count selects a
    page. *)
Lemma pages_getitem_within reader index :
  is_encrypted reader = false →
  (- Z.of_nat (length (stream_pages reader)) ≤ index
   < Z.of_nat (length (stream_pages reader)))%Z →
  ∃ page, ∀ w : World, pages_getitem reader index w = (w, Ok page).
Proof.
  intros Hplain Hrange.
  destruct (decide (index < 0)%Z) as [Hneg|Hpos].
  - destruct (lookup_lt_is_Some_2 (stream_pages reader)
                (Z.to_nat (Z.of_nat (length (stream_pages reader)) + index)))
      as [page Hpage]; [lia|].
    exists page. intros w'. apply pages_getitem_neg; [assumption | lia | lia | exact Hpage].
  - destruct (lookup_lt_is_Some_2 (stream_pages reader) (Z.to_nat index))
      as [page Hpage]; [lia|].
    exists page. intros w'. apply pages_getitem_nonneg; [assumption | lia | exact Hpage].
Qed.

Lemma reorder_loop_within reader order :
  is_encrypted reader = false →
  Forall (λ index, - Z.of_nat (length (stream_pages reader)) ≤ index
                   < Z.of_nat (length (stream_pages reader)))%Z order →
  ∃ out, Forall2 (λ index page, ∀ w : World, pages_getitem reader index w = (w, Ok page))
           order out.
Proof.
  intros Hplain. induction 1 as [|index rest Hi _ [out IH]].
  - exists []. constructor.
  - destruct (pages_getitem_within reader index Hplain Hi) as [page Hpage].
    exists (page :: out). constructor; assumption.
Qed.

Lemma reorder_loop_outside reader order :
  is_encrypted reader = false →
  Exists (λ index, ¬ (- Z.of_nat (length (stream_pages reader)) ≤ index
                      < Z.of_nat (length (stream_pages reader)))%Z) order →
  ∀ writer w,
    Gtk4IatePDFs.reorder_loop reader writer order w
    = (w, Raise (IndexError "Sequence index out of range")).
Proof.
  intros Hplain. induction 1 as [index rest Hout|index rest _ IH]; intros writer w;
    simpl; unfold bind.
  - destruct (decide (index < 0)%Z).
    + rewrite pages_getitem_below by (assumption || lia). reflexivity.
    + rewrite pages_getitem_past by (assumption || lia). reflexivity.
  - destruct (pages_getitem_cases reader Hplain index w) as [[page ->]| ->];
      [apply IH | reflexivity].
Qed.

End ReorderMore.

Section ReorderOutcome.
Import Py Os Pypdf Spec PypdfFacts ReorderFacts ReorderMore.

(** X3.  On a readable document of N pages, reordering succeeds exactly when
    every index of the order lies from -N up to N-1; any index outside,
    below -N included, gives the failure with the index error.  Both scripts. *)
Theorem X3_reorder_succeeds_iff_indices_within w input_path output_path order d :
  readable w input_path d →
  (Forall (λ index, - Z.of_nat (length (doc_pages d)) ≤ index
                    < Z.of_nat (length (doc_pages d)))%Z order
   ↔ (Gtk4IatePDFs.reorder_pdf_pages input_path output_path order w).2
     = Ok (true, "Successfully reordered pages."))
  ∧ (¬ Forall (λ index, - Z.of_nat (length (doc_pages d)) ≤ index
                        < Z.of_nat (length (doc_pages d)))%Z order
     → Gtk4IatePDFs.reorder_pdf_pages input_path output_path order w
       = (w, Ok (false, "Failed to reorder PDF: Sequence index out of range")))
  ∧ IAtePDFs._reorder_pdf_pages input_path output_path order w
    = Gtk4IatePDFs.reorder_pdf_pages input_path output_path order w.
Proof.
  intros Hread.
  assert (¬ Forall (λ index, - Z.of_nat (length (doc_pages d)) ≤ index
                             < Z.of_nat (length (doc_pages d)))%Z order
          → Gtk4IatePDFs.reorder_pdf_pages input_path output_path order w
            = (w, Ok (false, "Failed to reorder PDF: Sequence index out of range")))
    as Hfail.
  { intros Hnot. apply not_Forall_Exists in Hnot; [|intros index; apply _].
    unfold Gtk4IatePDFs.reorder_pdf_pages, try_except, bind.
    rewrite (PdfReader_new_readable _ _ _ Hread).
    rewrite reorder_loop_outside; [reflexivity | reflexivity | exact Hnot]. }
  split; [|split; [exact Hfail | apply _reorder_pdf_pages_agree]].
  split.
  - intros Hall.
    destruct (reorder_loop_within {| is_encrypted := false; stream_pages := doc_pages d |}
                order eq_refl Hall) as [out Hout].
    rewrite (reorder_pdf_pages_ok w input_path output_path order d out Hread Hout).
    reflexivity.
  - intros Hok.
    destruct (decide (Forall (λ index, - Z.of_nat (length (doc_pages d)) ≤ index
                                        < Z.of_nat (length (doc_pages d)))%Z order))
      as [Hall|Hnot]; [exact Hall|].
    rewrite (Hfail Hnot) in Hok. discriminate.
Qed.

Lemma X3_witness :
  (Forall (λ index, - Z.of_nat (length (doc_pages Samples.three_pages)) ≤ index
                    < Z.of_nat (length (doc_pages Samples.three_pages)))%Z [2; -4]%Z
   ↔ (Gtk4IatePDFs.reorder_pdf_pages "/home/u/abc.pdf" "/home/u/out.pdf" [2; -4]%Z
        Samples.home).2
     = Ok (true, "Successfully reordered pages."))
  ∧ (¬ Forall (λ index, - Z.of_nat (length (doc_pages Samples.three_pages)) ≤ index
                        < Z.of_nat (length (doc_pages Samples.three_pages)))%Z [2; -4]%Z
     → Gtk4IatePDFs.reorder_pdf_pages "/home/u/abc.pdf" "/home/u/out.pdf" [2; -4]%Z
         Samples.home
       = (Samples.home, Ok (false, "Failed to reorder PDF: Sequence index out of range")))
  ∧ IAtePDFs._reorder_pdf_pages "/home/u/abc.pdf" "/home/u/out.pdf" [2; -4]%Z Samples.home
    = Gtk4IatePDFs.reorder_pdf_pages "/home/u/abc.pdf" "/home/u/out.pdf" [2; -4]%Z
        Samples.home.
Proof.
  apply (X3_reorder_succeeds_iff_indices_within Samples.home "/home/u/abc.pdf"
           "/home/u/out.pdf" [2; -4]%Z Samples.three_pages).
  split; reflexivity.
Defined.

(** X4.  Whatever the source and the order, a reorder that reports a failure
    returns the world it was given (no file is created, changed or removed),
    and one that reports a success has written the output file and nothing
    else.  Both scripts. *)
Theorem X4_reorder_writes_only_on_success input_path output_path order w w' success message :
  Gtk4IatePDFs.reorder_pdf_pages input_path output_path order w
    = (w', Ok (success, message)) →
  IAtePDFs._reorder_pdf_pages input_path output_path order w = (w', Ok (success, message))
  ∧ (success = false → w' = w)
  ∧ (success = true → ∃ pages, w' = with_pdf output_path pages w).
Proof.
  intros Hrun. split; [rewrite _reorder_pdf_pages_agree; exact Hrun|].
  revert Hrun. unfold Gtk4IatePDFs.reorder_pdf_pages, try_except, bind, ret.
  unfold PdfReader_new.
  destruct (files w !! input_path) as [[doc|bytes]|];
    [|intros [= <- <- <-]; split; [reflexivity | discriminate]..].
  destruct (Gtk4IatePDFs.reorder_loop _ _ order w) as [w1 [writer|e]] eqn:Hloop;
    apply reorder_loop_world in Hloop as ->.
  - unfold write, write_file. intros [= <- <- <-].
    split; [discriminate | intros _; eexists; reflexivity].
  - intros [= <- <- <-]. split; [reflexivity | discriminate].
Qed.

Lemma X4_witness :
  IAtePDFs._reorder_pdf_pages "/home/u/notes.txt" "/home/u/out.pdf" [0]%Z Samples.home
    = (Samples.home, Ok (false, "Failed to reorder PDF: EOF marker not found"))
  ∧ (false = false → Samples.home = Samples.home)
  ∧ (false = true → ∃ pages, Samples.home = with_pdf "/home/u/out.pdf" pages Samples.home).
Proof.
  apply (X4_reorder_writes_only_on_success "/home/u/notes.txt" "/home/u/out.pdf" [0]%Z
           Samples.home Samples.home false "Failed to reorder PDF: EOF marker not found").
  reflexivity.
Defined.

End ReorderOutcome.

(** *** Merging and splitting: failures and a round trip *)

Module MergeMore.
Import Py Os Pypdf Spec PypdfFacts.

(** Appending an input either adds its pages or raises; it never writes. *)
Lemma append_cases merger path w :
  (∃ d, readable w path d ∧
        append merger path w
        = (w, Ok {| writer_pages := writer_pages merger ++ doc_pages d |}))
  ∨ ((∀ d, ¬ readable w path d) ∧ ∃ e, append merger path w = (w, Raise e)).
Proof.
  unfold append, bind, PdfReader_new, readable.
  destruct (files w !! path) as [[d|bytes]|] eqn:Hfile.
  - destruct (doc_encrypted d) eqn:Henc.
    + right. split; [intros d' [[= <-] Hd']; congruence|].
      unfold pages_iter, bind, pages_len. simpl. unfold raise. eauto.
    + left. exists d. split; [auto|].
      unfold pages_iter, bind, pages_len. simpl. reflexivity.
  - right. split; [intros d' [[=] _] | eauto].
  - right. split; [intros d' [[=] _] | eauto].
Qed.

(** One unreadable input makes the loop raise, in the world it started in. *)
Lemma merge_loop_unreadable w pdf_paths :
  Exists (λ path, ∀ d, ¬ readable w path d) pdf_paths →
  ∀ merger, ∃ e, Gtk4IatePDFs.merge_loop merger pdf_paths w = (w, Raise e).
Proof.
  induction 1 as [path rest Hbad|path rest _ IH]; intros merger; simpl; unfold bind.
  - destruct (append_cases merger path w) as [(d & Hread & _)|[_ [e ->]]]; [|eauto].
    destruct (Hbad d Hread).
  - destruct (append_cases merger path w) as [(d & _ & ->)|[_ [e ->]]]; [apply IH | eauto].
Qed.

Lemma concat_singletons {A} (l : list A) : concat ((λ x, [x]) <$> l) = l.
Proof. induction l as [|x l IH]; [reflexivity|]. simpl. f_equal. exact IH. Qed.

End MergeMore.

Section MergeSplitOutcome.
Import Py Os Pypdf Spec PypdfFacts SplitFacts MergeMore.

(** X5.  Merging is all or nothing.  When one path of the list, at any
    position, is missing or holds a file that is not a PDF, the merge
    reports a failure and returns the world it was given: whatever was
    appended before, no output was written.  Both scripts. *)
Theorem X5_merge_fails_whole_on_non_pdf_input w pdf_paths output_path :
  Exists (λ path, ∀ d, files w !! path ≠ Some (PdfFile d)) pdf_paths →
  ∃ e,
    Gtk4IatePDFs.merge_pdfs pdf_paths output_path w
      = (w, Ok (false, "Failed to merge PDFs: " +:+ str e))
    ∧ IAtePDFs._merge_pdfs pdf_paths output_path w
      = (w, Ok (false, "Failed to merge PDFs: " +:+ str e)).
Proof.
  intros Hbad.
  assert (Exists (λ path, ∀ d, ¬ readable w path d) pdf_paths) as Hbad'.
  { eapply Exists_impl; [exact Hbad|]. intros path Hpath d [Hfile _].
    exact (Hpath d Hfile). }
  destruct (merge_loop_unreadable w pdf_paths Hbad' PdfWriter_new) as [e Hloop].
  exists e.
  assert (Gtk4IatePDFs.merge_pdfs pdf_paths output_path w
          = (w, Ok (false, "Failed to merge PDFs: " +:+ str e))) as Hgtk.
  { unfold Gtk4IatePDFs.merge_pdfs, try_except, bind. rewrite Hloop. reflexivity. }
  split; exact Hgtk.
Qed.

Lemma X5_witness :
  ∃ e,
    Gtk4IatePDFs.merge_pdfs ["/home/u/abc.pdf"; "/home/u/notes.txt"; "/home/u/four.pdf"]
      "/home/u/merged.pdf" Samples.home
      = (Samples.home, Ok (false, "Failed to merge PDFs: " +:+ str e))
    ∧ IAtePDFs._merge_pdfs ["/home/u/abc.pdf"; "/home/u/notes.txt"; "/home/u/four.pdf"]
        "/home/u/merged.pdf" Samples.home
      = (Samples.home, Ok (false, "Failed to merge PDFs: " +:+ str e)).
Proof.
  apply (X5_merge_fails_whole_on_non_pdf_input Samples.home
           ["/home/u/abc.pdf"; "/home/u/notes.txt"; "/home/u/four.pdf"]
           "/home/u/merged.pdf").
  apply Exists_cons_tl, Exists_cons_hd.
  intros d Hfile. vm_compute in Hfile. discriminate.
Defined.

(** X6.  A split of a path that is missing or holds a file that is not a
    PDF changes nothing: [PdfReader] raises before [os.makedirs] is reached,
    so the failure is reported with no page file written and the output
    directory not made. *)
Theorem X6_split_of_non_pdf_changes_nothing Path_stem input_path output_dir w :
  (∀ d, files w !! input_path ≠ Some (PdfFile d)) →
  ∃ e,
    IAtePDFs._split_pdf Path_stem input_path output_dir w
    = (w, Ok (false, "Failed to split PDF: " +:+ str e)).
Proof.
  intros Hbad.
  unfold IAtePDFs._split_pdf, try_except, bind, ret, PdfReader_new.
  destruct (files w !! input_path) as [[d|bytes]|] eqn:Hfile; [|eauto..].
  destruct (Hbad d eq_refl).
Qed.

Lemma X6_witness :
  ∃ e,
    IAtePDFs._split_pdf Samples.sample_stem "/home/u/gone.pdf" "/home/u/pages" Samples.home
    = (Samples.home, Ok (false, "Failed to split PDF: " +:+ str e)).
Proof.
  apply (X6_split_of_non_pdf_changes_nothing Samples.sample_stem "/home/u/gone.pdf"
           "/home/u/pages" Samples.home).
  intros d Hfile. vm_compute in Hfile. discriminate.
Defined.

(** X7.  Splitting and merging undo each other: after a document is split,
    merging its page files in page order gives a document with the pages of
    the source, in order.  Either script's merge. *)
Theorem X7_split_then_merge_round_trip Path_stem w input_path output_dir output_path d :
  readable w input_path d →
  Gtk4IatePDFs.merge_pdfs
    (page_file output_dir (Path_stem input_path) <$> seq 0 (length (doc_pages d)))
    output_path (IAtePDFs._split_pdf Path_stem input_path output_dir w).1
  = (with_pdf output_path (doc_pages d)
       (IAtePDFs._split_pdf Path_stem input_path output_dir w).1,
     Ok (true, "Successfully merged " +:+ pretty (length (doc_pages d)) +:+ " files."))
  ∧ IAtePDFs._merge_pdfs
      (page_file output_dir (Path_stem input_path) <$> seq 0 (length (doc_pages d)))
      output_path (IAtePDFs._split_pdf Path_stem input_path output_dir w).1
    = (with_pdf output_path (doc_pages d)
         (IAtePDFs._split_pdf Path_stem input_path output_dir w).1,
       Ok (true, "Successfully merged " +:+ pretty (length (doc_pages d)) +:+ " files.")).
Proof.
  intros Hread.
  destruct (split_loop_spec output_dir (Path_stem input_path) (doc_pages d) 0
              (add_dir output_dir w)) as (w1 & Hrun & _ & _ & Hwritten & _).
  assert ((IAtePDFs._split_pdf Path_stem input_path output_dir w).1 = w1) as ->.
  { unfold IAtePDFs._split_pdf, try_except, bind.
    rewrite (PdfReader_new_readable _ _ _ Hread). unfold makedirs.
    rewrite pages_iter_plain by reflexivity. simpl. simpl in Hrun. rewrite Hrun.
    reflexivity. }
  set (names := page_file output_dir (Path_stem input_path) <$> seq 0 (length (doc_pages d))).
  set (docs := (λ page, {| doc_encrypted := false; doc_pages := [page] |}) <$> doc_pages d).
  assert (Forall2 (readable w1) names docs) as Hall.
  { apply Forall2_same_length_lookup_2.
    - subst names docs. rewrite !length_fmap, length_seq. reflexivity.
    - intros i name doc Hname Hdoc. subst names docs.
      rewrite list_lookup_fmap in Hname. rewrite list_lookup_fmap in Hdoc.
      destruct (doc_pages d !! i) as [page|] eqn:Hpage; [|discriminate].
      injection Hdoc as <-.
      rewrite lookup_seq_lt in Hname by (eapply lookup_lt_Some; eassumption).
      injection Hname as <-.
      split; [exact (Hwritten i page Hpage) | reflexivity]. }
  assert (concat (doc_pages <$> docs) = doc_pages d) as Hpages.
  { subst docs. rewrite <- list_fmap_compose. apply concat_singletons. }
  assert (length names = length (doc_pages d)) as Hlen.
  { subst names. rewrite length_fmap, length_seq. reflexivity. }
  assert (Gtk4IatePDFs.merge_pdfs names output_path w1
          = (with_pdf output_path (doc_pages d) w1,
             Ok (true, "Successfully merged " +:+ pretty (length (doc_pages d)) +:+ " files.")))
    as Hgtk.
  { unfold Gtk4IatePDFs.merge_pdfs, try_except, bind.
    rewrite (merge_loop_readable _ _ _ Hall). simpl. rewrite Hpages, Hlen. reflexivity. }
  split; exact Hgtk.
Qed.

Lemma X7_witness :
  Gtk4IatePDFs.merge_pdfs
    (page_file "/home/u/pages" (Samples.sample_stem "/home/u/abc.pdf")
       <$> seq 0 (length (doc_pages Samples.three_pages)))
    "/home/u/again.pdf"
    (IAtePDFs._split_pdf Samples.sample_stem "/home/u/abc.pdf" "/home/u/pages" Samples.home).1
  = (with_pdf "/home/u/again.pdf" (doc_pages Samples.three_pages)
       (IAtePDFs._split_pdf Samples.sample_stem "/home/u/abc.pdf" "/home/u/pages"
          Samples.home).1,
     Ok (true, "Successfully merged " +:+ pretty (length (doc_pages Samples.three_pages))
               +:+ " files."))
  ∧ IAtePDFs._merge_pdfs
      (page_file "/home/u/pages" (Samples.sample_stem "/home/u/abc.pdf")
         <$> seq 0 (length (doc_pages Samples.three_pages)))
      "/home/u/again.pdf"
      (IAtePDFs._split_pdf Samples.sample_stem "/home/u/abc.pdf" "/home/u/pages"
         Samples.home).1
    = (with_pdf "/home/u/again.pdf" (doc_pages Samples.three_pages)
         (IAtePDFs._split_pdf Samples.sample_stem "/home/u/abc.pdf" "/home/u/pages"
            Samples.home).1,
       Ok (true, "Successfully merged " +:+ pretty (length (doc_pages Samples.three_pages))
                 +:+ " files.")).
Proof.
  apply (X7_split_then_merge_round_trip Samples.sample_stem Samples.home "/home/u/abc.pdf"
           "/home/u/pages" "/home/u/again.pdf" Samples.three_pages).
  split; reflexivity.
Defined.

End MergeSplitOutcome.

(** *** The reorder grid: drags and delete toggles after a load *)

Module GridFacts.
Import Py Os Pypdf Spec Terms PypdfFacts ReorderFacts WindowFacts.
Import IAtePDFs.

Lemma set_reorder_flow_box_same self :
  set_reorder_flow_box (reorder_flow_box self) self = self.
Proof. destruct self; reflexivity. Qed.

Lemma alter_twice {A} (f : A → A) (l : list A) :
  Forall (λ x, f (f x) = x) l → ∀ i, alter f i (alter f i l) = l.
Proof.
  induction 1 as [|x l Hx _ IH]; intros [|i]; simpl; [reflexivity.. | |].
  - f_equal. exact Hx.
  - f_equal. apply IH.
Qed.

(** A click on the delete toggle leaves the page of the widget alone and
    sets the mark to the state of the toggle. *)
Lemma click_delete_button_index c :
  original_page_index (click_delete_button c) = original_page_index c.
Proof. reflexivity. Qed.

Lemma click_delete_button_twice c :
  is_deleted c = delete_button_active c →
  click_delete_button (click_delete_button c) = c.
Proof.
  destruct c as [index deleted active]. simpl. intros ->.
  unfold click_delete_button, _on_delete_toggled. simpl.
  rewrite negb_involutive. reflexivity.
Qed.

(** One event of the grid changes the grid only: the widgets are permuted or
    one of them is marked, and mark and toggle stay together. *)
Lemma page_event_step Path_stem host ev self w :
  is_page_event ev = true →
  ∃ box,
    handle Path_stem host ev (self, w) = (set_reorder_flow_box box self, w)
    ∧ original_page_index <$> box ≡ₚ original_page_index <$> reorder_flow_box self
    ∧ (Forall (λ c, is_deleted c = delete_button_active c) (reorder_flow_box self) →
       Forall (λ c, is_deleted c = delete_button_active c) box).
Proof.
  destruct ev; try discriminate; intros _; simpl.
  - eexists. split; [reflexivity|]. split.
    + apply fmap_Permutation, _on_drop_child_Permutation.
    + intros Hsync. rewrite _on_drop_child_Permutation. exact Hsync.
  - eexists. split; [reflexivity|]. split.
    + rewrite (list_fmap_alter original_page_index click_delete_button id).
      * rewrite list_alter_id by reflexivity. reflexivity.
      * apply Forall_forall. intros c _. reflexivity.
    + intros Hsync. apply Forall_alter; [exact Hsync|]. intros c _ _. reflexivity.
Qed.

Lemma page_events_run Path_stem host evs : ∀ self w,
  Forall (λ ev, is_page_event ev = true) evs →
  ∃ box,
    run Path_stem host evs (self, w) = (set_reorder_flow_box box self, w)
    ∧ original_page_index <$> box ≡ₚ original_page_index <$> reorder_flow_box self
    ∧ (Forall (λ c, is_deleted c = delete_button_active c) (reorder_flow_box self) →
       Forall (λ c, is_deleted c = delete_button_active c) box).
Proof.
  induction evs as [|ev evs IH]; intros self w Hevs.
  - exists (reorder_flow_box self). simpl. rewrite set_reorder_flow_box_same. auto.
  - apply Forall_cons in Hevs as [Hev Hevs].
    destruct (page_event_step Path_stem host ev self w Hev) as (box1 & Hstep & Hperm1 & Hsync1).
    destruct (IH (set_reorder_flow_box box1 self) w Hevs) as (box2 & Hrun & Hperm2 & Hsync2).
    exists box2. split; [|split].
    + change (run Path_stem host (ev :: evs) (self, w))
        with (run Path_stem host evs (handle Path_stem host ev (self, w))).
      rewrite Hstep. exact Hrun.
    + etransitivity; [exact Hperm2 | exact Hperm1].
    + intros Hsync. apply Hsync2, Hsync1, Hsync.
Qed.

(** Selecting the row of a readable document shows its pages 0 to n-1, none
    marked, and makes it the reorder source; rows, workers and the world
    stay. *)
Lemma row_selected_readable Path_stem host w self row path d :
  merge_list_box self !! row = Some {| file_path := path |} →
  readable w path d →
  ∃ loaded,
    handle Path_stem host (row_selected (Some row)) (self, w) = (loaded, w)
    ∧ reorder_flow_box loaded
      = (λ i : nat, PdfPageWidget_new (Z.of_nat i)) <$> seq 0 (length (doc_pages d))
    ∧ reorder_source_path loaded = Some path
    ∧ merge_list_box loaded = merge_list_box self
    ∧ threads loaded = threads self.
Proof.
  intros Hrow Hread.
  assert (merge_list_box self ≠ []) as Hrows.
  { intros Hnil. rewrite Hnil in Hrow. discriminate. }
  set (shown := _load_pdf_for_reordering path w (set_selected_pdf (Some path) self)).
  exists (update_ui_state shown). split.
  { unfold handle. rewrite Hrow. reflexivity. }
  assert (shown = append_page_widgets (length (doc_pages d))
                    (set_reorder_subtitle ("Reordering pages for: " +:+ basename path)
                       (set_reorder_source_path (Some path)
                          (_clear_reorder_view (set_selected_pdf (Some path) self)))))
    as Hshown.
  { subst shown. apply (_load_pdf_for_reordering_readable _ _ _ _ Hread). }
  assert (merge_list_box shown ≠ []) as Hrows'.
  { rewrite Hshown. exact Hrows. }
  destruct (update_ui_state_frame shown)
    as (_ & Hmerge & Hbox & _ & _ & _ & Hthreads & _).
  destruct (update_ui_state_keeps_selection shown Hrows') as [_ Hsource].
  rewrite Hmerge, Hbox, Hthreads, Hsource, Hshown. repeat split; reflexivity.
Qed.

Lemma fresh_widgets_indices n :
  original_page_index <$> ((λ i : nat, PdfPageWidget_new (Z.of_nat i)) <$> seq 0 n)
  = Z.of_nat <$> seq 0 n.
Proof. rewrite <- list_fmap_compose. reflexivity. Qed.

(** Indices that select pages by lookup select them with [reader.pages[i]]. *)
Lemma lookups_getitem (pages : list Page) order out :
  Forall (λ index, 0 ≤ index)%Z order →
  Forall2 (λ index page, pages !! Z.to_nat index = Some page) order out →
  Forall2 (λ index page,
             ∀ w, pages_getitem {| is_encrypted := false; stream_pages := pages |}
                    index w = (w, Ok page)) order out.
Proof.
  intros Hpos Hout. induction Hout as [|index page rest out' Hpage _ IH]; constructor.
  - apply Forall_cons in Hpos as [Hi _]. intros w.
    apply pages_getitem_nonneg; [reflexivity | exact Hi | exact Hpage].
  - apply IH. apply Forall_cons in Hpos as [_ Hpos]. exact Hpos.
Qed.

End GridFacts.

Section Grid.
Import Py Os Pypdf Spec Terms PypdfFacts ReorderFacts WindowFacts GridFacts.
Import IAtePDFs.

(** X8.  After a readable document of N pages is selected, whatever drags
    and delete clicks follow in the grid, the grid holds each page index from
    0 to N-1 exactly once, the document stays the reorder source, and no file
    is touched. *)
Theorem X8_grid_holds_each_page_once Path_stem host w self row path d evs :
  merge_list_box self !! row = Some {| file_path := path |} →
  readable w path d →
  Forall (λ ev, is_page_event ev = true) evs →
  original_page_index
    <$> reorder_flow_box (run Path_stem host (row_selected (Some row) :: evs) (self, w)).1
    ≡ₚ Z.of_nat <$> seq 0 (length (doc_pages d))
  ∧ reorder_source_path (run Path_stem host (row_selected (Some row) :: evs) (self, w)).1
    = Some path
  ∧ (run Path_stem host (row_selected (Some row) :: evs) (self, w)).2 = w.
Proof.
  intros Hrow Hread Hevs.
  destruct (row_selected_readable Path_stem host w self row path d Hrow Hread)
    as (loaded & Hload & Hbox & Hsource & _ & _).
  destruct (page_events_run Path_stem host evs loaded w Hevs) as (box & Hrun & Hperm & _).
  change (run Path_stem host (row_selected (Some row) :: evs) (self, w))
    with (run Path_stem host evs (handle Path_stem host (row_selected (Some row)) (self, w))).
  rewrite Hload, Hrun. simpl. split; [|split; [exact Hsource | reflexivity]].
  rewrite Hperm, Hbox. rewrite fresh_widgets_indices. reflexivity.
Qed.

Lemma X8_witness :
  original_page_index
    <$> reorder_flow_box
          (run Samples.sample_stem Samples.no_gs
             (row_selected (Some 1%nat) :: MoreSamples.grid_events)
             (MoreSamples.two_rows, Samples.home)).1
    ≡ₚ Z.of_nat <$> seq 0 (length (doc_pages Samples.four_pages))
  ∧ reorder_source_path
      (run Samples.sample_stem Samples.no_gs
         (row_selected (Some 1%nat) :: MoreSamples.grid_events)
         (MoreSamples.two_rows, Samples.home)).1
    = Some "/home/u/four.pdf"
  ∧ (run Samples.sample_stem Samples.no_gs
       (row_selected (Some 1%nat) :: MoreSamples.grid_events)
       (MoreSamples.two_rows, Samples.home)).2
    = Samples.home.
Proof.
  apply (X8_grid_holds_each_page_once Samples.sample_stem Samples.no_gs Samples.home
           MoreSamples.two_rows 1%nat "/home/u/four.pdf" Samples.four_pages
           MoreSamples.grid_events).
  - vm_compute. reflexivity.
  - split; reflexivity.
  - repeat constructor.
Defined.

(** X9.  After a readable document is selected, whatever drags and delete
    clicks follow, saving cannot fail on an index: [_run_reorder_task] hands
    the worker the indices of the unmarked widgets in grid order, no index
    twice, and the worker's [_reorder_pdf_pages] succeeds and writes exactly
    the pages these indices name, in that order (the source being unchanged
    since the load). *)
Theorem X9_save_after_grid_edits_succeeds Path_stem host w self row path d evs output_path :
  merge_list_box self !! row = Some {| file_path := path |} →
  readable w path d →
  path ≠ "" →
  Forall (λ ev, is_page_event ev = true) evs →
  ∃ order pages,
    order
    = original_page_index
        <$> filter (λ child, is_deleted child = false)
              (reorder_flow_box
                 (run Path_stem host (row_selected (Some row) :: evs) (self, w)).1)
    ∧ threads (_run_reorder_task output_path
                 (run Path_stem host (row_selected (Some row) :: evs) (self, w)).1)
      = (threads self ++ [reorder_thread output_path order])%list
    ∧ NoDup order
    ∧ Forall2 (λ index page, doc_pages d !! Z.to_nat index = Some page) order pages
    ∧ task_result Path_stem host (reorder_thread output_path order)
        (_run_reorder_task output_path
           (run Path_stem host (row_selected (Some row) :: evs) (self, w)).1) w
      = (with_pdf output_path pages w, Ok (true, "Successfully reordered pages.")).
Proof.
  intros Hrow Hread Hpath Hevs.
  destruct (row_selected_readable Path_stem host w self row path d Hrow Hread)
    as (loaded & Hload & Hbox & Hsource & Hmerge & Hthreads).
  destruct (page_events_run Path_stem host evs loaded w Hevs) as (box & Hrun & Hperm & _).
  change (run Path_stem host (row_selected (Some row) :: evs) (self, w))
    with (run Path_stem host evs (handle Path_stem host (row_selected (Some row)) (self, w))).
  rewrite Hload, Hrun. cbn [fst].
  rewrite Hbox, fresh_widgets_indices in Hperm.
  set (order := original_page_index <$> filter (λ child, is_deleted child = false) box).
  assert (order `sublist_of` original_page_index <$> box) as Hsub.
  { subst order. apply fmap_sublist, sublist_filter. }
  assert (NoDup order) as Hnodup.
  { eapply sublist_NoDup; [|exact Hsub]. rewrite Hperm.
    apply NoDup_fmap_2; [apply _ | apply NoDup_seq]. }
  assert (Forall (λ index, 0 ≤ id index < Z.of_nat (length (doc_pages d)))%Z order)
    as Hrange.
  { apply Forall_forall. intros index Hin.
    apply (elem_of_sublist _ _ _ Hin) in Hsub. rewrite Hperm in Hsub.
    apply list_elem_of_fmap in Hsub as (k & -> & Hk). apply elem_of_seq in Hk.
    unfold id. lia. }
  destruct (in_range_pages (doc_pages d) id order Hrange) as [pages Hpages].
  exists order, pages.
  assert (merge_list_box self ≠ []) as Hrows.
  { intros Hnil. rewrite Hnil in Hrow. discriminate. }
  assert (_run_reorder_task output_path (set_reorder_flow_box box loaded)
          = start_thread (reorder_thread output_path order)
              (_set_processing_state true "Saving reordered PDF..."
                 (set_reorder_flow_box box loaded))) as Hstart.
  { unfold _run_reorder_task. cbn [reorder_source_path set_reorder_flow_box].
    rewrite Hsource. simpl. rewrite (bool_decide_eq_false_2 _ Hpath). reflexivity. }
  rewrite Hstart. clear Hstart.
  unfold _set_processing_state.
  set (busy := set_is_processing true (set_reorder_flow_box box loaded)).
  destruct (update_ui_state_frame busy) as (_ & _ & _ & _ & _ & _ & Hthreads' & _).
  destruct (update_ui_state_keeps_selection busy) as [_ Hsource'].
  { subst busy. simpl. rewrite Hmerge. exact Hrows. }
  split; [reflexivity|]. split.
  { simpl. rewrite Hthreads'. subst busy. simpl. rewrite Hthreads. reflexivity. }
  split; [exact Hnodup|]. split; [exact Hpages|].
  simpl. rewrite Hsource'. subst busy. simpl. rewrite Hsource.
  rewrite _reorder_pdf_pages_agree.
  apply (reorder_pdf_pages_ok w path output_path order d pages Hread).
  apply lookups_getitem; [|exact Hpages].
  eapply Forall_impl; [exact Hrange|]. unfold id. intros index Hi. lia.
Qed.

Lemma X9_witness :
  ∃ order pages,
    order
    = original_page_index
        <$> filter (λ child, is_deleted child = false)
              (reorder_flow_box
                 (run Samples.sample_stem Samples.no_gs
                    (row_selected (Some 1%nat) :: MoreSamples.grid_events)
                    (MoreSamples.two_rows, Samples.home)).1)
    ∧ threads (_run_reorder_task "/home/u/out.pdf"
                 (run Samples.sample_stem Samples.no_gs
                    (row_selected (Some 1%nat) :: MoreSamples.grid_events)
                    (MoreSamples.two_rows, Samples.home)).1)
      = (threads MoreSamples.two_rows ++ [reorder_thread "/home/u/out.pdf" order])%list
    ∧ NoDup order
    ∧ Forall2 (λ index page, doc_pages Samples.four_pages !! Z.to_nat index = Some page)
        order pages
    ∧ task_result Samples.sample_stem Samples.no_gs (reorder_thread "/home/u/out.pdf" order)
        (_run_reorder_task "/home/u/out.pdf"
           (run Samples.sample_stem Samples.no_gs
              (row_selected (Some 1%nat) :: MoreSamples.grid_events)
              (MoreSamples.two_rows, Samples.home)).1) Samples.home
      = (with_pdf "/home/u/out.pdf" pages Samples.home,
         Ok (true, "Successfully reordered pages.")).
Proof.
  apply (X9_save_after_grid_edits_succeeds Samples.sample_stem Samples.no_gs Samples.home
           MoreSamples.two_rows 1%nat "/home/u/four.pdf" Samples.four_pages
           MoreSamples.grid_events "/home/u/out.pdf").
  - vm_compute. reflexivity.
  - split; reflexivity.
  - discriminate.
  - repeat constructor.
Defined.

(** X10.  A deletion mark can always be taken back: in the grid reached after
    a load and any drags and delete clicks, two clicks on the same delete
    toggle leave the window exactly as it was. *)
Theorem X10_delete_toggle_twice_restores Path_stem host w self row path d evs position :
  merge_list_box self !! row = Some {| file_path := path |} →
  readable w path d →
  Forall (λ ev, is_page_event ev = true) evs →
  handle Path_stem host (page_delete_clicked position)
    (handle Path_stem host (page_delete_clicked position)
       (run Path_stem host (row_selected (Some row) :: evs) (self, w)))
  = run Path_stem host (row_selected (Some row) :: evs) (self, w).
Proof.
  intros Hrow Hread Hevs.
  destruct (row_selected_readable Path_stem host w self row path d Hrow Hread)
    as (loaded & Hload & Hbox & _).
  destruct (page_events_run Path_stem host evs loaded w Hevs) as (box & Hrun & _ & Hsync).
  change (run Path_stem host (row_selected (Some row) :: evs) (self, w))
    with (run Path_stem host evs (handle Path_stem host (row_selected (Some row)) (self, w))).
  rewrite Hload, Hrun.
  assert (Forall (λ c, is_deleted c = delete_button_active c) box) as Hbox_sync.
  { apply Hsync. rewrite Hbox. apply Forall_fmap, Forall_forall. intros i _. reflexivity. }
  unfold handle. cbn [reorder_flow_box set_reorder_flow_box].
  rewrite alter_twice; [reflexivity|].
  eapply Forall_impl; [exact Hbox_sync|]. apply click_delete_button_twice.
Qed.

Lemma X10_witness :
  handle Samples.sample_stem Samples.no_gs (page_delete_clicked 1)
    (handle Samples.sample_stem Samples.no_gs (page_delete_clicked 1)
       (run Samples.sample_stem Samples.no_gs
          (row_selected (Some 1%nat) :: MoreSamples.grid_events)
          (MoreSamples.two_rows, Samples.home)))
  = run Samples.sample_stem Samples.no_gs
      (row_selected (Some 1%nat) :: MoreSamples.grid_events)
      (MoreSamples.two_rows, Samples.home).
Proof.
  apply (X10_delete_toggle_twice_restores Samples.sample_stem Samples.no_gs Samples.home
           MoreSamples.two_rows 1%nat "/home/u/four.pdf" Samples.four_pages
           MoreSamples.grid_events 1%nat).
  - vm_compute. reflexivity.
  - split; reflexivity.
  - repeat constructor.
Defined.

End Grid.

(** *** Files dropped on the window, and the end of a task *)

Module WindowMore.
Import Py Os Pypdf Spec Terms PypdfFacts WindowFacts GateFacts MergeMore.
Import IAtePDFs.

(** Loading touches the reorder view and the toasts only. *)
Lemma _load_pdf_for_reordering_rows path w self :
  merge_list_box (_load_pdf_for_reordering path w self) = merge_list_box self.
Proof.
  unfold _load_pdf_for_reordering, PdfReader_new, pages_len, raise, ret.
  destruct (files w !! path) as [[d|bytes]|]; try reflexivity.
  simpl. destruct (doc_encrypted d); reflexivity.
Qed.

Lemma _on_file_selected_rows row w self :
  merge_list_box (_on_file_selected row w self) = merge_list_box self.
Proof.
  unfold _on_file_selected. rewrite (proj1 (proj2 (update_ui_state_frame _))).
  destruct row as [row|]; [|reflexivity].
  rewrite _load_pdf_for_reordering_rows. reflexivity.
Qed.

Lemma add_rows pdf_paths : ∀ self,
  merge_list_box (foldl (λ self path, _add_pdf_to_merge_list path self) self pdf_paths)
  = (merge_list_box self ++ ((λ path, {| file_path := path |}) <$> pdf_paths))%list.
Proof.
  induction pdf_paths as [|path rest IH]; intros self; simpl.
  - rewrite app_nil_r. reflexivity.
  - rewrite IH. simpl. rewrite <- app_assoc. reflexivity.
Qed.

Lemma _handle_files_rows pdf_paths w self :
  merge_list_box (_handle_files pdf_paths w self)
  = (merge_list_box self ++ ((λ path, {| file_path := path |}) <$> pdf_paths))%list.
Proof.
  unfold _handle_files. rewrite (proj1 (proj2 (update_ui_state_frame _))).
  destruct (_ && _).
  - destruct (_ !! 0%nat); [rewrite _on_file_selected_rows|]; rewrite add_rows; reflexivity.
  - rewrite add_rows. reflexivity.
Qed.

(** The comprehension of the drop handler keeps the paths that pass the
    test, in order. *)
Lemma dropped_pdf_files (files : list (option string)) :
  omap (λ f : option string,
          match f with
          | Some path =>
              if truthy (Some path) && endswith (lower path) ".pdf"
              then Some path else None
          | None => None
          end) files
  = filter (λ path, is_pdf_path path = true) (omap id files).
Proof.
  induction files as [|[path|] rest IH]; simpl; [reflexivity | | exact IH].
  unfold is_pdf_path at 1. simpl.
  destruct (negb (bool_decide (path = "")) && endswith (lower path) ".pdf") eqn:Hpdf.
  - rewrite filter_cons_True by (unfold is_pdf_path; exact Hpdf). f_equal. exact IH.
  - rewrite filter_cons_False by (unfold is_pdf_path; simpl; congruence). exact IH.
Qed.

(** What [_on_task_finished] leaves alone, and what it adds. *)
Lemma _on_task_finished_frame success message clear_merge self :
  toasts (_on_task_finished success message clear_merge self)
    = (toasts self ++ [message])%list
  ∧ dialogs (_on_task_finished success message clear_merge self) = dialogs self
  ∧ threads (_on_task_finished success message clear_merge self) = threads self
  ∧ idle_sources (_on_task_finished success message clear_merge self) = idle_sources self.
Proof.
  unfold _on_task_finished, _set_processing_state.
  destruct (success && clear_merge).
  - destruct (update_ui_state_frame
                (set_reorder_source_path None
                   (_clear_reorder_view
                      (set_selected_pdf None
                         (set_merge_list_box []
                            (add_toast message
                               (update_ui_state (set_is_processing false self))))))))
      as (_ & _ & _ & _ & -> & -> & -> & ->). simpl.
    destruct (update_ui_state_frame (set_is_processing false self))
      as (_ & _ & _ & _ & -> & -> & -> & ->). repeat split; reflexivity.
  - simpl.
    destruct (update_ui_state_frame (set_is_processing false self))
      as (_ & _ & _ & _ & -> & -> & -> & ->). repeat split; reflexivity.
Qed.

(** With no row left, [update_ui_state] shows the placeholder and drops both
    selections. *)
Lemma update_ui_state_no_rows self :
  merge_list_box self = [] →
  selected_pdf (update_ui_state self) = None
  ∧ reorder_source_path (update_ui_state self) = None
  ∧ main_stack (update_ui_state self) = "placeholder".
Proof.
  intros Hrows. unfold update_ui_state. rewrite Hrows. simpl.
  repeat split; reflexivity.
Qed.

(** A worker's operation reads the quality and the reorder source of the
    window, not its list of workers. *)
Lemma task_result_set_threads Path_stem host task workers self :
  task_result Path_stem host task (set_threads workers self)
  = task_result Path_stem host task self.
Proof. destruct task; reflexivity. Qed.

(** A chooser's callback starts a worker after its start toast, or returns
    at its guard. *)
Lemma call_callback_cases callback path self :
  call_callback callback path self = self
  ∨ ∃ task,
      call_callback callback path self
      = start_thread task (_set_processing_state true (start_message callback) self).
Proof.
  destruct callback; simpl;
    unfold _run_compress_task, _run_split_task, _run_merge_task, _run_reorder_task.
  - destruct (selected_pdf self); [|auto]. destruct (negb _); eauto.
  - destruct (selected_pdf self); [|auto]. destruct (negb _); eauto.
  - eauto.
  - destruct (negb _); eauto.
Qed.

End WindowMore.

Section DropAndFinish.
Import Py Os Pypdf Spec Terms PypdfFacts WindowFacts GateFacts MergeMore WindowMore.
Import IAtePDFs.

(** X11.  While no task is processing, a drop on the window appends one row
    per dropped path that is not empty and ends in ".pdf" (in any case of
    letters), in drop order, after the rows already there; it removes and
    reorders no row and does not look for duplicates, and a drop without
    such a path leaves the window as it was. *)
Theorem X11_drop_appends_pdf_rows files w self :
  is_processing self = false →
  merge_list_box (_on_drop files w self)
    = (merge_list_box self
       ++ ((λ path, {| file_path := path |})
             <$> filter (λ path, is_pdf_path path = true) (omap id files)))%list
  ∧ (filter (λ path, is_pdf_path path = true) (omap id files) = [] →
     _on_drop files w self = self).
Proof.
  intros Hidle. unfold _on_drop. rewrite Hidle, orb_false_r.
  case_bool_decide as Hfiles.
  - subst files. simpl. rewrite app_nil_r. auto.
  - rewrite dropped_pdf_files.
    destruct (filter (λ path, is_pdf_path path = true) (omap id files)) as [|path rest] eqn:Hpdf.
    + simpl. rewrite app_nil_r. auto.
    + simpl. split; [|discriminate]. apply _handle_files_rows.
Qed.

Lemma X11_witness :
  merge_list_box
    (_on_drop [Some "/home/u/notes.txt"; Some "/home/u/FOUR.PDF"; None; Some "/home/u/abc.pdf"]
       Samples.home MoreSamples.two_rows)
    = (merge_list_box MoreSamples.two_rows
       ++ ((λ path, {| file_path := path |})
             <$> filter (λ path, is_pdf_path path = true)
                   (omap id [Some "/home/u/notes.txt"; Some "/home/u/FOUR.PDF"; None;
                             Some "/home/u/abc.pdf"])))%list
  ∧ (filter (λ path, is_pdf_path path = true)
       (omap id [Some "/home/u/notes.txt"; Some "/home/u/FOUR.PDF"; None;
                 Some "/home/u/abc.pdf"]) = [] →
     _on_drop [Some "/home/u/notes.txt"; Some "/home/u/FOUR.PDF"; None; Some "/home/u/abc.pdf"]
       Samples.home MoreSamples.two_rows
     = MoreSamples.two_rows).
Proof.
  apply (X11_drop_appends_pdf_rows
           [Some "/home/u/notes.txt"; Some "/home/u/FOUR.PDF"; None; Some "/home/u/abc.pdf"]
           Samples.home MoreSamples.two_rows).
  vm_compute. reflexivity.
Defined.

(** A worker that runs and whose completion is handled next, with no other
    completion waiting: the operation's world, and the window after
    [_on_task_finished]. *)
Lemma worker_then_completion Path_stem host self w position task w' success message :
  threads self !! position = Some task →
  idle_sources self = [] →
  task_result Path_stem host task
    (set_threads (delete position (threads self)) self) w = (w', Ok (success, message)) →
  run Path_stem host [thread_runs position; idle_runs] (self, w)
  = (_on_task_finished success message (task_clear_merge task)
       (set_threads (delete position (threads self)) self), w').
Proof.
  intros Hthread Hidle Hresult.
  change (run Path_stem host [thread_runs position; idle_runs] (self, w))
    with (handle Path_stem host idle_runs
            (handle Path_stem host (thread_runs position) (self, w))).
  assert (handle Path_stem host (thread_runs position) (self, w)
          = (idle_add success message (task_clear_merge task)
               (set_threads (delete position (threads self)) self), w')) as ->.
  { unfold handle. rewrite Hthread. unfold run_task. rewrite Hresult. reflexivity. }
  unfold handle. cbn [idle_sources idle_add set_idle_sources set_threads].
  rewrite Hidle. cbn [app idle_success idle_message idle_clear_merge].
  f_equal. f_equal. destruct self. simpl in Hidle. subst. reflexivity.
Qed.

(** X12.  When a merge worker has run and its completion has been handled,
    the window is idle again and shows the outcome.  If every input was
    readable, the output holds the inputs' pages and the window is cleared:
    no row, no page widget, no selection, the placeholder shown.  If one
    input was not, nothing was written and the rows and the grid are as they
    were, so that the merge can be tried again. *)
Theorem X12_merge_completion Path_stem host self w position pdf_paths output_path :
  threads self !! position = Some (merge_thread pdf_paths output_path) →
  idle_sources self = [] →
  is_processing (run Path_stem host [thread_runs position; idle_runs] (self, w)).1 = false
  ∧ (∀ docs, Forall2 (readable w) pdf_paths docs →
       (run Path_stem host [thread_runs position; idle_runs] (self, w)).2
       = with_pdf output_path (concat (doc_pages <$> docs)) w
       ∧ merge_list_box (run Path_stem host [thread_runs position; idle_runs] (self, w)).1
         = []
       ∧ reorder_flow_box (run Path_stem host [thread_runs position; idle_runs] (self, w)).1
         = []
       ∧ selected_pdf (run Path_stem host [thread_runs position; idle_runs] (self, w)).1
         = None
       ∧ reorder_source_path
           (run Path_stem host [thread_runs position; idle_runs] (self, w)).1 = None
       ∧ main_stack (run Path_stem host [thread_runs position; idle_runs] (self, w)).1
         = "placeholder")
  ∧ (Exists (λ path, ∀ d, ¬ readable w path d) pdf_paths →
       (run Path_stem host [thread_runs position; idle_runs] (self, w)).2 = w
       ∧ merge_list_box (run Path_stem host [thread_runs position; idle_runs] (self, w)).1
         = merge_list_box self
       ∧ reorder_flow_box (run Path_stem host [thread_runs position; idle_runs] (self, w)).1
         = reorder_flow_box self).
Proof.
  intros Hthread Hidle.
  split; [|split].
  - destruct (task_result_returns Path_stem host (merge_thread pdf_paths output_path)
                (set_threads (delete position (threads self)) self) w)
      as (w' & [success message] & Hresult); [discriminate|].
    rewrite (worker_then_completion _ _ _ _ _ _ _ _ _ Hthread Hidle Hresult).
    apply is_processing__on_task_finished.
  - intros docs Hread.
    assert (task_result Path_stem host (merge_thread pdf_paths output_path)
              (set_threads (delete position (threads self)) self) w
            = (with_pdf output_path (concat (doc_pages <$> docs)) w,
               Ok (true, "Successfully merged " +:+ pretty (length pdf_paths) +:+ " files.")))
      as Hresult.
    { change (Gtk4IatePDFs.merge_pdfs pdf_paths output_path w
              = (with_pdf output_path (concat (doc_pages <$> docs)) w,
                 Ok (true, "Successfully merged " +:+ pretty (length pdf_paths)
                           +:+ " files."))).
      unfold Gtk4IatePDFs.merge_pdfs, try_except, bind.
      rewrite (merge_loop_readable _ _ _ Hread). reflexivity. }
    rewrite (worker_then_completion _ _ _ _ _ _ _ _ _ Hthread Hidle Hresult).
    cbn [fst snd task_clear_merge]. split; [reflexivity|].
    unfold _on_task_finished. cbn [andb].
    match goal with |- context [update_ui_state ?s] =>
      match s with
      | set_reorder_source_path _ _ => set (cleared := s)
      end
    end.
    destruct (update_ui_state_frame cleared) as (_ & -> & -> & _).
    destruct (update_ui_state_no_rows cleared eq_refl) as (-> & -> & ->).
    repeat split; reflexivity.
  - intros Hbad.
    destruct (merge_loop_unreadable w pdf_paths Hbad PdfWriter_new) as [e Hloop].
    assert (task_result Path_stem host (merge_thread pdf_paths output_path)
              (set_threads (delete position (threads self)) self) w
            = (w, Ok (false, "Failed to merge PDFs: " +:+ str e))) as Hresult.
    { change (Gtk4IatePDFs.merge_pdfs pdf_paths output_path w
              = (w, Ok (false, "Failed to merge PDFs: " +:+ str e))).
      unfold Gtk4IatePDFs.merge_pdfs, try_except, bind. rewrite Hloop. reflexivity. }
    rewrite (worker_then_completion _ _ _ _ _ _ _ _ _ Hthread Hidle Hresult).
    cbn [fst snd task_clear_merge]. split; [reflexivity|].
    unfold _on_task_finished, _set_processing_state. cbn [andb].
    cbn [merge_list_box reorder_flow_box add_toast set_toasts].
    destruct (update_ui_state_frame
                (set_is_processing false (set_threads (delete position (threads self)) self)))
      as (_ & -> & -> & _).
    split; reflexivity.
Qed.

Lemma X12_witness :
  is_processing
    (run Samples.sample_stem (Samples.gs_exits 0 "") [thread_runs 1; idle_runs]
       (Samples.merge_accepted.1, Samples.home)).1 = false
  ∧ (∀ docs, Forall2 (readable Samples.home) ["/home/u/abc.pdf"; "/home/u/four.pdf"] docs →
       (run Samples.sample_stem (Samples.gs_exits 0 "") [thread_runs 1; idle_runs]
          (Samples.merge_accepted.1, Samples.home)).2
       = with_pdf "/home/u/merged.pdf" (concat (doc_pages <$> docs)) Samples.home
       ∧ merge_list_box
           (run Samples.sample_stem (Samples.gs_exits 0 "") [thread_runs 1; idle_runs]
              (Samples.merge_accepted.1, Samples.home)).1 = []
       ∧ reorder_flow_box
           (run Samples.sample_stem (Samples.gs_exits 0 "") [thread_runs 1; idle_runs]
              (Samples.merge_accepted.1, Samples.home)).1 = []
       ∧ selected_pdf
           (run Samples.sample_stem (Samples.gs_exits 0 "") [thread_runs 1; idle_runs]
              (Samples.merge_accepted.1, Samples.home)).1 = None
       ∧ reorder_source_path
           (run Samples.sample_stem (Samples.gs_exits 0 "") [thread_runs 1; idle_runs]
              (Samples.merge_accepted.1, Samples.home)).1 = None
       ∧ main_stack
           (run Samples.sample_stem (Samples.gs_exits 0 "") [thread_runs 1; idle_runs]
              (Samples.merge_accepted.1, Samples.home)).1 = "placeholder")
  ∧ (Exists (λ path, ∀ d, ¬ readable Samples.home path d)
       ["/home/u/abc.pdf"; "/home/u/four.pdf"] →
       (run Samples.sample_stem (Samples.gs_exits 0 "") [thread_runs 1; idle_runs]
          (Samples.merge_accepted.1, Samples.home)).2 = Samples.home
       ∧ merge_list_box
           (run Samples.sample_stem (Samples.gs_exits 0 "") [thread_runs 1; idle_runs]
              (Samples.merge_accepted.1, Samples.home)).1
         = merge_list_box Samples.merge_accepted.1
       ∧ reorder_flow_box
           (run Samples.sample_stem (Samples.gs_exits 0 "") [thread_runs 1; idle_runs]
              (Samples.merge_accepted.1, Samples.home)).1
         = reorder_flow_box Samples.merge_accepted.1).
Proof.
  apply (X12_merge_completion Samples.sample_stem (Samples.gs_exits 0 "")
           Samples.merge_accepted.1 Samples.home 1%nat
           ["/home/u/abc.pdf"; "/home/u/four.pdf"] "/home/u/merged.pdf").
  - vm_compute. reflexivity.
  - vm_compute. reflexivity.
Defined.

(** X13.  An operation shows two toasts and ends idle.  When the callback of
    a file chooser starts a worker, and the worker's operation returns its
    pair, then after the worker has run and its completion has been handled
    the window has gained exactly the callback's start message and then the
    message the operation returned, the world is the one the operation
    left, [is_processing] is false, and the workers, the idle queue and the
    open choosers are as before the start. *)
Theorem X13_operation_shows_start_then_outcome Path_stem host callback path self w task
    w' success message :
  idle_sources self = [] →
  threads (call_callback callback path self) = (threads self ++ [task])%list →
  task_result Path_stem host task (call_callback callback path self) w
    = (w', Ok (success, message)) →
  (run Path_stem host [thread_runs (length (threads self)); idle_runs]
     (call_callback callback path self, w)).2 = w'
  ∧ toasts (run Path_stem host [thread_runs (length (threads self)); idle_runs]
              (call_callback callback path self, w)).1
    = (toasts self ++ [start_message callback; message])%list
  ∧ is_processing (run Path_stem host [thread_runs (length (threads self)); idle_runs]
                     (call_callback callback path self, w)).1 = false
  ∧ threads (run Path_stem host [thread_runs (length (threads self)); idle_runs]
               (call_callback callback path self, w)).1 = threads self
  ∧ idle_sources (run Path_stem host [thread_runs (length (threads self)); idle_runs]
                    (call_callback callback path self, w)).1 = []
  ∧ dialogs (run Path_stem host [thread_runs (length (threads self)); idle_runs]
               (call_callback callback path self, w)).1 = dialogs self.
Proof.
  intros Hidle Hstarted Hresult.
  destruct (call_callback_cases callback path self) as [Hself|(task' & Hcall)].
  { rewrite Hself in Hstarted. apply (f_equal length) in Hstarted.
    rewrite length_app in Hstarted. simpl in Hstarted. lia. }
  assert (toasts (call_callback callback path self)
          = (toasts self ++ [start_message callback])%list
          ∧ idle_sources (call_callback callback path self) = []
          ∧ dialogs (call_callback callback path self) = dialogs self)
    as (Htoasts & Hidle' & Hdialogs).
  { rewrite Hcall. unfold _set_processing_state.
    cbn [toasts idle_sources dialogs start_thread set_threads add_toast set_toasts].
    destruct (update_ui_state_frame (set_is_processing true self))
      as (_ & _ & _ & _ & -> & -> & _ & ->). auto. }
  set (started := call_callback callback path self) in *.
  assert (threads started !! length (threads self) = Some task) as Hthread.
  { rewrite Hstarted. apply list_lookup_middle. reflexivity. }
  rewrite <- (task_result_set_threads Path_stem host task
                (delete (length (threads self)) (threads started)) started) in Hresult.
  rewrite (worker_then_completion _ _ _ _ _ _ _ _ _ Hthread Hidle' Hresult).
  cbn [fst snd]. split; [reflexivity|].
  destruct (_on_task_finished_frame success message (task_clear_merge task)
              (set_threads (delete (length (threads self)) (threads started)) started))
    as (-> & -> & -> & ->).
  cbn [toasts dialogs threads idle_sources set_threads].
  rewrite Htoasts, Hidle', Hdialogs, Hstarted, <- app_assoc.
  split; [reflexivity|]. split; [apply is_processing__on_task_finished|].
  split; [|auto].
  rewrite delete_middle, app_nil_r. reflexivity.
Qed.

Lemma X13_witness :
  (run Samples.sample_stem (Samples.gs_exits 1 "Unrecoverable error")
     [thread_runs (length (threads MoreSamples.two_rows)); idle_runs]
     (call_callback run_compress_task "/home/u/small.pdf" MoreSamples.two_rows,
      Samples.home)).2
  = MoreSamples.gs_failed
  ∧ toasts (run Samples.sample_stem (Samples.gs_exits 1 "Unrecoverable error")
              [thread_runs (length (threads MoreSamples.two_rows)); idle_runs]
              (call_callback run_compress_task "/home/u/small.pdf" MoreSamples.two_rows,
               Samples.home)).1
    = (toasts MoreSamples.two_rows
       ++ [start_message run_compress_task;
           "Ghostscript failed: Unrecoverable error"])%list
  ∧ is_processing
      (run Samples.sample_stem (Samples.gs_exits 1 "Unrecoverable error")
         [thread_runs (length (threads MoreSamples.two_rows)); idle_runs]
         (call_callback run_compress_task "/home/u/small.pdf" MoreSamples.two_rows,
          Samples.home)).1 = false
  ∧ threads
      (run Samples.sample_stem (Samples.gs_exits 1 "Unrecoverable error")
         [thread_runs (length (threads MoreSamples.two_rows)); idle_runs]
         (call_callback run_compress_task "/home/u/small.pdf" MoreSamples.two_rows,
          Samples.home)).1 = threads MoreSamples.two_rows
  ∧ idle_sources
      (run Samples.sample_stem (Samples.gs_exits 1 "Unrecoverable error")
         [thread_runs (length (threads MoreSamples.two_rows)); idle_runs]
         (call_callback run_compress_task "/home/u/small.pdf" MoreSamples.two_rows,
          Samples.home)).1 = []
  ∧ dialogs
      (run Samples.sample_stem (Samples.gs_exits 1 "Unrecoverable error")
         [thread_runs (length (threads MoreSamples.two_rows)); idle_runs]
         (call_callback run_compress_task "/home/u/small.pdf" MoreSamples.two_rows,
          Samples.home)).1 = dialogs MoreSamples.two_rows.
Proof.
  apply (X13_operation_shows_start_then_outcome Samples.sample_stem
           (Samples.gs_exits 1 "Unrecoverable error") run_compress_task "/home/u/small.pdf"
           MoreSamples.two_rows Samples.home
           (compress_thread "/home/u/abc.pdf" "/home/u/small.pdf")
           MoreSamples.gs_failed false "Ghostscript failed: Unrecoverable error").
  - vm_compute. reflexivity.
  - vm_compute. reflexivity.
  - vm_compute. reflexivity.
Defined.

End DropAndFinish.

(** *** The window of [gtk4IatePDFs.py] *)

Module Gtk4WindowFacts.
Import Py Os Pypdf Spec PypdfFacts.
Import Gtk4Window.

(** What [_set_processing_state] does to the flag, the lists and the
    buttons, whatever view is visible. *)
Lemma _set_processing_state_fields flag message self :
  Gtk4IatePDFs.is_processing (view (_set_processing_state flag message self)) = flag
  ∧ Gtk4IatePDFs.reorder_source_path (view (_set_processing_state flag message self))
    = Gtk4IatePDFs.reorder_source_path (view self)
  ∧ Gtk4IatePDFs.reorder_flow_box (view (_set_processing_state flag message self))
    = Gtk4IatePDFs.reorder_flow_box (view self)
  ∧ merge_list_box (_set_processing_state flag message self) = merge_list_box self
  ∧ threads (_set_processing_state flag message self) = threads self
  ∧ view_stack (_set_processing_state flag message self) = view_stack self
  ∧ merge_button (_set_processing_state flag message self)
    = (2 <=? length (merge_list_box self))%nat && negb flag
  ∧ Gtk4IatePDFs.reorder_button (view (_set_processing_state flag message self))
    = bool_decide (Gtk4IatePDFs.reorder_source_path (view self) ≠ None) && negb flag
  ∧ Gtk4IatePDFs.toasts (view (_set_processing_state flag message self))
    = (Gtk4IatePDFs.toasts (view self) ++ (if flag then [message] else []))%list.
Proof.
  unfold _set_processing_state, _update_reorder_view_state, _update_merge_view_state.
  cbn [view_stack set_view set_merge_button set_merge_view_stack set_is_processing].
  destruct (bool_decide (view_stack self = "compress"));
    destruct flag; simpl;
    destruct (Gtk4IatePDFs.reorder_source_path (view self)); simpl;
    rewrite ?app_nil_r; repeat split; reflexivity.
Qed.

(** [add_toast] adds a toast and nothing else. *)
Lemma add_toast_fields title self :
  merge_list_box (add_toast title self) = merge_list_box self
  ∧ merge_button (add_toast title self) = merge_button self
  ∧ merge_view_stack (add_toast title self) = merge_view_stack self
  ∧ Gtk4IatePDFs.is_processing (view (add_toast title self))
    = Gtk4IatePDFs.is_processing (view self).
Proof. repeat split; reflexivity. Qed.

(** [_update_merge_view_state] reads the rows and the flag. *)
Lemma _update_merge_view_state_fields self :
  merge_list_box (_update_merge_view_state self) = merge_list_box self
  ∧ merge_view_stack (_update_merge_view_state self)
    = (if (0 <? length (merge_list_box self))%nat then "list" else "placeholder")
  ∧ merge_button (_update_merge_view_state self)
    = (2 <=? length (merge_list_box self))%nat
      && negb (Gtk4IatePDFs.is_processing (view self))
  ∧ view (_update_merge_view_state self) = view self.
Proof. repeat split; reflexivity. Qed.

(** Emptying the merge list after a toast leaves the flag as it was. *)
Lemma emptied_list_fields message self :
  merge_list_box (set_merge_list_box [] (add_toast message self)) = []
  ∧ Gtk4IatePDFs.is_processing (view (set_merge_list_box [] (add_toast message self)))
    = Gtk4IatePDFs.is_processing (view self).
Proof. split; reflexivity. Qed.

Lemma _on_merge_finished_failure message self :
  _on_merge_finished false message self
  = add_toast message (_set_processing_state false "" self).
Proof. reflexivity. Qed.

Lemma _on_merge_finished_success message self :
  _on_merge_finished true message self
  = _update_merge_view_state
      (set_merge_list_box [] (add_toast message (_set_processing_state false "" self))).
Proof. reflexivity. Qed.

End Gtk4WindowFacts.

Section Gtk4Tasks.
Import Py Os Pypdf Spec PypdfFacts MergeMore Gtk4WindowFacts.
Import Gtk4Window.

(** X14.  In [gtk4IatePDFs.py] a successful save empties the grid but keeps
    the document as the reorder source: the grid view stays shown and the
    save button sensitive.  Saving again from there starts a thread with the
    empty order, and that thread's [reorder_pdf_pages] succeeds and writes a
    document without pages. *)
Theorem X14_gtk4_save_again_writes_no_pages w self path d message output_path :
  Gtk4IatePDFs.reorder_source_path (view self) = Some path →
  readable w path d →
  Gtk4IatePDFs.reorder_flow_box (view (_on_reorder_finished true message self)) = []
  ∧ Gtk4IatePDFs.reorder_source_path (view (_on_reorder_finished true message self))
    = Some path
  ∧ Gtk4IatePDFs.reorder_button (view (_on_reorder_finished true message self)) = true
  ∧ Gtk4IatePDFs.reorder_view_stack (view (_on_reorder_finished true message self)) = "grid"
  ∧ threads (_run_reorder_and_save output_path (_on_reorder_finished true message self))
    = (threads self ++ [reorder_thread (Some path) output_path []])%list
  ∧ (∀ started,
       (_run_reorder_task (Some path) output_path [] (started, w)).1.2
       = with_pdf output_path [] w
       ∧ (_run_reorder_task (Some path) output_path [] (started, w)).2
         = Some (true, "Successfully reordered pages.")).
Proof.
  intros Hsource [Hfile _].
  destruct (_set_processing_state_fields false "" self)
    as (Hflag & Hsource' & _ & _ & Hthreads & _).
  rewrite Hsource in Hsource'.
  unfold _on_reorder_finished, _run_reorder_and_save, _update_reorder_view_state.
  cbn [view set_view add_toast clear_reorder_flow_box threads set_threads
       Gtk4IatePDFs.reorder_source_path Gtk4IatePDFs.reorder_flow_box
       Gtk4IatePDFs.reorder_button Gtk4IatePDFs.reorder_view_stack
       Gtk4IatePDFs.is_processing Gtk4IatePDFs.add_toast
       Gtk4IatePDFs._update_reorder_view_state].
  rewrite Hsource', Hflag, Hthreads. simpl.
  repeat split; try reflexivity.
  - unfold _run_reorder_task, Gtk4IatePDFs.reorder_pdf_pages, try_except, bind, PdfReader_new.
    rewrite Hfile. reflexivity.
  - unfold _run_reorder_task, Gtk4IatePDFs.reorder_pdf_pages, try_except, bind, PdfReader_new.
    rewrite Hfile. reflexivity.
Qed.

Lemma X14_witness :
  Gtk4IatePDFs.reorder_flow_box
    (view (_on_reorder_finished true "Successfully reordered pages." MoreSamples.gtk4_loaded))
  = []
  ∧ Gtk4IatePDFs.reorder_source_path
      (view (_on_reorder_finished true "Successfully reordered pages."
               MoreSamples.gtk4_loaded))
    = Some "/home/u/four.pdf"
  ∧ Gtk4IatePDFs.reorder_button
      (view (_on_reorder_finished true "Successfully reordered pages."
               MoreSamples.gtk4_loaded)) = true
  ∧ Gtk4IatePDFs.reorder_view_stack
      (view (_on_reorder_finished true "Successfully reordered pages."
               MoreSamples.gtk4_loaded)) = "grid"
  ∧ threads (_run_reorder_and_save "/home/u/out.pdf"
               (_on_reorder_finished true "Successfully reordered pages."
                  MoreSamples.gtk4_loaded))
    = (threads MoreSamples.gtk4_loaded
       ++ [reorder_thread (Some "/home/u/four.pdf") "/home/u/out.pdf" []])%list
  ∧ (∀ started,
       (_run_reorder_task (Some "/home/u/four.pdf") "/home/u/out.pdf" []
          (started, Samples.home)).1.2
       = with_pdf "/home/u/out.pdf" [] Samples.home
       ∧ (_run_reorder_task (Some "/home/u/four.pdf") "/home/u/out.pdf" []
            (started, Samples.home)).2
         = Some (true, "Successfully reordered pages.")).
Proof.
  apply (X14_gtk4_save_again_writes_no_pages Samples.home MoreSamples.gtk4_loaded
           "/home/u/four.pdf" Samples.four_pages "Successfully reordered pages."
           "/home/u/out.pdf").
  - vm_compute. reflexivity.
  - split; reflexivity.
Defined.

(** X15.  In [gtk4IatePDFs.py] a merge runs on the calling thread and is
    then finished.  With every input readable, the output holds the inputs'
    pages and the finished window has an empty merge list, the placeholder
    shown and the merge button insensitive.  With an input that is not
    readable, no file is written, the list is kept, and the button is
    sensitive again exactly when at least two rows are listed. *)
Theorem X15_gtk4_merge_then_finish pdf_paths output_path self w :
  (∀ docs, Forall2 (readable w) pdf_paths docs →
     ∃ busy message,
       _run_merge pdf_paths output_path (self, w)
       = (busy, with_pdf output_path (concat (doc_pages <$> docs)) w, Some (true, message))
       ∧ merge_list_box (_on_merge_finished true message busy) = []
       ∧ merge_view_stack (_on_merge_finished true message busy) = "placeholder"
       ∧ merge_button (_on_merge_finished true message busy) = false
       ∧ Gtk4IatePDFs.is_processing (view (_on_merge_finished true message busy)) = false)
  ∧ (Exists (λ path, ∀ d, ¬ readable w path d) pdf_paths →
     ∃ busy message,
       _run_merge pdf_paths output_path (self, w) = (busy, w, Some (false, message))
       ∧ merge_list_box (_on_merge_finished false message busy) = merge_list_box self
       ∧ merge_button (_on_merge_finished false message busy)
         = (2 <=? length (merge_list_box self))%nat
       ∧ Gtk4IatePDFs.is_processing (view (_on_merge_finished false message busy)) = false).
Proof.
  destruct (_set_processing_state_fields true "Merging PDFs..." self)
    as (_ & _ & _ & Hrows & _).
  destruct (_set_processing_state_fields false ""
              (_set_processing_state true "Merging PDFs..." self))
    as (Hflag & _ & _ & Hrows' & _ & _ & Hbutton & _).
  split.
  - intros docs Hread.
    exists (_set_processing_state true "Merging PDFs..." self),
      ("Successfully merged " +:+ pretty (length pdf_paths) +:+ " files.").
    split.
    { unfold _run_merge, Gtk4IatePDFs.merge_pdfs, try_except, bind.
      rewrite (merge_loop_readable _ _ _ Hread). reflexivity. }
    rewrite _on_merge_finished_success.
    destruct (_update_merge_view_state_fields
                (set_merge_list_box []
                   (add_toast ("Successfully merged " +:+ pretty (length pdf_paths)
                               +:+ " files.")
                      (_set_processing_state false ""
                         (_set_processing_state true "Merging PDFs..." self)))))
      as (-> & -> & -> & ->).
    destruct (emptied_list_fields
                ("Successfully merged " +:+ pretty (length pdf_paths) +:+ " files.")
                (_set_processing_state false ""
                   (_set_processing_state true "Merging PDFs..." self)))
      as (-> & ->).
    rewrite Hflag. split; [reflexivity|]. split; [reflexivity|]. split; reflexivity.
  - intros Hbad.
    destruct (merge_loop_unreadable w pdf_paths Hbad PdfWriter_new) as [e Hloop].
    exists (_set_processing_state true "Merging PDFs..." self),
      ("Failed to merge PDFs: " +:+ str e).
    split.
    { unfold _run_merge, Gtk4IatePDFs.merge_pdfs, try_except, bind.
      rewrite Hloop. reflexivity. }
    rewrite _on_merge_finished_failure.
    destruct (add_toast_fields ("Failed to merge PDFs: " +:+ str e)
                (_set_processing_state false ""
                   (_set_processing_state true "Merging PDFs..." self)))
      as (-> & -> & _ & ->).
    rewrite Hrows', Hbutton, Hrows, Hflag, andb_true_r.
    split; [reflexivity|]. split; reflexivity.
Qed.

Lemma X15_witness :
  ∃ busy message,
    _run_merge ["/home/u/abc.pdf"; "/home/u/locked.pdf"; "/home/u/four.pdf"]
      "/home/u/merged.pdf" (MoreSamples.gtk4_three_rows, Samples.home)
    = (busy, Samples.home, Some (false, message))
    ∧ merge_list_box (_on_merge_finished false message busy)
      = merge_list_box MoreSamples.gtk4_three_rows
    ∧ merge_button (_on_merge_finished false message busy)
      = (2 <=? length (merge_list_box MoreSamples.gtk4_three_rows))%nat
    ∧ Gtk4IatePDFs.is_processing (view (_on_merge_finished false message busy)) = false.
Proof.
  apply (proj2 (X15_gtk4_merge_then_finish
                  ["/home/u/abc.pdf"; "/home/u/locked.pdf"; "/home/u/four.pdf"]
                  "/home/u/merged.pdf" MoreSamples.gtk4_three_rows Samples.home)).
  apply Exists_cons_tl, Exists_cons_hd.
  intros d [Hfile Hplain]. vm_compute in Hfile. injection Hfile as <-. discriminate.
Defined.

(** X16.  In [gtk4IatePDFs.py], once [_set_processing_state(True, ...)] has
    run, the merge and save buttons are insensitive whatever the lists hold,
    adding or removing rows does not make Merge sensitive again, a drop of
    files on any view is answered with the toast "A task is already in
    progress." and nothing else, and a close request is stopped. *)
Theorem X16_gtk4_busy_window_refuses message self :
  merge_button (_set_processing_state true message self) = false
  ∧ Gtk4IatePDFs.reorder_button (view (_set_processing_state true message self)) = false
  ∧ (∀ path,
       merge_button (_add_pdf_to_merge_list path (_set_processing_state true message self))
       = false)
  ∧ (∀ position,
       merge_button (_on_remove_clicked position (_set_processing_state true message self))
       = false)
  ∧ (∀ files w,
       files ≠ [] →
       _on_drop files w (_set_processing_state true message self)
       = add_toast "A task is already in progress."
           (_set_processing_state true message self))
  ∧ _on_close_request (_set_processing_state true message self)
    = (add_toast "Cannot close while a task is in progress."
         (_set_processing_state true message self), true).
Proof.
  destruct (_set_processing_state_fields true message self)
    as (Hflag & _ & _ & _ & _ & _ & Hmerge & Hreorder & _).
  rewrite andb_false_r in Hmerge, Hreorder.
  split; [exact Hmerge|]. split; [exact Hreorder|]. split; [|split; [|split]].
  - intros path. unfold _add_pdf_to_merge_list, _update_merge_view_state.
    cbn [merge_button set_merge_button set_merge_view_stack set_merge_list_box view].
    rewrite Hflag. apply andb_false_r.
  - intros position. unfold _on_remove_clicked, _update_merge_view_state.
    case_bool_decide; [exact Hmerge|].
    cbn [merge_button set_merge_button set_merge_view_stack set_merge_list_box view].
    rewrite Hflag. apply andb_false_r.
  - intros [|first rest] w Hfiles; [congruence|].
    unfold _on_drop. rewrite Hflag. reflexivity.
  - unfold _on_close_request. rewrite Hflag. reflexivity.
Qed.

Lemma X16_witness :
  _on_drop [Some "/home/u/abc.pdf"] Samples.home
    (_set_processing_state true "Saving PDF..." MoreSamples.gtk4_loaded)
  = add_toast "A task is already in progress."
      (_set_processing_state true "Saving PDF..." MoreSamples.gtk4_loaded).
Proof.
  destruct (X16_gtk4_busy_window_refuses "Saving PDF..." MoreSamples.gtk4_loaded)
    as (_ & _ & _ & _ & Hdrop & _).
  apply Hdrop. discriminate.
Defined.

End Gtk4Tasks.

(** *** The grid of [gtk4IatePDFs.py] *)

Module Gtk4GridFacts.
Import Py Os Pypdf Spec PypdfFacts ReorderFacts.
Import Gtk4Window.

(** A readable document with pages is loaded: one widget per page, in page
    order, and the document becomes the reorder source. *)
Lemma gtk4_load_readable w self path d :
  readable w path d →
  doc_pages d ≠ [] →
  Gtk4IatePDFs._load_pdf_for_reordering path w self
  = Gtk4IatePDFs._update_reorder_view_state true
      {| Gtk4IatePDFs.is_processing := Gtk4IatePDFs.is_processing self;
         Gtk4IatePDFs.reorder_source_path := Some path;
         Gtk4IatePDFs.reorder_flow_box :=
           Gtk4IatePDFs.page_widgets (length (doc_pages d));
         Gtk4IatePDFs.reorder_button := Gtk4IatePDFs.reorder_button self;
         Gtk4IatePDFs.reorder_view_stack := Gtk4IatePDFs.reorder_view_stack self;
         Gtk4IatePDFs.toasts := Gtk4IatePDFs.toasts self |}.
Proof.
  intros Hread Hpages. unfold Gtk4IatePDFs._load_pdf_for_reordering.
  rewrite (PdfReader_new_readable _ _ _ Hread). simpl.
  rewrite bool_decide_eq_false_2; [reflexivity|].
  intros Hlen. apply Hpages, nil_length_inv, Hlen.
Qed.

Lemma page_widgets_indices n :
  Gtk4IatePDFs.original_page_index <$> Gtk4IatePDFs.page_widgets n = Z.of_nat <$> seq 0 n.
Proof. unfold Gtk4IatePDFs.page_widgets. rewrite <- list_fmap_compose. reflexivity. Qed.

(** Drags change the grid only, and only the order of its widgets. *)
Lemma _on_page_drops_frame drags : ∀ self,
  Gtk4IatePDFs.reorder_flow_box (view (_on_page_drops drags self))
  ≡ₚ Gtk4IatePDFs.reorder_flow_box (view self)
  ∧ Gtk4IatePDFs.reorder_source_path (view (_on_page_drops drags self))
    = Gtk4IatePDFs.reorder_source_path (view self)
  ∧ threads (_on_page_drops drags self) = threads self.
Proof.
  induction drags as [|[source target] drags IH]; intros self; [done|].
  change (_on_page_drops ((source, target) :: drags) self)
    with (_on_page_drops drags (_on_page_drop source target self)).
  destruct (IH (_on_page_drop source target self)) as (Hbox & -> & ->).
  split; [|split; reflexivity].
  rewrite Hbox. apply _on_drop_child_Permutation.
Qed.

(** Looking up every position of a list gives the list. *)
Lemma omap_lookup_seq {A} (l : list A) :
  omap (λ i : nat, l !! i) (seq 0 (length l)) = l.
Proof.
  induction l as [|x l IH]; [reflexivity|].
  cbn [length]. rewrite <- cons_seq, <- fmap_S_seq.
  transitivity (x :: omap (λ i : nat, l !! i) (seq 0 (length l))); [|by rewrite IH].
  clear IH. cbn. f_equal.
  generalize (seq 0 (length l)). intros ks.
  induction ks as [|k ks IH]; [reflexivity|].
  cbn. destruct (l !! k); [f_equal|]; exact IH.
Qed.

(** An order that holds each index of a document once selects each of its
    pages once. *)
Lemma each_index_once_pages (pages out : list Page) (order : list Z) :
  order ≡ₚ Z.of_nat <$> seq 0 (length pages) →
  Forall2 (λ index page, pages !! Z.to_nat index = Some page) order out →
  out ≡ₚ pages.
Proof.
  intros Hperm Hout.
  assert (out = omap (λ index : Z, pages !! Z.to_nat index) order) as ->.
  { clear Hperm. induction Hout as [|index page rest out' Hpage _ IH]; [reflexivity|].
    cbn. rewrite Hpage. f_equal. exact IH. }
  rewrite Hperm.
  transitivity (omap (λ i : nat, pages !! i) (seq 0 (length pages)));
    [|by rewrite omap_lookup_seq].
  generalize (seq 0 (length pages)). intros ks.
  induction ks as [|k ks IH]; [reflexivity|].
  cbn. rewrite Nat2Z.id. destruct (pages !! k); [constructor|]; exact IH.
Qed.

End Gtk4GridFacts.

Section Gtk4Grid.
Import Py Os Pypdf Spec PypdfFacts ReorderFacts GridFacts Gtk4GridFacts.
Import Gtk4Window.

(** X17.  In [gtk4IatePDFs.py], after a readable document with pages is
    loaded into the grid, whatever drags follow, saving starts a thread on
    that document whose order holds each page index once, and the thread's
    [reorder_pdf_pages] succeeds and writes a rearrangement of the source's
    pages: no page is lost and none is written twice (the source being
    unchanged since the load). *)
Theorem X17_gtk4_save_after_drags_keeps_every_page w self path d drags output_path :
  readable w path d →
  doc_pages d ≠ [] →
  ∃ order out,
    threads (_run_reorder_and_save output_path
               (_on_page_drops drags
                  (set_view (Gtk4IatePDFs._load_pdf_for_reordering path w (view self)) self)))
    = (threads self ++ [reorder_thread (Some path) output_path order])%list
    ∧ order ≡ₚ Z.of_nat <$> seq 0 (length (doc_pages d))
    ∧ out ≡ₚ doc_pages d
    ∧ (∀ started,
         (_run_reorder_task (Some path) output_path order (started, w)).1.2
         = with_pdf output_path out w
         ∧ (_run_reorder_task (Some path) output_path order (started, w)).2
           = Some (true, "Successfully reordered pages.")).
Proof.
  intros Hread Hpages.
  set (loaded := set_view (Gtk4IatePDFs._load_pdf_for_reordering path w (view self)) self).
  destruct (_on_page_drops_frame drags loaded) as (Hbox & Hsource & Hthreads).
  assert (Gtk4IatePDFs.reorder_flow_box (view loaded)
          = Gtk4IatePDFs.page_widgets (length (doc_pages d))
          ∧ Gtk4IatePDFs.reorder_source_path (view loaded) = Some path
          ∧ threads loaded = threads self) as (Hbox' & Hsource' & Hthreads').
  { subst loaded. destruct self as [v ? ? ? ? ? ? ? ?]. cbn [view set_view threads].
    rewrite (gtk4_load_readable w v path d Hread Hpages). repeat split; reflexivity. }
  rewrite Hbox' in Hbox. rewrite Hsource' in Hsource. rewrite Hthreads' in Hthreads.
  set (order := Gtk4IatePDFs.original_page_index
                  <$> Gtk4IatePDFs.reorder_flow_box (view (_on_page_drops drags loaded))).
  assert (order ≡ₚ Z.of_nat <$> seq 0 (length (doc_pages d))) as Hperm.
  { subst order. rewrite Hbox, page_widgets_indices. reflexivity. }
  assert (Forall (λ index, 0 ≤ id index < Z.of_nat (length (doc_pages d)))%Z order)
    as Hrange.
  { apply Forall_forall. intros index Hin. rewrite Hperm in Hin.
    apply list_elem_of_fmap in Hin as (k & -> & Hk). apply elem_of_seq in Hk.
    unfold id. lia. }
  destruct (in_range_pages (doc_pages d) id order Hrange) as [out Hout].
  exists order, out. split; [|split; [exact Hperm|split]].
  - unfold _run_reorder_and_save. cbn [threads set_threads].
    rewrite Hthreads, Hsource. reflexivity.
  - apply (each_index_once_pages _ _ order); assumption.
  - intros started.
    assert (Gtk4IatePDFs.reorder_pdf_pages path output_path order w
            = (with_pdf output_path out w, Ok (true, "Successfully reordered pages.")))
      as Hsave.
    { apply (reorder_pdf_pages_ok w path output_path order d out Hread).
      apply lookups_getitem; [|exact Hout].
      eapply Forall_impl; [exact Hrange|]. unfold id. intros index Hi. lia. }
    unfold _run_reorder_task. rewrite Hsave. split; reflexivity.
Qed.

Lemma X17_witness :
  ∃ order out,
    threads (_run_reorder_and_save "/home/u/out.pdf"
               (_on_page_drops MoreSamples.gtk4_drags
                  (set_view (Gtk4IatePDFs._load_pdf_for_reordering "/home/u/four.pdf"
                               Samples.home (view MoreSamples.gtk4_window))
                     MoreSamples.gtk4_window)))
    = (threads MoreSamples.gtk4_window
       ++ [reorder_thread (Some "/home/u/four.pdf") "/home/u/out.pdf" order])%list
    ∧ order ≡ₚ Z.of_nat <$> seq 0 (length (doc_pages Samples.four_pages))
    ∧ out ≡ₚ doc_pages Samples.four_pages
    ∧ (∀ started,
         (_run_reorder_task (Some "/home/u/four.pdf") "/home/u/out.pdf" order
            (started, Samples.home)).1.2
         = with_pdf "/home/u/out.pdf" out Samples.home
         ∧ (_run_reorder_task (Some "/home/u/four.pdf") "/home/u/out.pdf" order
              (started, Samples.home)).2
           = Some (true, "Successfully reordered pages.")).
Proof.
  apply (X17_gtk4_save_after_drags_keeps_every_page Samples.home MoreSamples.gtk4_window
           "/home/u/four.pdf" Samples.four_pages MoreSamples.gtk4_drags "/home/u/out.pdf").
  - split; reflexivity.
  - discriminate.
Defined.

End Gtk4Grid.
